(* ===== verification/_CoqProject ===== *)
-Q . S2P
Prelude.v
Json.v
World.v
Paginator.v
Enricher.v
CsvWriter.v
CsvReader.v
Collector.v
Frames.v
Glob.v
Merger.v
MergerOutput.v
Pipeline.v
