(* ===== verification/Prelude.v ===== *)
(** * A verification development of the simtown GitHub scrapper

    The repository's scrapper ([src/scrapper/scrapper/]) has two Python
    programs:

    - [github_data_collector.py]: [get_github_data] sends one authenticated
      GET to the GitHub REST API and returns the decoded JSON body on status
      200 and [None] otherwise; [get_paginated_data] calls it for pages
      1, 2, 3, ... of an endpoint and concatenates the pages until one is
      falsy, optionally driving a [tqdm] progress bar whose total it first
      reads from the repository metadata; [collect_user_info] fetches
      [/users/<login>] for every collected identity and projects the answer
      onto a five-column profile record; [save_to_csv] writes the records
      with [csv.DictWriter]; [main] runs this pipeline twice (stargazers and
      forks).
    - [merge_csv.py]: [combine_csv_files] reads every CSV file matched by a
      glob with pandas, keys the rows by [github_profile_link] in an
      insertion-ordered dict (first row wins, later rows append their file
      name to [source_files]) and writes the combined table.

    ** Layout of the library (in dependency order)

    - [Prelude] (this file): the scope [scr_scope] ([+s+] is string
      append), the error monad on [sum], Python's [str.join], ordered
      dictionaries as association lists ([assoc_get] is [d.get(k)],
      [assoc_set] is [d[k] = v]) and first-seen deduplication ([add_new]),
      with their lemmas, the hint databases [scr] and [scr_rw] and the
      tactic [invc].
    - [Json]: the Python values that [response.json()] returns, their
      truthiness ([py_truthy]), [dict.get], subscripting, [len], [str] and
      iteration by [list.extend], each raising the exception Python raises.
    - [World]: the effects: a state and exception monad [PyM] over a
      [world] record (request log, printed lines, the file system as a
      [gmap], tqdm progress bars), the HTTP server behind [requests.get] as
      the type class [GitHubServer] (every theorem is stated against any
      instance), tqdm's operations, and [get_github_data] /
      [get_user_info] with a theorem per branch.
    - [Paginator]: [get_paginated_data] (its [while True] loop is
      [page_loop]), its contract [collects] (an inductive relation over the
      server's pages), the refinement theorems in both directions, the
      characterisation of termination and divergence, the progress-bar
      invariant, the error paths, [get_stargazers], [get_forks].
    - [Enricher]: [collect_user_info] (its loop is [collect_loop]), the two
      login extractors of [main], its contract [enrich_spec] and the
      refinement theorem; the skipped 404 and the raising identity.
    - [CsvWriter]: Python's csv dialect (QUOTE_MINIMAL quoting by the
      delimiter, the quote and the characters of the line terminator,
      doubled quotes, CR LF), the [DictWriter] rules for missing keys (restval) and
      extra keys ([ValueError]), [save_to_csv].
    - [CsvReader]: the CSV tokenizer behind [pd.read_csv] as a state
      machine (with [skip_blank_lines]: empty lines and lines of spaces
      and tabs are skipped, the [WHITESPACE_LINE] state), and the round
      trip: the tokenizer reads back what the writer wrote, for both line
      terminators, exactly for the records [readable_record] admits (not
      a lone whitespace field; with LF, no CR left unquoted).
    - [Collector]: [main] as its two blocks [collect_stargazers] and
      [collect_forkers], and the [__main__] block; one lemma runs the shape
      both blocks share; the normal path of each pipeline, the empty fork
      list, the false saved message, the two pipelines composed, a whole
      run on a concrete server.
    - [Frames]: the frame [pd.read_csv] builds from the tokenizer's
      records: pandas' default NA strings read as NaN, short records padded
      with NaN, long records rejected, the implicit index of a first record
      longer than the header, and the renaming of the header by pandas' C
      parser ([_get_header]: [Unnamed: i] for an empty name, then
      [name.k] suffixes by a [while] loop over a [counts] map, named
      columns first); frames are rectangular with distinct column names,
      the renaming loop terminates, and a header with distinct non-empty
      names (what [save_to_csv] writes) is kept.
    - [Glob]: [glob.glob] as Python 3.11 runs it: the pattern and the name
      split at [/], each component matched with [fnmatch], whose
      [translate] (bracket classes with ranges, negation and the removal
      of reversed ranges) is modelled item by item, and the hidden-name
      rule of [_glob1] per component; the matcher is proved equivalent to
      the regular-expression relation [imatches].
    - [Merger]: [merge_csv.py]'s merge loop [merge_files] / [merge_frame] /
      [merge_row] (lines 6-22); its contract [merge_spec]
      (distinct links in first-seen order, the first row of each, its files
      in order), the refinement theorem, the state invariant of
      [combined_data] (established, preserved by [merge_row], and used to
      show that [.append] never fails), the size bound, and the
      independence of the links and their sources from the file order
      ([Proper] instances for permutations).
    - [MergerOutput]: lines 24-38: the [from_dict] frame (columns in
      first-seen order, [frame_columns]; the row index as pandas' union of
      the columns' key lists, [frame_index]; [table_rows],
      [combined_table]), [to_csv] ([to_csv_text], terminator LF),
      [combine_csv_files] and [merge_entry]; the theorem on the written
      table with its read-back, one row per link (first-seen order when
      all files share their columns), the two error paths that write
      nothing, and examples: the specification's two files, the re-run
      over its own output, NA strings, trailing delimiters, mixed columns
      and a lone CR.
    - [Pipeline]: the two programs run one after the other in the same
      directory: [main], then [merge_csv.py]'s [__main__] block.  The
      composition theorem is proved by chaining the component theorems
      (the run of [main], the round trip of [save_to_csv] through
      [pd.read_csv], what [glob] lists, the merge refinement, the output
      of [combine_csv_files]): the merged file is the table of the
      profiles [main] collected.

    ** What the theorems show

    Refinement: [page_loop], [get_paginated_data], [collect_user_info] and
    [merge_files] compute exactly what their contracts allow.  Equivalence:
    [glob]'s matcher decides the declarative relation [glob_matches], a
    bracket range matches exactly its interval; the merged links and
    their source files do not depend on the order of the files, up to
    permutation (the [Proper] instances of [Merger] for [≡ₚ]), while the
    row kept for a link does.  Types and invariants:
    frames are rectangular and their columns distinct; [combined_data] keeps
    distinct keys and a non-empty [source_files] list per key; the progress
    bar ends as the theorems say.  Termination: the pagination loop stops
    iff some page is not a truthy iterable; the header renaming loop of
    pandas always stops.  Round
    trips: [save_to_csv] then the tokenizer gives back the header and the
    cells, and [pd.read_csv] the frame of the keys and the values (NA
    strings as NaN), unless a record is a lone field of whitespace; the
    merger's output reads back as its table when no text holds a CR that
    the LF writer leaves bare (examples show both side conditions are
    needed).  Bounds: at most
    one request and one row per identity; at most one merged row per row
    read, exactly one per distinct link.  Errors: every exception or silent
    truncation the code can reach on its inputs is a theorem with its
    concrete witness (transport failure, failed pages, failed metadata,
    failed profiles, extra keys, long records, missing link column, no
    rows at all), and the merge raises nothing else.  Composition: [main]
    runs the two pipelines in order and writes both files, and the
    merger run after it writes the merged table of exactly the profiles
    [main] collected.

    ** Bounds and fuel

    The pagination loop of [get_paginated_data] has no bound in the code
    ([while True]); the model takes a [fuel] argument, one unit per page
    request, and the theorems show that fuel [k + 1] suffices when page
    [k + 1] is the first falsy page, and that no fuel suffices when no page
    is ever falsy.  [main] passes the same fuel to both pipelines.  The
    [while cur_count > 0] loop of pandas' header renaming gets the fuel
    [length header + 2]: every iteration but the last two meets a
    distinct name [old.k] of the header, so it never runs out
    ([Frames.mangle_header_spec]).  [fnmatch.translate] gets the fuel
    [length pattern]: every iteration consumes a character, and any larger
    fuel gives the same items.  Every other loop of the program runs over
    a finite list and is structural.
    Integers are unbounded in Python and are [Z] here.

    ** Not modelled

    HTTP transport, TLS and JSON decoding are library calls the sources
    only make: the server is an abstract [GitHubServer] instance that
    answers a request with a status and an already decoded body (or a
    transport failure).  Floating point JSON numbers are not modelled
    (GitHub's counts are integers).  The rendering of progress bars on a
    terminal is not modelled; their counters, postfix and closing are.
    Of pandas, the dtype inference of [read_csv] (numeric and boolean
    columns: cells stay strings) is not modelled: it depends on pandas'
    float parsing and repr, which a string model cannot follow; a link
    column without any text (a float column whose NaNs are distinct
    objects) is not modelled for the same reason.  pandas and [glob] are
    libraries, not code of the repository: their models follow the
    sources of pandas 2's C parser and of Python 3.11's [glob] and
    [fnmatch].  One path of pandas' tokenizer is simplified: a line of
    leading whitespace that follows a line ended by a bare CR backtracks,
    in pandas, to the previous LF; the model re-reads only the line's own
    whitespace (the same result whenever lines end with LF or CR LF, as
    in every theorem's input).  Recursive [**] needs [recursive=True],
    which the code does not pass.  The [__main__] block of
    the collector is [main] with a page fuel; that of the merger is
    [combine_csv_files] on [*.csv] and [combined_data.csv]. *)

From stdpp Require Export base list strings gmap pretty.
From Stdlib Require Export ZArith.

Declare Scope scr_scope.
Delimit Scope scr_scope with scr.
Open Scope scr_scope.

(** String concatenation, written [+s+] so that it never competes with
    list append [++] of stdpp. *)
Infix "+s+" := String.append (at level 60, right associativity) : scr_scope.

(** ** The error monad [E + A]

    A pure Python computation that may raise: [inl e] is the exception,
    [inr a] the value; [x ← m; k] runs [k] only on a value. *)

#[export] Instance sum_ret {E} : MRet (sum E) := λ A a, inr a.
#[export] Instance sum_bind {E} : MBind (sum E) :=
  λ A B f m, match m with inl e => inl e | inr a => f a end.

(** ** Python's [sep.join(xs)] *)

Fixpoint join (sep : string) (xs : list string) : string :=
  match xs with
  | [] => ""
  | [x] => x
  | x :: xs' => x +s+ sep +s+ join sep xs'
  end.

(** ** Insertion-ordered dictionaries

    A Python [dict] keeps its keys in insertion order and each key once;
    the model is an association list.  [assoc_get] is [d.get(k)] as an
    option; [assoc_set] is [d[k] = v]: in place when the key is present,
    appended at the end otherwise. *)

Section Assoc.
  Context {K V : Type} `{EqDecision K}.

Fixpoint assoc_get (k : K) (d : list (K * V)) : option V :=
    match d with
    | [] => None
    | (k', v) :: d' => if decide (k = k') then Some v else assoc_get k d'
    end.

Fixpoint assoc_set (k : K) (v : V) (d : list (K * V)) : list (K * V) :=
    match d with
    | [] => [(k, v)]
    | (k', v') :: d' =>
        if decide (k = k') then (k', v) :: d' else (k', v') :: assoc_set k v d'
    end.

Lemma assoc_get_set_eq k v d : assoc_get k (assoc_set k v d) = Some v.
  Proof. induction d as [|[k' v'] d IH]; simpl; repeat case_decide; simpl; try case_decide; congruence. Qed.

Lemma assoc_get_set_ne k k' v d :
    k ≠ k' → assoc_get k' (assoc_set k v d) = assoc_get k' d.
  Proof.
    intros Hne. induction d as [|[k'' v'] d IH]; simpl.
    - by case_decide; [congruence|].
    - repeat (case_decide; simpl); subst; congruence.
  Qed.

Lemma assoc_set_keys k v d :
    map fst (assoc_set k v d) =
      if decide (k ∈ map fst d) then map fst d else map fst d ++ [k].
  Proof.
    induction d as [|[k' v'] d IH]; cbn [assoc_set map fst].
    - rewrite decide_False; [done|set_solver].
    - destruct (decide (k = k')); subst; cbn [map fst].
      + rewrite decide_True; [done|set_solver].
      + rewrite IH. destruct (decide (k ∈ map fst d)).
        * rewrite decide_True; [done|set_solver].
        * rewrite decide_False; [done|set_solver].
  Qed.

Lemma assoc_get_Some_in k v d : assoc_get k d = Some v → k ∈ map fst d.
  Proof.
    induction d as [|[k' v'] d IH]; simpl; [done|].
    case_decide; [subst; left|]. intros Hg. right. auto.
  Qed.

Lemma assoc_get_None k d : assoc_get k d = None ↔ k ∉ map fst d.
  Proof.
    induction d as [|[k' v'] d IH]; simpl; [set_solver|].
    case_decide; subst; [split; [done|set_solver]|]. rewrite IH. set_solver.
  Qed.

Lemma assoc_set_new k v d : k ∉ map fst d → assoc_set k v d = d ++ [(k, v)].
  Proof.
    induction d as [|[k' v'] d IH]; simpl; [done|].
    intros Hn. rewrite decide_False by set_solver. rewrite IH by set_solver. done.
  Qed.

Lemma assoc_set_twice k v v' d : assoc_set k v (assoc_set k v' d) = assoc_set k v d.
  Proof.
    induction d as [|[k' v''] d IH]; simpl.
    - by rewrite decide_True.
    - case_decide; simpl; [by rewrite decide_True|]. rewrite decide_False by done. by f_equal.
  Qed.

(** A dict built from a list of keys. *)
Lemma assoc_get_map (f : K → V) k ks :
    assoc_get k (map (λ k', (k', f k')) ks) = if decide (k ∈ ks) then Some (f k) else None.
  Proof.
    induction ks as [|k' ks IH]; simpl; [done|].
    destruct (decide (k = k')) as [->|Hne].
    - rewrite decide_True; [done|set_solver].
    - rewrite IH. destruct (decide (k ∈ ks)).
      + rewrite decide_True; [done|set_solver].
      + rewrite decide_False; [done|set_solver].
  Qed.

Lemma map_fst_pairs (f : K → V) ks : map fst (map (λ k', (k', f k')) ks) = ks.
  Proof. rewrite map_map. apply map_id. Qed.

Lemma assoc_set_map (f : K → V) k v ks :
    NoDup ks → k ∈ ks →
    assoc_set k v (map (λ k', (k', f k')) ks) =
      map (λ k', (k', if decide (k' = k) then v else f k')) ks.
  Proof.
    induction ks as [|k' ks IH]; simpl; intros Hnd Hin; [set_solver|].
    apply NoDup_cons in Hnd as [Hk' Hnd].
    case_decide as Heq; subst.
    - rewrite decide_True by done. f_equal. apply map_ext_in.
      intros k'' Hk''. rewrite decide_False; [done|]. intros ->. apply Hk'. by apply list_elem_of_In.
    - rewrite decide_False by congruence. f_equal. apply IH; [done|set_solver].
  Qed.
Lemma assoc_set_Forall (P : K * V → Prop) k v d :
    Forall P d → P (k, v) → Forall P (assoc_set k v d).
  Proof.
    induction 1 as [|[k' v'] d Hkv Hd IH]; intros Hnew; simpl; [by constructor|].
    case_decide; subst; constructor; auto.
  Qed.
End Assoc.

(** ** First-seen deduplication

    [add_new seen xs] appends to [seen] the elements of [xs] it does not
    hold yet, in the order they first appear: the keys of an ordered dict
    built by inserting [xs], or the columns of a frame built from dicts. *)

Fixpoint add_new {A} `{EqDecision A} (seen xs : list A) : list A :=
  match xs with
  | [] => seen
  | x :: xs' => add_new (if decide (x ∈ seen) then seen else seen ++ [x]) xs'
  end.

Section AddNew.
Context {A : Type} `{EqDecision A}.

Lemma add_new_app (seen xs : list A) x :
  add_new seen (xs ++ [x]) =
    let s := add_new seen xs in if decide (x ∈ s) then s else s ++ [x].
Proof. revert seen. induction xs as [|y xs IH]; intros seen; simpl; [done|]. apply IH. Qed.

Lemma elem_of_add_new (seen xs : list A) x : x ∈ add_new seen xs ↔ x ∈ seen ∨ x ∈ xs.
Proof.
  revert seen. induction xs as [|y xs IH]; intros seen; simpl; [set_solver|].
  rewrite IH. case_decide; set_solver.
Qed.

Lemma NoDup_add_new (seen xs : list A) : NoDup seen → NoDup (add_new seen xs).
Proof.
  revert seen. induction xs as [|y xs IH]; intros seen Hnd; simpl; [done|].
  apply IH. case_decide; [done|].
  apply NoDup_app. split_and!; [done| |apply NoDup_singleton]. set_solver.
Qed.

Lemma length_add_new (seen xs : list A) : length (add_new seen xs) ≤ length seen + length xs.
Proof.
  revert seen. induction xs as [|x xs IH]; intros seen; simpl; [lia|].
  etrans; [apply IH|]. case_decide; rewrite ?length_app; simpl; lia.
Qed.

Lemma add_new_app_l (seen xs ys : list A) : add_new seen (xs ++ ys) = add_new (add_new seen xs) ys.
Proof. revert seen. induction xs as [|x xs IH]; intros seen; simpl; [done|]. apply IH. Qed.

Lemma add_new_seen (seen xs : list A) : Forall (λ x, x ∈ seen) xs → add_new seen xs = seen.
Proof.
  revert seen. induction xs as [|x xs IH]; intros seen Hxs; [done|].
  apply Forall_cons in Hxs as [Hx Hxs]. simpl. rewrite decide_True by done. by apply IH.
Qed.

Lemma add_new_fresh (seen xs : list A) : NoDup (seen ++ xs) → add_new seen xs = seen ++ xs.
Proof.
  revert seen. induction xs as [|x xs IH]; intros seen Hnd; simpl; [by rewrite app_nil_r|].
  rewrite decide_False.
  - rewrite IH; [by rewrite <- app_assoc|]. by rewrite <- app_assoc.
  - apply NoDup_app in Hnd as (_ & Hx & _). intros Hin. by apply (Hx x Hin), elem_of_cons; left.
Qed.

(** Elements already seen stay where they are. *)
Lemma add_new_prefix (seen xs : list A) : ∃ ys, add_new seen xs = seen ++ ys.
Proof.
  revert seen. induction xs as [|y xs IH]; intros seen; simpl; [exists []; by rewrite app_nil_r|].
  destruct (decide (y ∈ seen)); [apply IH|].
  destruct (IH (seen ++ [y])) as [ys Hys]. rewrite Hys, <- app_assoc. by exists (y :: ys).
Qed.
End AddNew.

(** ** Strings as character lists *)

(** stdpp blocks [simpl] on [String.append]; this is its defining step. *)
Lemma string_app_cons x (a b : string) : String x a +s+ b = String x (a +s+ b).
Proof. reflexivity. Qed.

Lemma string_app_assoc (a b c : string) : (a +s+ b) +s+ c = a +s+ (b +s+ c).
Proof. induction a as [|x a IH]; [done|]. by rewrite !string_app_cons, IH. Qed.

Lemma string_app_nil_r (a : string) : a +s+ "" = a.
Proof. induction a as [|x a IH]; [done|]. by rewrite string_app_cons, IH. Qed.

Lemma string_of_list_ascii_app (a b : list Ascii.ascii) :
  String.string_of_list_ascii (a ++ b) =
    String.string_of_list_ascii a +s+ String.string_of_list_ascii b.
Proof. induction a as [|c a IH]; [done|]. simpl. by rewrite string_app_cons, IH. Qed.

(** ** Filters that keep nothing *)

Lemma filter_empty_Forall {A} (P : A → Prop) `{∀ x, Decision (P x)} (l : list A) :
  Forall (λ x, ¬ P x) l → filter P l = [].
Proof.
  induction 1 as [|x l Hx _ IH]; [done|].
  rewrite filter_cons. by rewrite decide_False.
Qed.

(** ** Lists updated at their last index *)

Lemma alter_last {A} (f : A → A) (l : list A) (x : A) :
  alter f (length l) (l ++ [x]) = l ++ [f x].
Proof. by rewrite <- (Nat.add_0_r (length l)), alter_app_r. Qed.

Lemma lookup_last {A} (l : list A) (x : A) : (l ++ [x]) !! length l = Some x.
Proof. by rewrite lookup_app_r, Nat.sub_diag by lia. Qed.

Create HintDb scr.
Create Rewrite HintDb scr_rw.
#[export] Hint Rewrite @assoc_get_set_eq : scr_rw.

(** [invc H]: invert and clean up, the way the rule inductions use it. *)
Ltac invc H := inversion H; clear H; subst.
