(* ===== verification/Json.v ===== *)
(** * Python values decoded from GitHub's JSON, and the operations the
    scrapper applies to them

    [response.json()] turns the body into [None], [bool], [int], [str],
    [list] or [dict]; the code then tests them for truth ([if user_info:],
    [if not data:]), reads fields with [.get(key, default)] and [x["login"]],
    iterates them with [items.extend(data)], measures them with [len] and
    formats them with f-strings.  Each operation is modelled with the
    exception Python raises where it raises one. *)

From S2P Require Import Prelude.

#[local] Set Warnings "-register-all".

(** ** Values *)

Inductive json : Type :=
| JNull
| JBool (b : bool)
| JInt (z : Z)
| JStr (s : string)
| JList (l : list json)
| JDict (kvs : list (string * json)).

(** ** Exceptions raised by the code and the libraries it calls *)

Inductive py_exc : Type :=
| KeyError (key : string)
| TypeError (msg : string)
| AttributeError (msg : string)
| ValueError (msg : string)
| JSONDecodeError
| ConnectionError
| EmptyDataError
| ParserError (msg : string)
| FileNotFoundError (path : string).

(** A pure computation that may raise. *)
Abbreviation pyres A := (py_exc + A)%type.

Definition type_name (x : json) : string :=
  match x with
  | JNull => "NoneType"
  | JBool _ => "bool"
  | JInt _ => "int"
  | JStr _ => "str"
  | JList _ => "list"
  | JDict _ => "dict"
  end.

(** ** Truth value: [bool(x)] *)

Definition py_truthy (x : json) : bool :=
  match x with
  | JNull => false
  | JBool b => b
  | JInt z => negb (Z.eqb z 0)
  | JStr s => negb (String.eqb s "")
  | JList l => negb (length l =? 0)%nat
  | JDict kvs => negb (length kvs =? 0)%nat
  end.

(** ** [d.get(k, default)]: only dictionaries have [.get]. *)

Definition dict_get (x : json) (k : string) (dflt : json) : pyres json :=
  match x with
  | JDict kvs =>
      match assoc_get k kvs with Some v => inr v | None => inr dflt end
  | _ => inl (AttributeError ("'" +s+ type_name x +s+ "' object has no attribute 'get'"))
  end.

(** ** [x[k]] with a string key *)

Definition getitem (x : json) (k : string) : pyres json :=
  match x with
  | JDict kvs => match assoc_get k kvs with Some v => inr v | None => inl (KeyError k) end
  | JList _ => inl (TypeError "list indices must be integers or slices, not str")
  | JStr _ => inl (TypeError "string indices must be integers, not 'str'")
  | _ => inl (TypeError ("'" +s+ type_name x +s+ "' object is not subscriptable"))
  end.

(** ** Iteration: the items [list.extend(x)] appends

    A list gives its elements, a dict its keys, a string its characters;
    [None], [bool] and [int] are not iterable. *)

Definition py_iter (x : json) : pyres (list json) :=
  match x with
  | JList l => inr l
  | JDict kvs => inr (map (λ kv, JStr kv.1) kvs)
  | JStr s => inr (map (λ c, JStr (String c EmptyString)) (String.list_ascii_of_string s))
  | _ => inl (TypeError ("'" +s+ type_name x +s+ "' object is not iterable"))
  end.

(** [len(x)] *)
Definition py_len (x : json) : pyres nat :=
  match x with
  | JList l => inr (length l)
  | JDict kvs => inr (length kvs)
  | JStr s => inr (String.length s)
  | _ => inl (TypeError ("object of type '" +s+ type_name x +s+ "' has no len()"))
  end.

(** ** [str(x)], as an f-string formats it

    [py_repr] is the representation used inside containers.  Python picks
    the quote character of a string's repr and escapes special characters;
    the model always quotes with ['] and does not escape. *)

Fixpoint py_repr (x : json) : string :=
  match x with
  | JNull => "None"
  | JBool true => "True"
  | JBool false => "False"
  | JInt z => pretty z
  | JStr s => "'" +s+ s +s+ "'"
  | JList l => "[" +s+ join ", " (map py_repr l) +s+ "]"
  | JDict kvs =>
      "{" +s+ join ", " (map (λ kv, "'" +s+ kv.1 +s+ "': " +s+ py_repr kv.2) kvs) +s+ "}"
  end.

Definition py_str (x : json) : string :=
  match x with
  | JStr s => s
  | _ => py_repr x
  end.

(** ** Lemmas *)

Lemma length_list_ascii_of_string s : length (String.list_ascii_of_string s) = String.length s.
Proof. induction s; simpl; auto. Qed.

(** A truthy iterable gives at least one item. *)
Lemma py_iter_truthy_nonempty x xs :
  py_truthy x = true → py_iter x = inr xs → xs ≠ [].
Proof.
  destruct x as [| | |s|l|kvs]; simpl; intros Ht Hi; try discriminate; injection Hi as <-.
  - destruct s as [|c s]; [discriminate|]. simpl. discriminate.
  - destruct l; [discriminate|]. discriminate.
  - destruct kvs; [discriminate|]. discriminate.
Qed.

(** [len] agrees with the number of items [extend] appends. *)
Lemma py_len_iter x xs : py_iter x = inr xs → py_len x = inr (length xs).
Proof.
  destruct x; simpl; intros H; try discriminate; injection H as <-;
    rewrite ?length_map, ?length_list_ascii_of_string; reflexivity.
Qed.

(** A falsy value is never a non-empty iterable. *)
Lemma py_iter_falsy x xs :
  py_truthy x = false → py_iter x = inr xs → xs = [].
Proof.
  destruct x as [| | |s|l|kvs]; simpl; intros Ht Hi; try discriminate; injection Hi as <-.
  - destruct s; [reflexivity|discriminate].
  - destruct l; [reflexivity|discriminate].
  - destruct kvs; [reflexivity|discriminate].
Qed.

#[export] Hint Resolve py_iter_truthy_nonempty py_len_iter : scr.
