(* ===== verification/World.v ===== *)
(** * The effects of the scrapper, and the fetcher

    Everything the Python code does besides computing is an effect on the
    [world]: an HTTP request to GitHub (recorded in [w_requests], in the
    order sent), a line printed on standard output ([w_stdout]), a file
    written ([w_files], a [gmap] from path to contents) and a tqdm progress
    bar created, advanced or closed ([w_bars], indexed by creation order).

    [PyM] is a state and exception monad over the world: a computation
    ends with a value, with a Python exception (which the scrapper never
    catches, so it ends the program), or out of fuel (only the loops of
    [Paginator] consume fuel).  The HTTP server is the type class
    [GitHubServer]: every theorem about a client is proved for any
    instance, and concrete servers are instances. *)

From S2P Require Import Prelude Json.

(** ** Requests and replies *)

Record request := mk_request {
  req_url : string;
  req_headers : list (string * string);
  req_params : list (string * Z)
}.

(** [body] is the decoded JSON, or [None] when the body is not JSON (then
    [response.json()] raises). *)
Record response := mk_response {
  status_code : Z;
  body : option json
}.

(** [requests.get] either gets a response or raises (DNS failure,
    refused connection, timeout). *)
Inductive reply :=
| Reply (r : response)
| NetworkFailure.

Class GitHubServer := respond : request → reply.

(** ** Progress bars *)

Record bar := mk_bar {
  bar_desc : string;
  bar_total : option Z;
  bar_n : Z;
  bar_closed : bool;
  bar_postfix : list (string * Z)
}.

(** ** The world *)

Record world := mk_world {
  w_requests : list request;
  w_stdout : list string;
  w_files : gmap string string;
  w_bars : list bar
}.

Definition world0 : world := mk_world [] [] ∅ [].

(** ** The monad *)

Inductive outcome (A : Type) :=
| Ok (a : A)
| Exc (e : py_exc)
| OutOfFuel.
Arguments Ok {A} a.
Arguments Exc {A} e.
Arguments OutOfFuel {A}.

Definition PyM (A : Type) : Type := world → outcome A * world.

#[export] Instance PyM_ret : MRet PyM := λ A a w, (Ok a, w).
#[export] Instance PyM_bind : MBind PyM := λ A B f m w,
  match m w with
  | (Ok a, w') => f a w'
  | (Exc e, w') => (Exc e, w')
  | (OutOfFuel, w') => (OutOfFuel, w')
  end.

Definition raise {A} (e : py_exc) : PyM A := λ w, (Exc e, w).
Definition out_of_fuel {A} : PyM A := λ w, (OutOfFuel, w).

Definition of_pyres {A} (r : pyres A) : outcome A :=
  match r with inl e => Exc e | inr a => Ok a end.

(** A pure computation that may raise, run inside the monad. *)
Definition lift {A} (r : pyres A) : PyM A := λ w, (of_pyres r, w).

(** ** Primitive effects *)

Definition py_print (s : string) : PyM unit :=
  λ w, (Ok tt, mk_world (w_requests w) (w_stdout w ++ [s]) (w_files w) (w_bars w)).

Definition log_requests (w : world) (rs : list request) : world :=
  mk_world (w_requests w ++ rs) (w_stdout w) (w_files w) (w_bars w).

(** [requests.get(url, headers=headers, params=params)] *)
Definition requests_get `{GitHubServer} (r : request) : PyM response :=
  λ w,
    match respond r with
    | Reply resp => (Ok resp, log_requests w [r])
    | NetworkFailure => (Exc ConnectionError, log_requests w [r])
    end.

(** [response.json()] *)
Definition response_json (resp : response) : PyM json :=
  match body resp with Some j => mret j | None => raise JSONDecodeError end.

(** [open(path, "w")] truncates; [write] appends. *)
Definition file_open_w (path : string) : PyM unit :=
  λ w, (Ok tt, mk_world (w_requests w) (w_stdout w) (<[path := ""]> (w_files w)) (w_bars w)).

Definition file_write (path : string) (s : string) : PyM unit :=
  λ w,
    let old := default "" (w_files w !! path) in
    (Ok tt, mk_world (w_requests w) (w_stdout w) (<[path := old +s+ s]> (w_files w)) (w_bars w)).

Definition file_read (path : string) : PyM string :=
  λ w, match w_files w !! path with
       | Some s => (Ok s, w)
       | None => (Exc (FileNotFoundError path), w)
       end.

(** [tqdm(total=..., desc=...)]: returns the index of the new bar. *)
Definition tqdm_new (desc : string) (total : option Z) : PyM nat :=
  λ w, (Ok (length (w_bars w)),
        mk_world (w_requests w) (w_stdout w) (w_files w)
                 (w_bars w ++ [mk_bar desc total 0 false []])).

Definition bar_modify (i : nat) (f : bar → bar) : PyM unit :=
  λ w, (Ok tt, mk_world (w_requests w) (w_stdout w) (w_files w) (alter f i (w_bars w))).

Definition tqdm_update (i : nat) (k : Z) : PyM unit :=
  bar_modify i (λ b, mk_bar (bar_desc b) (bar_total b) (bar_n b + k) (bar_closed b) (bar_postfix b)).

Definition tqdm_close (i : nat) : PyM unit :=
  bar_modify i (λ b, mk_bar (bar_desc b) (bar_total b) (bar_n b) true (bar_postfix b)).

Definition tqdm_set_postfix (i : nat) (p : list (string * Z)) : PyM unit :=
  bar_modify i (λ b, mk_bar (bar_desc b) (bar_total b) (bar_n b) (bar_closed b) p).

(** [bool(pbar)]: tqdm defines [__bool__] as [total > 0] when a total is
    known, and raises when neither a total nor an iterable is known. *)
Definition tqdm_bool (i : nat) : PyM bool :=
  λ w, match w_bars w !! i with
       | Some b =>
           match bar_total b with
           | Some t => (Ok (bool_decide (0 < t)%Z), w)
           | None => (Exc (TypeError "bool() undefined when iterable == total == None"), w)
           end
       | None => (Exc (TypeError "no progress bar"), w)
       end.

(** ** The fetcher: [github_data_collector.py] lines 5-26 *)

Definition GITHUB_TOKEN : string := "".
Definition REPO_OWNER : string := "a16z-infra".
Definition REPO_NAME : string := "ai-town".
Definition STARGAZERS_CSV : string := "ai-town_stargazers.csv".
Definition FORKERS_CSV : string := "ai-town_forkers.csv".

Definition github_headers : list (string * string) :=
  [("Authorization", "token " +s+ GITHUB_TOKEN);
   ("Accept", "application/vnd.github.v3+json")].

(** Python's [None] and a JSON [null] body are the same value: both are
    [JNull]. *)
Definition get_github_data `{GitHubServer} (endpoint : string) (params : list (string * Z))
    : PyM json :=
  response ← requests_get (mk_request endpoint github_headers params);
  if Z.eqb (status_code response) 200 then response_json response else mret JNull.

Definition get_user_info `{GitHubServer} (username : json) : PyM json :=
  get_github_data ("https://api.github.com/users/" +s+ py_str username) [].

(** ** Monad laws and running lemmas *)

Lemma bind_ret_l {A B} (a : A) (f : A → PyM B) : (mret a ≫= f) = f a.
Proof. reflexivity. Qed.

Lemma bind_assoc {A B C} (m : PyM A) (f : A → PyM B) (g : B → PyM C) w :
  ((m ≫= f) ≫= g) w = (m ≫= (λ a, f a ≫= g)) w.
Proof. unfold mbind, PyM_bind. by destruct (m w) as [[a| |] w']. Qed.

Lemma run_bind {A B} (m : PyM A) (f : A → PyM B) w :
  (m ≫= f) w = match m w with
               | (Ok a, w') => f a w'
               | (Exc e, w') => (Exc e, w')
               | (OutOfFuel, w') => (OutOfFuel, w')
               end.
Proof. reflexivity. Qed.

Lemma run_bind_ok {A B} (m : PyM A) (f : A → PyM B) w a w' :
  m w = (Ok a, w') → (m ≫= f) w = f a w'.
Proof. intros H. by rewrite run_bind, H. Qed.

Lemma run_bind_exc {A B} (m : PyM A) (f : A → PyM B) w e w' :
  m w = (Exc e, w') → (m ≫= f) w = (Exc e, w').
Proof. intros H. by rewrite run_bind, H. Qed.

#[export] Hint Resolve run_bind_ok run_bind_exc : scr.

Lemma log_requests_app w rs1 rs2 :
  log_requests (log_requests w rs1) rs2 = log_requests w (rs1 ++ rs2).
Proof. unfold log_requests; simpl. by rewrite app_assoc. Qed.

Lemma log_requests_nil w : log_requests w [] = w.
Proof. destruct w; unfold log_requests; simpl. by rewrite app_nil_r. Qed.

#[export] Hint Rewrite log_requests_app log_requests_nil : scr_rw.

(** ** What one call of [get_github_data] returns, by the server's reply

    [fetch_value] is the contract of the fetcher: the decoded body on
    status 200, [None] (here [JNull]) on any other status, an exception
    when the transport fails or the body of a 200 is not JSON. *)
Definition fetch_value (rp : reply) : pyres json :=
  match rp with
  | NetworkFailure => inl ConnectionError
  | Reply r =>
      if Z.eqb (status_code r) 200
      then match body r with Some j => inr j | None => inl JSONDecodeError end
      else inr JNull
  end.

Section Fetcher.
Context `{GitHubServer}.

Lemma get_github_data_run ep ps w :
  get_github_data ep ps w =
    (of_pyres (fetch_value (respond (mk_request ep github_headers ps))),
     log_requests w [mk_request ep github_headers ps]).
Proof.
  unfold get_github_data, requests_get. rewrite run_bind.
  destruct (respond _) as [[st [j|]]|]; simpl; [| |done];
    by destruct (Z.eqb st 200).
Qed.
End Fetcher.

(** [pyM_simpl]: run the monad's plumbing in the goal. *)
Ltac pyM_simpl := cbv [mbind PyM_bind lift of_pyres mret PyM_ret raise]; simpl.

Section FetcherTheorems.
Context `{GitHubServer}.

(** Status 200 with a JSON body: the decoded body, one request sent. *)
Lemma get_github_data_ok ep ps w j :
  respond (mk_request ep github_headers ps) = Reply (mk_response 200 (Some j)) →
  get_github_data ep ps w = (Ok j, log_requests w [mk_request ep github_headers ps]).
Proof. intros Hr. by rewrite get_github_data_run, Hr. Qed.

(** Any other status: [None], one request sent, no retry. *)
Lemma get_github_data_not_ok ep ps w st b :
  respond (mk_request ep github_headers ps) = Reply (mk_response st b) → st ≠ 200%Z →
  get_github_data ep ps w = (Ok JNull, log_requests w [mk_request ep github_headers ps]).
Proof.
  intros Hr Hst. rewrite get_github_data_run, Hr. simpl.
  by rewrite (proj2 (Z.eqb_neq st 200) Hst).
Qed.

(** C24: A transport failure is not turned into [None]: [requests.get]
    raises and nothing in the code catches it. *)
Lemma get_github_data_network_failure ep ps w :
  respond (mk_request ep github_headers ps) = NetworkFailure →
  get_github_data ep ps w = (Exc ConnectionError, log_requests w [mk_request ep github_headers ps]).
Proof. intros Hr. by rewrite get_github_data_run, Hr. Qed.

(** A 200 whose body is not JSON raises in [response.json()]. *)
Lemma get_github_data_bad_body ep ps w :
  respond (mk_request ep github_headers ps) = Reply (mk_response 200 None) →
  get_github_data ep ps w = (Exc JSONDecodeError, log_requests w [mk_request ep github_headers ps]).
Proof. intros Hr. by rewrite get_github_data_run, Hr. Qed.
End FetcherTheorems.

(** ** Witnesses *)

Definition offline_server : GitHubServer := λ _, NetworkFailure.

Definition not_found_server : GitHubServer := λ _, Reply (mk_response 404 None).

Lemma get_github_data_network_failure_witness :
  @get_github_data offline_server "https://api.github.com/users/alice" [] world0 =
    (Exc ConnectionError, log_requests world0 [mk_request "https://api.github.com/users/alice" github_headers []]).
Proof. apply (@get_github_data_network_failure offline_server). reflexivity. Defined.

Lemma get_github_data_not_ok_witness :
  @get_github_data not_found_server "https://api.github.com/users/ghost" [] world0 =
    (Ok JNull, log_requests world0 [mk_request "https://api.github.com/users/ghost" github_headers []]).
Proof. apply (@get_github_data_not_ok not_found_server _ _ _ 404 None); [reflexivity|discriminate]. Defined.
