(* ===== verification/Paginator.v ===== *)
(** * The paginator: [get_paginated_data], [get_stargazers], [get_forks]

    [github_data_collector.py] lines 65-111.  The [while True] loop is
    [page_loop], one unit of fuel per page request.  Its contract is the
    inductive relation [collects]: the items of pages [n], [n + 1], ...
    up to the first page whose value is falsy (an empty list, or [None]
    because the status was not 200).  The theorems show that the loop
    refines the relation in both directions, that it terminates exactly
    when the relation holds, that it performs one request per page in
    increasing page order, and what it does to the progress bar. *)

From S2P Require Import Prelude Json World.

(** ** Helpers of the code *)

(** [if count_field:] on a string argument that may be [None]. *)
Definition opt_str_truthy (o : option string) : bool :=
  match o with Some s => negb (String.eqb s "") | None => false end.

(** The value [tqdm(total=total)] receives: an int, a bool (an int in
    Python) or [None]; anything else makes tqdm's first refresh raise. *)
Definition tqdm_total (total : json) : pyres (option Z) :=
  match total with
  | JInt z => inr (Some z)
  | JBool b => inr (Some (if b then 1 else 0)%Z)
  | JNull => inr None
  | _ => inl (TypeError ("unsupported operand type(s) for +: '" +s+ type_name total +s+ "' and 'float'"))
  end.

(** [if pbar: k(pbar)] where [pbar] is [None] or a bar. *)
Definition if_pbar (pbar : option nat) (k : nat → PyM unit) : PyM unit :=
  match pbar with
  | None => mret tt
  | Some i => tqdm_bool i ≫= λ b : bool, if b then k i else mret tt
  end.

Definition repo_url : string :=
  "https://api.github.com/repos/" +s+ REPO_OWNER +s+ "/" +s+ REPO_NAME.

Definition page_params (page : Z) : list (string * Z) :=
  [("page", page); ("per_page", 100%Z)].

Section Paginator.
Context `{GitHubServer}.

(** The [while True] loop, lines 84-91. *)
Fixpoint page_loop (fuel : nat) (endpoint : string) (pbar : option nat)
    (page : Z) (items : list json) : PyM (list json) :=
  match fuel with
  | O => out_of_fuel
  | S fuel' =>
      data ← get_github_data endpoint (page_params page);
      if negb (py_truthy data) then mret items else
      xs ← lift (py_iter data);
      if_pbar pbar (λ i, n ← lift (py_len data); tqdm_update i (Z.of_nat n));;
      page_loop fuel' endpoint pbar (page + 1)%Z (items ++ xs)
  end.

(** Lines 76-82: the optional progress bar, its total read from the
    repository metadata. *)
Definition open_pbar (desc : option string) (count_field : option string)
    : PyM (option nat) :=
  match count_field with
  | Some cf =>
      if opt_str_truthy count_field then
        repo_info ← get_github_data repo_url [];
        total ← (if py_truthy repo_info then lift (dict_get repo_info cf (JInt 0))
                 else mret (JInt 0));
        t ← lift (tqdm_total total);
        i ← tqdm_new (default "" desc) t;
        mret (Some i)
      else mret None
  | None => mret None
  end.

Definition get_paginated_data (fuel : nat) (endpoint : string)
    (desc : option string) (count_field : option string) : PyM (list json) :=
  pbar ← open_pbar desc count_field;
  items ← page_loop fuel endpoint pbar 1 [];
  if_pbar pbar tqdm_close;;
  mret items.

Definition stargazers_endpoint : string :=
  "https://api.github.com/repos/" +s+ REPO_OWNER +s+ "/" +s+ REPO_NAME +s+ "/stargazers".

Definition get_stargazers (fuel : nat) : PyM (list json) :=
  get_paginated_data fuel stargazers_endpoint (Some "Fetching stargazers") (Some "stargazers_count").

Definition forks_endpoint : string :=
  "https://api.github.com/repos/" +s+ REPO_OWNER +s+ "/" +s+ REPO_NAME +s+ "/forks".

Definition get_forks (fuel : nat) : PyM (list json) :=
  get_paginated_data fuel forks_endpoint (Some "Fetching forks") (Some "forks_count").

(** ** The contract: pages until the first falsy one *)

Definition page_request (endpoint : string) (page : Z) : request :=
  mk_request endpoint github_headers (page_params page).

(** [collects ep n k items]: starting at page [n], the server serves [k]
    truthy pages whose items, in order, are [items], then a falsy page. *)
Inductive collects (ep : string) : Z → nat → list json → Prop :=
| collects_stop n d :
    fetch_value (respond (page_request ep n)) = inr d →
    py_truthy d = false →
    collects ep n 0 []
| collects_page n k d xs rest :
    fetch_value (respond (page_request ep n)) = inr d →
    py_truthy d = true →
    py_iter d = inr xs →
    collects ep (n + 1) k rest →
    collects ep n (S k) (xs ++ rest).

(** The requests the loop sends: pages [n .. n + k - 1], in order. *)
Definition page_requests (ep : string) (n : Z) (k : nat) : list request :=
  map (λ i, page_request ep (n + Z.of_nat i)) (seq 0 k).

(** A page that makes the loop go on: fetched without exception, truthy
    and iterable. *)
Definition good_pageb (ep : string) (m : Z) : bool :=
  match fetch_value (respond (page_request ep m)) with
  | inr d => py_truthy d && bool_decide (is_Some (match py_iter d with inr xs => Some xs | inl _ => None end))
  | inl _ => false
  end.
End Paginator.

(** ** The progress bar during the loop *)

Definition bar_advance (k : Z) (b : bar) : bar :=
  mk_bar (bar_desc b) (bar_total b) (bar_n b + k) (bar_closed b) (bar_postfix b).

(** [bool(pbar)] holds and does not raise. *)
Definition pbar_live (pbar : option nat) (bars : list bar) : bool :=
  match pbar with
  | Some i =>
      match bars !! i with
      | Some b => match bar_total b with Some t => bool_decide (0 < t)%Z | None => false end
      | None => false
      end
  | None => false
  end.

(** [bool(pbar)] does not raise. *)
Definition pbar_ok (pbar : option nat) (bars : list bar) : Prop :=
  ∀ i, pbar = Some i → ∃ b t, bars !! i = Some b ∧ bar_total b = Some t.

Definition advance_bars (pbar : option nat) (k : Z) (bars : list bar) : list bar :=
  match pbar with
  | Some i => if pbar_live pbar bars then alter (bar_advance k) i bars else bars
  | None => bars
  end.

Definition advance_world (pbar : option nat) (k : Z) (w : world) : world :=
  mk_world (w_requests w) (w_stdout w) (w_files w) (advance_bars pbar k (w_bars w)).

(** ** A stub server that serves fixed pages

    [stub_pages ep pages] answers page [n] ([1 <= n <= length pages]) of
    [ep] with the [n]-th list of [pages], every later page with an empty
    list, and anything else with status 404. *)
Definition stub_pages (ep : string) (pages : list (list json)) : GitHubServer :=
  λ r,
    if String.eqb (req_url r) ep then
      match req_params r with
      | [("page", n); ("per_page", _)] =>
          if Z.leb 1 n then
            Reply (mk_response 200 (Some (JList (default [] (pages !! Z.to_nat (n - 1))))))
          else Reply (mk_response 404 None)
      | _ => Reply (mk_response 404 None)
      end
    else Reply (mk_response 404 None).

(** [rate_limited n srv] answers page [n] with status 403 and everything
    else as [srv]. *)
Definition rate_limited (n : Z) (srv : GitHubServer) : GitHubServer :=
  λ r, if bool_decide (req_params r = page_params n) then Reply (mk_response 403 None) else srv r.

(** [with_repo_info j srv] answers the metadata request with [j]. *)
Definition with_repo_info (j : json) (srv : GitHubServer) : GitHubServer :=
  λ r, if String.eqb (req_url r) repo_url then Reply (mk_response 200 (Some j)) else srv r.

(** Concrete inputs for the witnesses. *)
Definition demo_ep : string := "https://api.github.com/repos/a16z-infra/ai-town/stargazers".
Definition demo_pages : list (list json) := [[JStr "alice"; JStr "bob"]; [JStr "carol"]].
Definition demo_server : GitHubServer := stub_pages demo_ep demo_pages.

(** ** Lemmas on the progress bar *)

Lemma pbar_live_advance pbar k bars :
  pbar_live pbar (advance_bars pbar k bars) = pbar_live pbar bars.
Proof.
  destruct pbar as [i|]; simpl; [|done].
  destruct (bars !! i) as [b|] eqn:Hb; simpl; [|by rewrite Hb].
  destruct (bar_total b) as [t|] eqn:Ht; [destruct (bool_decide (0 < t)%Z) eqn:Hd|];
    rewrite ?Hb, ?Ht, ?Hd; try done.
  rewrite list_lookup_alter_eq, Hb. simpl. by rewrite Ht, Hd.
Qed.

Lemma pbar_ok_advance pbar k bars :
  pbar_ok pbar bars → pbar_ok pbar (advance_bars pbar k bars).
Proof.
  intros Hok i ->. destruct (Hok i eq_refl) as (b & t & Hb & Ht). unfold advance_bars.
  destruct (pbar_live (Some i) bars); [|eauto].
  rewrite list_lookup_alter_eq, Hb. by exists (bar_advance k b), t.
Qed.

Lemma advance_bars_add pbar k1 k2 bars :
  advance_bars pbar k2 (advance_bars pbar k1 bars) = advance_bars pbar (k1 + k2) bars.
Proof.
  destruct pbar as [i|]; [|done].
  pose proof (pbar_live_advance (Some i) k1 bars) as Hl.
  unfold advance_bars in *. destruct (pbar_live (Some i) bars) eqn:E; rewrite ?E, ?Hl; [|done].
  rewrite list_alter_alter_eq. apply list_alter_ext.
  - intros b _. unfold bar_advance; simpl. by rewrite Z.add_assoc.
  - done.
Qed.

Lemma advance_bars_0 pbar bars : advance_bars pbar 0 bars = bars.
Proof.
  destruct pbar as [i|]; unfold advance_bars; [|done].
  destruct (pbar_live (Some i) bars); [|done].
  apply list_alter_id. intros []. unfold bar_advance; simpl. by rewrite Z.add_0_r.
Qed.

Section Loop.
Context `{GitHubServer}.

(** [if pbar: pbar.update(len(data))] when [bool(pbar)] cannot raise. *)
Lemma if_pbar_update pbar d xs w :
  pbar_ok pbar (w_bars w) → py_iter d = inr xs →
  if_pbar pbar (λ i, n ← lift (py_len d); tqdm_update i (Z.of_nat n)) w =
    (Ok tt, advance_world pbar (Z.of_nat (length xs)) w).
Proof.
  intros Hok Hi. destruct pbar as [i|]; simpl.
  2: by destruct w.
  destruct (Hok i eq_refl) as (b & t & Hb & Ht).
  unfold tqdm_bool, mbind, PyM_bind. rewrite Hb, Ht.
  unfold advance_world, advance_bars, pbar_live. rewrite Hb, Ht.
  destruct (bool_decide (0 < t)%Z); [|by destruct w].
  by rewrite (py_len_iter d xs Hi).
Qed.

Lemma page_requests_S ep n k :
  page_requests ep n (S k) = page_request ep n :: page_requests ep (n + 1) k.
Proof.
  unfold page_requests. rewrite <- cons_seq, <- seq_shift. simpl.
  rewrite Z.add_0_r, map_map. f_equal. apply map_ext. intros i.
  f_equal. lia.
Qed.

(** One iteration of the loop, unfolded. *)
Lemma page_loop_S ep pbar n items fuel w :
  page_loop (S fuel) ep pbar n items w =
    let w1 := log_requests w [page_request ep n] in
    match fetch_value (respond (page_request ep n)) with
    | inl e => (Exc e, w1)
    | inr d =>
        if negb (py_truthy d) then (Ok items, w1) else
        match py_iter d with
        | inl e => (Exc e, w1)
        | inr xs =>
            match if_pbar pbar (λ i, n ← lift (py_len d); tqdm_update i (Z.of_nat n)) w1 with
            | (Ok _, w2) => page_loop fuel ep pbar (n + 1) (items ++ xs) w2
            | (Exc e, w2) => (Exc e, w2)
            | (OutOfFuel, w2) => (OutOfFuel, w2)
            end
        end
    end.
Proof.
  simpl. rewrite run_bind, get_github_data_run. fold (page_request ep n).
  destruct (fetch_value _) as [e|d]; [done|]. simpl.
  destruct (py_truthy d); simpl; [|done].
  destruct (py_iter d); simpl; [done|]. by rewrite run_bind.
Qed.

(** One iteration on a page that makes the loop go on. *)
Lemma page_loop_step ep pbar n items fuel d xs w :
  fetch_value (respond (page_request ep n)) = inr d →
  py_truthy d = true → py_iter d = inr xs → pbar_ok pbar (w_bars w) →
  page_loop (S fuel) ep pbar n items w =
    page_loop fuel ep pbar (n + 1) (items ++ xs)
      (advance_world pbar (Z.of_nat (length xs)) (log_requests w [page_request ep n])).
Proof.
  intros Hf Ht Hi Hok. simpl. rewrite run_bind, get_github_data_run.
  fold (page_request ep n). rewrite Hf. simpl. rewrite Ht. simpl.
  rewrite Hi. simpl. rewrite run_bind. cbn [lift of_pyres].
  rewrite run_bind, (if_pbar_update pbar d xs); [reflexivity|exact Hok|exact Hi].
Qed.

(** One iteration on a falsy page: the loop returns what it has. *)
Lemma page_loop_step_falsy ep pbar n items fuel d w :
  fetch_value (respond (page_request ep n)) = inr d → py_truthy d = false →
  page_loop (S fuel) ep pbar n items w = (Ok items, log_requests w [page_request ep n]).
Proof.
  intros Hf Ht. simpl. rewrite run_bind, get_github_data_run.
  fold (page_request ep n). rewrite Hf. simpl. by rewrite Ht.
Qed.

(** On a page that does not make the loop go on, one unit of fuel is
    enough for the loop to stop, with a value or an exception. *)
Lemma page_loop_step_bad ep pbar n items fuel w :
  good_pageb ep n = false → fst (page_loop (S fuel) ep pbar n items w) ≠ OutOfFuel.
Proof.
  unfold good_pageb. intros Hg. simpl. rewrite run_bind, get_github_data_run.
  fold (page_request ep n).
  destruct (fetch_value _) as [e|d]; simpl; try congruence.
  destruct (py_truthy d); simpl in *; try congruence.
  destruct (py_iter d); simpl in *; congruence.
Qed.
End Loop.

Lemma advance_world_compose pbar a b w rs1 rs2 :
  advance_world pbar b (log_requests (advance_world pbar a (log_requests w rs1)) rs2) =
    advance_world pbar (a + b) (log_requests w (rs1 ++ rs2)).
Proof. destruct w. unfold advance_world, log_requests; simpl. by rewrite app_assoc, advance_bars_add. Qed.

Lemma advance_world_0 pbar w : advance_world pbar 0 w = w.
Proof. destruct w. unfold advance_world; simpl. by rewrite advance_bars_0. Qed.

Lemma advance_world_None k w : advance_world None k w = w.
Proof. by destruct w. Qed.

Lemma pbar_ok_None bars : pbar_ok None bars.
Proof. by intros i. Qed.

Lemma pbar_ok_step pbar k w rs :
  pbar_ok pbar (w_bars w) → pbar_ok pbar (w_bars (advance_world pbar k (log_requests w rs))).
Proof. apply pbar_ok_advance. Qed.

#[export] Hint Resolve pbar_ok_advance pbar_ok_step pbar_ok_None : scr.

Lemma good_pageb_true `{GitHubServer} ep m :
  good_pageb ep m = true →
  ∃ d xs, fetch_value (respond (page_request ep m)) = inr d ∧ py_truthy d = true ∧ py_iter d = inr xs.
Proof.
  unfold good_pageb. destruct (fetch_value _) as [e|d]; [done|].
  destruct (py_truthy d) eqn:Ht; [|done]. destruct (py_iter d) as [e|xs] eqn:Hi; simpl.
  - done.
  - intros _. by exists d, xs.
Qed.

Section LoopTheorems.
Context `{GitHubServer}.

Lemma page_loop_run ep pbar n k rest :
  collects ep n k rest →
  ∀ fuel items w, pbar_ok pbar (w_bars w) → (k < fuel)%nat →
  page_loop fuel ep pbar n items w =
    (Ok (items ++ rest),
     advance_world pbar (Z.of_nat (length rest)) (log_requests w (page_requests ep n (S k)))).
Proof.
  induction 1 as [n d Hf Ht|n k d xs rest Hf Ht Hi Hc IH];
    intros [|fuel] items w Hok Hk; try lia.
  - rewrite (page_loop_step_falsy ep pbar n items fuel d w Hf Ht), app_nil_r.
    simpl. rewrite advance_world_0. unfold page_requests; simpl. by rewrite Z.add_0_r.
  - rewrite (page_loop_step ep pbar n items fuel d xs w Hf Ht Hi Hok).
    rewrite IH by (auto with scr; lia).
    rewrite advance_world_compose, <- app_assoc, (page_requests_S ep n (S k)).
    by rewrite length_app, Nat2Z.inj_add.
Qed.

(** C1: The loop implements its contract: when the server serves [k] truthy
    pages then a falsy one, [k + 1] units of fuel suffice, the loop
    returns the concatenation of the pages, sends exactly the [k + 1]
    page requests in increasing order, and advances a live progress bar
    by the number of items. *)
Lemma page_loop_complete ep pbar n k rest :
  collects ep n k rest →
  ∀ fuel items w, pbar_ok pbar (w_bars w) → (k < fuel)%nat →
  page_loop fuel ep pbar n items w =
    (Ok (items ++ rest),
     advance_world pbar (Z.of_nat (length rest)) (log_requests w (page_requests ep n (S k)))).
Proof. apply page_loop_run. Qed.

Lemma page_loop_result fuel :
  ∀ ep pbar n items w res w',
  page_loop fuel ep pbar n items w = (Ok res, w') →
  ∃ k rest, res = items ++ rest ∧ collects ep n k rest ∧ (k < fuel)%nat.
Proof.
  induction fuel as [|fuel IH]; intros ep pbar n items w res w' Hrun; [done|].
  rewrite page_loop_S in Hrun. simpl in Hrun.
  destruct (fetch_value _) as [e|d] eqn:Hf; [done|].
  destruct (py_truthy d) eqn:Ht; simpl in Hrun.
  - destruct (py_iter d) as [e|xs] eqn:Hi; [done|].
    destruct (if_pbar _ _ _) as [[[]| |] w2]; try done.
    destruct (IH _ _ _ _ _ _ _ Hrun) as (k & rest & -> & Hc & Hk).
    exists (S k), (xs ++ rest). rewrite app_assoc.
    split_and!; [done|econstructor; eauto|lia].
  - injection Hrun as <- _. exists 0%nat, []. rewrite app_nil_r.
    split_and!; [done|econstructor; eauto|lia].
Qed.

Lemma page_loop_stops_iff ep pbar n items w :
  pbar_ok pbar (w_bars w) →
  (∃ fuel, fst (page_loop fuel ep pbar n items w) ≠ OutOfFuel) ↔
  (∃ m : nat, good_pageb ep (n + Z.of_nat m) = false).
Proof.
  intros Hok. split.
  - intros [fuel Hf]. revert n items w Hok Hf.
    induction fuel as [|fuel IH]; intros n items w Hok Hf; [done|].
    destruct (good_pageb ep n) eqn:Hg.
    + destruct (good_pageb_true ep n Hg) as (d & xs & Hd & Ht & Hi).
      rewrite (page_loop_step ep pbar n items fuel d xs w Hd Ht Hi Hok) in Hf.
      destruct (IH _ _ _ (pbar_ok_step _ _ _ _ Hok) Hf) as [m Hm].
      exists (S m). rewrite <- Hm. f_equal. lia.
    + exists 0%nat. by rewrite Z.add_0_r.
  - intros [m Hm]. revert n items w Hok Hm.
    induction m as [|m IH]; intros n items w Hok Hm.
    + exists 1%nat. apply page_loop_step_bad. by rewrite Z.add_0_r in Hm.
    + destruct (good_pageb ep n) eqn:Hg.
      * destruct (good_pageb_true ep n Hg) as (d & xs & Hd & Ht & Hi).
        destruct (IH (n + 1)%Z (items ++ xs)
                    (advance_world pbar (Z.of_nat (length xs)) (log_requests w [page_request ep n])))
          as [fuel Hf]; [by apply pbar_ok_step|rewrite <- Hm; f_equal; lia|].
        exists (S fuel). by rewrite (page_loop_step ep pbar n items fuel d xs w Hd Ht Hi Hok).
      * exists 1%nat. by apply page_loop_step_bad.
Qed.

(** C7: Termination: the loop stops (with a value or an exception) for some
    fuel exactly when some page from [n] on does not make it go on. *)
Lemma page_loop_terminates_iff ep pbar n items w :
  pbar_ok pbar (w_bars w) →
  (∃ fuel, fst (page_loop fuel ep pbar n items w) ≠ OutOfFuel) ↔
  (∃ m : nat, good_pageb ep (n + Z.of_nat m) = false).
Proof. apply page_loop_stops_iff. Qed.

End LoopTheorems.

(** ** Opening the progress bar and the whole of [get_paginated_data] *)

Definition repo_request : request := mk_request repo_url github_headers [].

(** The total the bar is created with, from the metadata fetch: line 81. *)
Definition pbar_total (rp : reply) (cf : string) : pyres (option Z) :=
  match fetch_value rp with
  | inl e => inl e
  | inr ri =>
      match (if py_truthy ri then dict_get ri cf (JInt 0) else inr (JInt 0)) with
      | inl e => inl e
      | inr total => tqdm_total total
      end
  end.

Definition new_bar (desc : option string) (t : option Z) : bar :=
  mk_bar (default "" desc) t 0 false [].

Section Top.
Context `{GitHubServer}.

Lemma open_pbar_run desc cf w :
  cf ≠ "" →
  open_pbar desc (Some cf) w =
    let w1 := log_requests w [repo_request] in
    match pbar_total (respond repo_request) cf with
    | inl e => (Exc e, w1)
    | inr t => (Ok (Some (length (w_bars w))),
                mk_world (w_requests w1) (w_stdout w1) (w_files w1)
                         (w_bars w1 ++ [new_bar desc t]))
    end.
Proof.
  intros Hcf. unfold open_pbar, opt_str_truthy.
  rewrite (proj2 (String.eqb_neq cf "") Hcf). simpl.
  rewrite run_bind, get_github_data_run. fold repo_request. unfold pbar_total.
  destruct (fetch_value _) as [e|ri]; [done|]. simpl.
  destruct (py_truthy ri); [destruct (dict_get ri cf (JInt 0)) as [e|total]|];
    pyM_simpl; try done; by destruct (tqdm_total _).
Qed.

Lemma pbar_live_last (l : list bar) b t :
  bar_total b = Some t → pbar_live (Some (length l)) (l ++ [b]) = bool_decide (0 < t)%Z.
Proof. intros Ht. unfold pbar_live. by rewrite lookup_last, Ht. Qed.

Lemma paginated_bar_run ep desc cf fuel k items w t :
  cf ≠ "" →
  pbar_total (respond repo_request) cf = inr (Some t) →
  collects ep 1 k items → (k < fuel)%nat →
  ∃ w', get_paginated_data fuel ep desc (Some cf) w = (Ok items, w') ∧
    w_requests w' = w_requests w ++ repo_request :: page_requests ep 1 (S k) ∧
    w_bars w' = w_bars w ++
      [if bool_decide (0 < t)%Z
       then mk_bar (default "" desc) (Some t) (Z.of_nat (length items)) true []
       else new_bar desc (Some t)] ∧
    w_stdout w' = w_stdout w ∧ w_files w' = w_files w.
Proof.
  intros Hcf Htot Hc Hk. unfold get_paginated_data.
  rewrite run_bind, open_pbar_run, Htot by done. simpl.
  rewrite run_bind, (page_loop_run ep _ 1 k items Hc fuel [] _); [|intros i [= <-]; simpl; exists (new_bar desc (Some t)), t; by rewrite lookup_last|done].
  unfold advance_world, advance_bars. cbn [w_bars log_requests w_requests w_stdout w_files].
  rewrite (pbar_live_last _ (new_bar desc (Some t)) t) by done.
  destruct (bool_decide (0 < t)%Z) eqn:Hb.
  - rewrite alter_last.
    cbv [mbind PyM_bind lift of_pyres mret PyM_ret tqdm_bool tqdm_close bar_modify].
    cbn [w_bars]. rewrite lookup_last. cbn [bar_total bar_advance new_bar]. rewrite Hb.
    cbn [w_bars]. rewrite alter_last.
    eexists; split_and!; [reflexivity|simpl; by rewrite <- app_assoc| |done..].
    simpl. unfold bar_advance, new_bar. simpl. by rewrite Z.add_0_l.
  - cbv [mbind PyM_bind lift of_pyres mret PyM_ret tqdm_bool].
    cbn [w_bars]. rewrite lookup_last. cbn [bar_total new_bar]. rewrite Hb.
    eexists; split_and!; [reflexivity|simpl; by rewrite <- app_assoc|done..].
Qed.

(** C23: [get_paginated_data] with a count field: one metadata request, then
    the page requests in order; the items of the pages; a bar whose total
    is the count read.  A bar with a positive total ends at the number of
    items and is closed; a bar with total [0] (or less) is falsy for tqdm,
    so it is never advanced and never closed. *)
Theorem get_paginated_data_bar ep desc cf fuel k items w t :
  cf ≠ "" →
  pbar_total (respond repo_request) cf = inr (Some t) →
  collects ep 1 k items → (k < fuel)%nat →
  ∃ w', get_paginated_data fuel ep desc (Some cf) w = (Ok items, w') ∧
    w_requests w' = w_requests w ++ repo_request :: page_requests ep 1 (S k) ∧
    w_bars w' = w_bars w ++
      [if bool_decide (0 < t)%Z
       then mk_bar (default "" desc) (Some t) (Z.of_nat (length items)) true []
       else new_bar desc (Some t)].
Proof.
  intros Hcf Htot Hc Hk.
  destruct (paginated_bar_run ep desc cf fuel k items w t Hcf Htot Hc Hk) as (w' & ? & ? & ? & _).
  by exists w'.
Qed.
End Top.

(** ** Servers that serve a given sequence of pages *)

(** [served ep n pages]: pages [n], [n + 1], ... of [ep] answer with the
    non-empty JSON lists [pages], in order. *)
Fixpoint served `{GitHubServer} (ep : string) (n : Z) (pages : list (list json)) : Prop :=
  match pages with
  | [] => True
  | p :: ps => fetch_value (respond (page_request ep n)) = inr (JList p) ∧ p ≠ [] ∧ served ep (n + 1) ps
  end.

Section Served.
Context `{GitHubServer}.

Lemma collects_served ep pages : ∀ n d,
  served ep n pages →
  fetch_value (respond (page_request ep (n + Z.of_nat (length pages)))) = inr d →
  py_truthy d = false →
  collects ep n (length pages) (concat pages).
Proof.
  induction pages as [|p ps IH]; intros n d Hs Hd Ht; simpl in *.
  - rewrite Z.add_0_r in Hd. by econstructor.
  - destruct Hs as (Hp & Hne & Hs). eapply collects_page; [exact Hp| |done|].
    + destruct p; [done|reflexivity].
    + apply (IH (n + 1)%Z d); [done| |done]. rewrite <- Hd. do 3 f_equal. lia.
Qed.

Lemma paginated_concat_run ep desc fuel pages d w :
  served ep 1 pages →
  fetch_value (respond (page_request ep (1 + Z.of_nat (length pages)))) = inr d →
  py_truthy d = false →
  (length pages < fuel)%nat →
  get_paginated_data fuel ep desc None w =
    (Ok (concat pages), log_requests w (page_requests ep 1 (S (length pages)))).
Proof.
  intros Hs Hd Ht Hf. unfold get_paginated_data, open_pbar.
  rewrite bind_ret_l, run_bind, (page_loop_run ep None 1 _ _ (collects_served ep pages 1 d Hs Hd Ht))
    by first [apply pbar_ok_None | lia].
  by rewrite advance_world_None.
Qed.

(** C4: The property the specification states for the paginator: on pages
    [L1 ... Lk] followed by a falsy page, [get_paginated_data] returns
    [L1 ++ ... ++ Lk] after exactly [k + 1] page requests, in order. *)
Theorem get_paginated_data_concat ep desc fuel pages d w :
  served ep 1 pages →
  fetch_value (respond (page_request ep (1 + Z.of_nat (length pages)))) = inr d →
  py_truthy d = false →
  (length pages < fuel)%nat →
  get_paginated_data fuel ep desc None w =
    (Ok (concat pages), log_requests w (page_requests ep 1 (S (length pages)))).
Proof. apply paginated_concat_run. Qed.

(** Whatever [get_paginated_data] returns is allowed by the contract,
    with or without a progress bar. *)
Theorem get_paginated_data_refines ep desc cf fuel w items w' :
  get_paginated_data fuel ep desc cf w = (Ok items, w') →
  ∃ k, collects ep 1 k items ∧ (k < fuel)%nat.
Proof.
  unfold get_paginated_data. rewrite run_bind.
  destruct (open_pbar desc cf w) as [[pbar| |] w1]; try done.
  rewrite run_bind. destruct (page_loop fuel ep pbar 1 [] w1) as [[res| |] w2] eqn:Hl; try done.
  destruct (page_loop_result _ _ _ _ _ _ _ _ Hl) as (k & rest & -> & Hc & Hk).
  rewrite run_bind. destruct (if_pbar pbar tqdm_close w2) as [[[]| |] w3]; try done.
  intros [= <- _]. by exists k.
Qed.
End Served.

Lemma stub_pages_served ep pages post : ∀ pre,
  pages = pre ++ post → Forall (λ p, p ≠ []) pages →
  @served (stub_pages ep pages) ep (Z.of_nat (length pre) + 1) post.
Proof.
  induction post as [|p post IH]; intros pre -> Hne; simpl; [done|].
  split_and!.
  - unfold respond, stub_pages, page_request, page_params. cbn [req_url req_params].
    rewrite String.eqb_refl, (proj2 (Z.leb_le 1 _)) by lia.
    replace (Z.to_nat (Z.of_nat (length pre) + 1 - 1)) with (length pre) by lia.
    by rewrite lookup_app_r, Nat.sub_diag by lia.
  - apply Forall_app in Hne as [_ Hne]. by inversion Hne.
  - replace (Z.of_nat (length pre) + 1 + 1)%Z with (Z.of_nat (length (pre ++ [p])) + 1)%Z
      by (rewrite length_app; simpl; lia).
    apply IH; [by rewrite <- app_assoc|done].
Qed.

(** The specification's property on a stub endpoint: serving the
    non-empty pages [pages] and then an empty page, the paginator returns
    their concatenation with [length pages + 1] units of fuel. *)
Theorem stub_paginated_concat ep desc pages w :
  Forall (λ p, p ≠ []) pages →
  @get_paginated_data (stub_pages ep pages) (S (length pages)) ep desc None w =
    (Ok (concat pages), log_requests w (page_requests ep 1 (S (length pages)))).
Proof.
  intros Hne. apply (paginated_concat_run _ _ _ _ (JList [])); [|simpl|done|lia].
  - apply (stub_pages_served ep pages pages []); done.
  - unfold respond, stub_pages, page_request, page_params. cbn [req_url req_params].
    rewrite String.eqb_refl, (proj2 (Z.leb_le 1 _)) by lia.
    replace (Z.to_nat (1 + Z.of_nat (length pages) - 1)) with (length pages) by lia.
    by rewrite lookup_ge_None_2.
Qed.

(** ** What the code does on errors *)

Section Errors.
Context `{GitHubServer}.

(** C34: When the metadata request fails (any status but 200), the bar is
    created with total [0]; tqdm's [__bool__] is then false, so the bar
    is never advanced and never closed, however many items arrive. *)
Theorem get_paginated_data_metadata_failure ep desc cf fuel k items w st b :
  cf ≠ "" →
  respond repo_request = Reply (mk_response st b) → st ≠ 200%Z →
  collects ep 1 k items → (k < fuel)%nat →
  ∃ w', get_paginated_data fuel ep desc (Some cf) w = (Ok items, w') ∧
    w_bars w' = w_bars w ++ [mk_bar (default "" desc) (Some 0%Z) 0 false []].
Proof.
  intros Hcf Hr Hst Hc Hk.
  destruct (paginated_bar_run ep desc cf fuel k items w 0 Hcf) as (w' & Hrun & _ & Hbars & _);
    [|done|done|].
  - unfold pbar_total, fetch_value. rewrite Hr. simpl.
    by rewrite (proj2 (Z.eqb_neq st 200) Hst).
  - by exists w'.
Qed.

(** C33: A page that fails (any status but 200, for example a rate limit)
    ends the collection exactly like the empty last page: the pages
    after it are never requested and the items before it are returned
    as if they were all. *)
Theorem get_paginated_data_error_truncates ep desc fuel pages w st b :
  served ep 1 pages →
  respond (page_request ep (1 + Z.of_nat (length pages))) = Reply (mk_response st b) →
  st ≠ 200%Z →
  (length pages < fuel)%nat →
  get_paginated_data fuel ep desc None w =
    (Ok (concat pages), log_requests w (page_requests ep 1 (S (length pages)))).
Proof.
  intros Hs Hr Hst Hf. apply (paginated_concat_run _ _ _ _ JNull); try done.
  unfold fetch_value. rewrite Hr. simpl. by rewrite (proj2 (Z.eqb_neq st 200) Hst).
Qed.
End Errors.

(** ** Witnesses: the theorems at concrete servers *)

Lemma page_loop_complete_witness :
  @page_loop demo_server 3 demo_ep None 1 [] world0 =
    (Ok ([] ++ [JStr "alice"; JStr "bob"; JStr "carol"]),
     advance_world None (Z.of_nat (length [JStr "alice"; JStr "bob"; JStr "carol"]))
       (log_requests world0 (page_requests demo_ep 1 3))).
Proof.
  apply (@page_loop_complete demo_server demo_ep None 1 2).
  - apply (collects_page demo_ep 1 1 (JList [JStr "alice"; JStr "bob"])
             [JStr "alice"; JStr "bob"] [JStr "carol"]); [vm_compute; reflexivity|reflexivity|reflexivity|].
    apply (collects_page demo_ep 2 0 (JList [JStr "carol"]) [JStr "carol"] []);
      [vm_compute; reflexivity|reflexivity|reflexivity|].
    apply (collects_stop demo_ep 3 (JList [])); [vm_compute; reflexivity|reflexivity].
  - intros i Hi. discriminate.
  - lia.
Defined.

Lemma get_paginated_data_concat_witness :
  @get_paginated_data demo_server 3 demo_ep None None world0 =
    (Ok (concat demo_pages), log_requests world0 (page_requests demo_ep 1 (S (length demo_pages)))).
Proof.
  apply (@get_paginated_data_concat demo_server demo_ep None 3 demo_pages (JList [])).
  - vm_compute. split_and!; try reflexivity; discriminate.
  - vm_compute. reflexivity.
  - reflexivity.
  - simpl. lia.
Defined.

Lemma page_loop_terminates_iff_witness :
  (∃ fuel, fst (@page_loop demo_server fuel demo_ep None 1 [] world0) ≠ OutOfFuel) ↔
  (∃ m : nat, @good_pageb demo_server demo_ep (1 + Z.of_nat m) = false).
Proof. apply page_loop_terminates_iff. intros i Hi. discriminate. Defined.

Lemma get_paginated_data_bar_witness :
  ∃ w', @get_paginated_data (with_repo_info (JDict [("stargazers_count", JInt 3)]) demo_server)
          3 demo_ep (Some "Fetching stargazers") (Some "stargazers_count") world0
          = (Ok [JStr "alice"; JStr "bob"; JStr "carol"], w') ∧
    w_requests w' = w_requests world0 ++ repo_request :: page_requests demo_ep 1 3 ∧
    w_bars w' = w_bars world0 ++
      [if bool_decide (0 < 3)%Z
       then mk_bar (default "" (Some "Fetching stargazers")) (Some 3%Z)
              (Z.of_nat (length [JStr "alice"; JStr "bob"; JStr "carol"])) true []
       else new_bar (Some "Fetching stargazers") (Some 3%Z)].
Proof.
  apply (@get_paginated_data_bar (with_repo_info (JDict [("stargazers_count", JInt 3)]) demo_server)
           demo_ep _ "stargazers_count" 3 2).
  - discriminate.
  - vm_compute. reflexivity.
  - apply (collects_page demo_ep 1 1 (JList [JStr "alice"; JStr "bob"])
             [JStr "alice"; JStr "bob"] [JStr "carol"]); [vm_compute; reflexivity|reflexivity|reflexivity|].
    apply (collects_page demo_ep 2 0 (JList [JStr "carol"]) [JStr "carol"] []);
      [vm_compute; reflexivity|reflexivity|reflexivity|].
    apply (collects_stop demo_ep 3 (JList [])); [vm_compute; reflexivity|reflexivity].
  - lia.
Defined.

Lemma get_paginated_data_metadata_failure_witness :
  ∃ w', @get_paginated_data demo_server 3 demo_ep (Some "Fetching stargazers") (Some "stargazers_count")
          world0 = (Ok [JStr "alice"; JStr "bob"; JStr "carol"], w') ∧
    w_bars w' = w_bars world0 ++ [mk_bar "Fetching stargazers" (Some 0%Z) 0 false []].
Proof.
  apply (@get_paginated_data_metadata_failure demo_server demo_ep (Some "Fetching stargazers")
           "stargazers_count" 3 2 _ world0 404 None).
  - discriminate.
  - vm_compute. reflexivity.
  - discriminate.
  - apply (collects_page demo_ep 1 1 (JList [JStr "alice"; JStr "bob"])
             [JStr "alice"; JStr "bob"] [JStr "carol"]); [vm_compute; reflexivity|reflexivity|reflexivity|].
    apply (collects_page demo_ep 2 0 (JList [JStr "carol"]) [JStr "carol"] []);
      [vm_compute; reflexivity|reflexivity|reflexivity|].
    apply (collects_stop demo_ep 3 (JList [])); [vm_compute; reflexivity|reflexivity].
  - lia.
Defined.

(** Page 2 is rate limited; page 3 still has data, which is never fetched. *)
Definition limited_server : GitHubServer :=
  rate_limited 2 (stub_pages demo_ep [[JStr "alice"]; [JStr "bob"]; [JStr "carol"]]).

Lemma get_paginated_data_error_truncates_witness :
  @get_paginated_data limited_server 2 demo_ep None None world0 =
    (Ok (concat [[JStr "alice"]]), log_requests world0 (page_requests demo_ep 1 (S (length [[JStr "alice"]])))).
Proof.
  apply (@get_paginated_data_error_truncates limited_server demo_ep None 2 [[JStr "alice"]] world0 403 None).
  - vm_compute. split_and!; try reflexivity; discriminate.
  - vm_compute. reflexivity.
  - discriminate.
  - simpl. lia.
Defined.

Lemma stub_paginated_concat_witness :
  @get_paginated_data (stub_pages demo_ep demo_pages) (S (length demo_pages)) demo_ep None None world0 =
    (Ok (concat demo_pages), log_requests world0 (page_requests demo_ep 1 (S (length demo_pages)))).
Proof. apply stub_paginated_concat. repeat constructor; discriminate. Defined.

Lemma get_paginated_data_refines_witness :
  ∃ k, @collects demo_server demo_ep 1 k [JStr "alice"; JStr "bob"; JStr "carol"] ∧ (k < 3)%nat.
Proof.
  apply (@get_paginated_data_refines demo_server demo_ep None None 3 world0 _
           (snd (@get_paginated_data demo_server 3 demo_ep None None world0))).
  vm_compute. reflexivity.
Defined.
