(* ===== verification/Enricher.v ===== *)
(** * The user enricher: [collect_user_info] and the login extractors

    [github_data_collector.py] lines 42-62 and the two lambdas of [main]
    (lines 118 and 127).  For every identity of the list the code extracts
    the login, fetches [/users/<login>] and, when the answer is truthy,
    appends the five-field profile row; after each identity it shows the
    number of rows collected so far as the bar's postfix.  The bar iterates
    over the identities: its total is their number, it advances by one per
    identity and is closed when the loop ends.

    The contract [enrich_spec] says which rows come out: one per identity
    whose answer is truthy, in the order of the identities; the theorems
    show that [collect_user_info] implements it, with one request per
    identity in order and the bar's final state, and what one identity
    whose fetch fails does. *)

From S2P Require Import Prelude Json World.

(** ** Rows and extractors *)

(** A profile row is the dict literal of lines 52-58, in its key order. *)
Definition row : Type := list (string * json).

Definition PROFILE_KEYS : list string :=
  ["person_name"; "github_profile_link"; "email"; "company"; "interests"].

(** Lines 52-58: [user_info.get(field, "")] for the five fields. *)
Definition profile_of (user_info : json) : pyres row :=
  name ← dict_get user_info "name" (JStr "");
  link ← dict_get user_info "html_url" (JStr "");
  email ← dict_get user_info "email" (JStr "");
  company ← dict_get user_info "company" (JStr "");
  bio ← dict_get user_info "bio" (JStr "");
  mret [("person_name", name); ("github_profile_link", link); ("email", email);
        ("company", company); ("interests", bio)].

(** [lambda x: x["login"]] (line 118) *)
Definition stargazer_login (x : json) : pyres json := getitem x "login".

(** [lambda x: x["owner"]["login"]] (line 127) *)
Definition fork_owner_login (x : json) : pyres json :=
  owner ← getitem x "owner"; getitem owner "login".

Definition user_request (username : json) : request :=
  mk_request ("https://api.github.com/users/" +s+ py_str username) github_headers [].

Section Enricher.
Context `{GitHubServer}.

(** The body of the [for] loop, lines 48-60, then tqdm's own step. *)
Fixpoint collect_loop (users : list json) (user_extractor : json → pyres json)
    (pbar : nat) (collected_info : list row) : PyM (list row) :=
  match users with
  | [] => mret collected_info
  | user :: users' =>
      username ← lift (user_extractor user);
      user_info ← get_user_info username;
      collected_info' ←
        (if py_truthy user_info
         then r ← lift (profile_of user_info); mret (collected_info ++ [r])
         else mret collected_info);
      tqdm_set_postfix pbar [("users_collected", Z.of_nat (length collected_info'))];;
      tqdm_update pbar 1;;
      collect_loop users' user_extractor pbar collected_info'
  end.

Definition collect_user_info (users : list json) (user_extractor : json → pyres json)
    : PyM (list row) :=
  pbar ← tqdm_new "Collecting user info" (Some (Z.of_nat (length users)));
  collected_info ← collect_loop users user_extractor pbar [];
  tqdm_close pbar;;
  mret collected_info.

(** ** The contract *)

(** The answer for one identity, as [get_user_info] returns it. *)
Definition user_answer (user_extractor : json → pyres json) (user : json) : pyres json :=
  username ← user_extractor user;
  fetch_value (respond (user_request username)).

(** The rows [collect_user_info] promises: the profile of every identity
    whose answer is truthy, in order; the first exception otherwise. *)
Fixpoint enrich_spec (user_extractor : json → pyres json) (users : list json) : pyres (list row) :=
  match users with
  | [] => inr []
  | user :: users' =>
      info ← user_answer user_extractor user;
      r ← (if py_truthy info then p ← profile_of info; mret [p] else inr []);
      rest ← enrich_spec user_extractor users';
      mret (r ++ rest)
  end.
End Enricher.

(** Concrete inputs for the witnesses: [alice] has a profile, [ghost]
    answers 404. *)
Definition alice_profile : json :=
  JDict [("login", JStr "alice"); ("name", JStr "Alice"); ("html_url", JStr "https://github.com/alice");
         ("email", JNull); ("bio", JStr "towns")].

Definition demo_user_server : GitHubServer :=
  λ r, if String.eqb (req_url r) "https://api.github.com/users/alice"
       then Reply (mk_response 200 (Some alice_profile))
       else Reply (mk_response 404 None).

Definition demo_users : list json :=
  [JDict [("login", JStr "alice")]; JDict [("login", JStr "ghost")]].

(** ** The bar during the loop *)

(** tqdm's step after one identity, with the postfix the body set. *)
Definition tick (count : nat) (b : bar) : bar :=
  mk_bar (bar_desc b) (bar_total b) (bar_n b + 1) (bar_closed b)
         [("users_collected", Z.of_nat count)].

Definition tick_world (i : nat) (count : nat) (w : world) : world :=
  mk_world (w_requests w) (w_stdout w) (w_files w) (alter (tick count) i (w_bars w)).

(** The bar after the loop over [k] identities, the last count shown
    being [last] (none when the list is empty). *)
Definition loop_bar (k : nat) (last : option nat) (b : bar) : bar :=
  mk_bar (bar_desc b) (bar_total b) (bar_n b + Z.of_nat k) (bar_closed b)
         (match last with Some c => [("users_collected", Z.of_nat c)] | None => bar_postfix b end).

(** The requests the loop sends: one per identity whose login extracts. *)
Definition enrich_requests (user_extractor : json → pyres json) (users : list json) : list request :=
  omap (λ u, match user_extractor u with inr n => Some (user_request n) | inl _ => None end) users.

Section EnricherTheorems.
Context `{GitHubServer}.

(** One identity, unfolded. *)
Lemma collect_loop_cons u us ex i acc w :
  collect_loop (u :: us) ex i acc w =
    match ex u with
    | inl e => (Exc e, w)
    | inr name =>
        let w1 := log_requests w [user_request name] in
        match fetch_value (respond (user_request name)) with
        | inl e => (Exc e, w1)
        | inr info =>
            if py_truthy info then
              match profile_of info with
              | inl e => (Exc e, w1)
              | inr r => collect_loop us ex i (acc ++ [r]) (tick_world i (length (acc ++ [r])) w1)
              end
            else collect_loop us ex i acc (tick_world i (length acc) w1)
        end
    end.
Proof.
  simpl. rewrite run_bind. destruct (ex u) as [e|name]; [done|]. pyM_simpl.
  unfold get_user_info. rewrite get_github_data_run. fold (user_request name).
  destruct (fetch_value _) as [e|info]; [done|]. simpl.
  destruct (py_truthy info); pyM_simpl; [destruct (profile_of info) as [e|r]; [done|]|];
    unfold tqdm_set_postfix, tqdm_update, bar_modify, tick_world; simpl;
    rewrite list_alter_alter_eq; do 4 f_equal; apply list_alter_ext; try done;
    intros [] _; done.
Qed.

Lemma loop_bar_tick k last c b :
  loop_bar k last (tick c b) = loop_bar (S k) (Some (default c last)) b.
Proof.
  unfold loop_bar, tick. simpl. f_equal; [lia|]. by destruct last.
Qed.

Lemma loop_bar_0 b : loop_bar 0 None b = b.
Proof. destruct b. unfold loop_bar. simpl. by rewrite Z.add_0_r. Qed.

(** The loop implements [enrich_spec]: the rows are those of the contract,
    appended to what was collected before; one request per identity, in
    order; the bar advances by one per identity and shows the final count. *)
Lemma collect_loop_ok users : ∀ ex i acc w rows,
  enrich_spec ex users = inr rows →
  collect_loop users ex i acc w =
    (Ok (acc ++ rows),
     mk_world (w_requests w ++ enrich_requests ex users) (w_stdout w) (w_files w)
       (alter (loop_bar (length users)
                 (match users with [] => None | _ => Some (length (acc ++ rows)) end)) i (w_bars w))).
Proof.
  induction users as [|u us IH]; intros ex i acc w rows Hs.
  - injection Hs as <-. simpl. rewrite !app_nil_r, list_alter_id; [by destruct w|apply loop_bar_0].
  - rewrite collect_loop_cons. simpl in Hs. unfold user_answer in Hs. simpl in Hs.
    unfold enrich_requests; simpl. fold (enrich_requests ex us).
    destruct (ex u) as [e|name]; [done|]. simpl in Hs.
    destruct (fetch_value _) as [e|info]; simpl in Hs; [done|]. simpl.
    destruct (py_truthy info).
    + destruct (profile_of info) as [e|r]; simpl in Hs; [done|].
      destruct (enrich_spec ex us) as [e|rest] eqn:Hrest; [done|]. injection Hs as <-.
      rewrite (IH ex i (acc ++ [r]) _ rest Hrest), <- app_assoc.
      unfold tick_world, log_requests. simpl. rewrite <- app_assoc, list_alter_alter_eq.
      do 2 f_equal. apply list_alter_ext; [|done]. intros b _. simpl.
      rewrite loop_bar_tick. destruct us; simpl; [|done].
      injection Hrest as <-. by rewrite ?app_nil_r.
    + simpl in Hs. destruct (enrich_spec ex us) as [e|rest] eqn:Hrest; [done|]. injection Hs as <-.
      rewrite (IH ex i acc _ rest Hrest).
      unfold tick_world, log_requests. simpl. rewrite <- app_assoc, list_alter_alter_eq.
      do 2 f_equal. apply list_alter_ext; [|done]. intros b _. simpl.
      rewrite loop_bar_tick. destruct us; simpl; [|done].
      injection Hrest as <-. by rewrite ?app_nil_r.
Qed.

Lemma collect_loop_raises users : ∀ ex i acc w e,
  enrich_spec ex users = inl e → fst (collect_loop users ex i acc w) = Exc e.
Proof.
  induction users as [|u us IH]; intros ex i acc w e Hs; [done|].
  rewrite collect_loop_cons. simpl in Hs. unfold user_answer in Hs. simpl in Hs.
  destruct (ex u) as [e'|name]; simpl in *; [congruence|].
  destruct (fetch_value _) as [e'|info]; simpl in *; [congruence|].
  destruct (py_truthy info); [destruct (profile_of info) as [e'|r]; simpl in *; [congruence|]|];
    (destruct (enrich_spec ex us) eqn:Hrest; simpl in Hs; [injection Hs as ->; by apply IH|done]).
Qed.

(** A raising identity ends the loop with its exception. *)
Lemma collect_loop_exc users : ∀ ex i acc w e,
  enrich_spec ex users = inl e → fst (collect_loop users ex i acc w) = Exc e.
Proof. apply collect_loop_raises. Qed.

Lemma collect_user_info_run users ex w rows :
  enrich_spec ex users = inr rows →
  collect_user_info users ex w =
    (Ok rows,
     mk_world (w_requests w ++ enrich_requests ex users) (w_stdout w) (w_files w)
       (w_bars w ++ [mk_bar "Collecting user info" (Some (Z.of_nat (length users)))
                      (Z.of_nat (length users)) true
                      (match users with [] => [] | _ => [("users_collected", Z.of_nat (length rows))] end)])).
Proof.
  intros Hs. unfold collect_user_info. rewrite run_bind. unfold tqdm_new at 1.
  rewrite run_bind, (collect_loop_ok users ex _ [] _ rows Hs). simpl.
  unfold tqdm_close, bar_modify. cbv [mbind PyM_bind mret PyM_ret]. simpl.
  rewrite !alter_last. simpl. by destruct users.
Qed.

(** C3: [collect_user_info] implements its contract: the rows of
    [enrich_spec], one request [/users/<login>] per identity in order, and
    a new bar that ends with total = count = the number of identities,
    closed, showing the number of rows collected. *)
Theorem collect_user_info_correct users ex w rows :
  enrich_spec ex users = inr rows →
  collect_user_info users ex w =
    (Ok rows,
     mk_world (w_requests w ++ enrich_requests ex users) (w_stdout w) (w_files w)
       (w_bars w ++ [mk_bar "Collecting user info" (Some (Z.of_nat (length users)))
                      (Z.of_nat (length users)) true
                      (match users with [] => [] | _ => [("users_collected", Z.of_nat (length rows))] end)])).
Proof. apply collect_user_info_run. Qed.

(** C15: The specification's property for a failed profile fetch: an identity
    whose [/users/<login>] answers with a status other than 200 adds no
    row, and the running count shown after it is unchanged. *)
Theorem collect_loop_skips_failed_fetch u us ex i acc w name st b :
  ex u = inr name →
  respond (user_request name) = Reply (mk_response st b) → st ≠ 200%Z →
  collect_loop (u :: us) ex i acc w =
    collect_loop us ex i acc (tick_world i (length acc) (log_requests w [user_request name])).
Proof.
  intros He Hr Hst. rewrite collect_loop_cons, He. simpl. unfold fetch_value. rewrite Hr. simpl.
  by rewrite (proj2 (Z.eqb_neq st 200) Hst).
Qed.
End EnricherTheorems.

(** ** Witnesses *)

Lemma collect_user_info_correct_witness :
  @collect_user_info demo_user_server demo_users stargazer_login world0 =
    (Ok [[("person_name", JStr "Alice"); ("github_profile_link", JStr "https://github.com/alice");
          ("email", JNull); ("company", JStr ""); ("interests", JStr "towns")]],
     mk_world (w_requests world0 ++ enrich_requests stargazer_login demo_users) (w_stdout world0)
       (w_files world0)
       (w_bars world0 ++ [mk_bar "Collecting user info" (Some (Z.of_nat (length demo_users)))
                           (Z.of_nat (length demo_users)) true
                           [("users_collected", Z.of_nat 1)]])).
Proof. apply (@collect_user_info_correct demo_user_server). vm_compute. reflexivity. Defined.

Lemma collect_loop_skips_failed_fetch_witness :
  @collect_loop demo_user_server [JDict [("login", JStr "ghost")]] stargazer_login 0 [] world0 =
    @collect_loop demo_user_server [] stargazer_login 0 []
      (tick_world 0 (length (@nil row)) (log_requests world0 [user_request (JStr "ghost")])).
Proof.
  apply (@collect_loop_skips_failed_fetch demo_user_server _ _ _ _ _ _ (JStr "ghost") 404 None).
  - reflexivity.
  - vm_compute. reflexivity.
  - discriminate.
Defined.

Lemma collect_loop_exc_witness :
  fst (@collect_loop demo_user_server [JStr "oops"] stargazer_login 0 [] world0) =
    Exc (TypeError "string indices must be integers, not 'str'").
Proof. apply (@collect_loop_exc demo_user_server). reflexivity. Defined.

(** ** Bounds *)

Lemma enrich_spec_length `{GitHubServer} ex users rows :
  enrich_spec ex users = inr rows → length rows ≤ length users.
Proof.
  revert rows. induction users as [|u us IH]; intros rows Hs; simpl in Hs.
  - by injection Hs as <-.
  - destruct (user_answer ex u) as [e|info]; simpl in Hs; [done|].
    destruct (py_truthy info); [destruct (profile_of info) as [e|p]|]; simpl in Hs; [done| |];
      destruct (enrich_spec ex us) as [e|rest] eqn:Hrest; simpl in Hs; try done; injection Hs as <-;
      specialize (IH rest eq_refl); simpl; lia.
Qed.

Lemma length_enrich_requests ex users : length (enrich_requests ex users) ≤ length users.
Proof.
  induction users as [|u us IH]; [done|]. unfold enrich_requests in *. csimpl.
  destruct (ex u); simpl; lia.
Qed.

(** Bounds: whenever [collect_user_info] returns, it has sent at most
    one request per identity and collected at most one row per identity. *)
Theorem collect_user_info_bounds `{GitHubServer} users ex w rows w' :
  collect_user_info users ex w = (Ok rows, w') →
  length rows ≤ length users ∧ length (w_requests w') ≤ length (w_requests w) + length users.
Proof.
  intros Hrun. destruct (enrich_spec ex users) as [e|rows'] eqn:Hs.
  - unfold collect_user_info in Hrun. rewrite run_bind in Hrun. unfold tqdm_new at 1 in Hrun.
    rewrite run_bind in Hrun.
    match type of Hrun with context [collect_loop users ex ?i [] ?w1] =>
      pose proof (collect_loop_raises users ex i [] w1 e Hs) as Hexc;
      destruct (collect_loop users ex i [] w1) as [o w2] end.
    simpl in Hexc. by subst o.
  - rewrite (collect_user_info_run users ex w rows' Hs) in Hrun. injection Hrun as <- <-. simpl.
    rewrite length_app. pose proof (length_enrich_requests ex users).
    pose proof (enrich_spec_length ex users rows' Hs). lia.
Qed.

Lemma collect_user_info_bounds_witness :
  length [[("person_name", JStr "Alice"); ("github_profile_link", JStr "https://github.com/alice");
           ("email", JNull); ("company", JStr ""); ("interests", JStr "towns")]] ≤ length demo_users ∧
  length (w_requests (@collect_user_info demo_user_server demo_users stargazer_login world0).2) ≤
    length (w_requests world0) + length demo_users.
Proof.
  apply (@collect_user_info_bounds demo_user_server demo_users stargazer_login world0
           [[("person_name", JStr "Alice"); ("github_profile_link", JStr "https://github.com/alice");
             ("email", JNull); ("company", JStr ""); ("interests", JStr "towns")]]
           (@collect_user_info demo_user_server demo_users stargazer_login world0).2).
  vm_compute. reflexivity.
Defined.
