(* ===== verification/CsvWriter.v ===== *)
(** * The CSV writer: [save_to_csv] over Python's [csv.DictWriter]

    [github_data_collector.py] lines 29-39.  The dialect is Python's
    default ("excel"): fields separated by [,], records ended by CR LF,
    QUOTE_MINIMAL quoting (a field is quoted when it holds [,], a quote or
    a character of the line terminator, CR or LF here, and a quote inside
    a quoted field is doubled; a record made of one empty field is written
    as two quotes so that it is not a blank line).  [DictWriter] writes the header row of the field names, then
    each dict as the list of its values in field-name order: a missing key
    gives the [restval] [""], a key not among the field names raises
    [ValueError] (its default [extrasaction="raise"]), after the rows
    before it have been written.

    The cells of a row are written with [str], except [None], which the csv
    module writes as an empty field. *)

From S2P Require Import Prelude Json World Enricher.

(** ** Characters of the dialect *)

Definition DQ : Ascii.ascii := Ascii.ascii_of_nat 34.
Definition COMMA : Ascii.ascii := Ascii.ascii_of_nat 44.
Definition CR : Ascii.ascii := Ascii.ascii_of_nat 13.
Definition LF : Ascii.ascii := Ascii.ascii_of_nat 10.

(** A character of the line terminator [term]. *)
Definition in_term (term : list Ascii.ascii) (c : Ascii.ascii) : bool :=
  existsb (λ t, bool_decide (c = t)) term.

(** A character that forces QUOTE_MINIMAL to quote its field
    ([join_append_data] of [_csv.c], Python 3.11): the delimiter, the quote
    character, or a character of the dialect's line terminator.  With the
    terminator LF a lone CR is not one: it is written bare. *)
Definition special (term : list Ascii.ascii) (c : Ascii.ascii) : bool :=
  bool_decide (c = COMMA) || bool_decide (c = DQ) || in_term term c.

Definition needs_quotes (term f : list Ascii.ascii) : bool := existsb (special term) f.

(** Inside quotes, a quote is doubled. *)
Fixpoint escape_quotes (f : list Ascii.ascii) : list Ascii.ascii :=
  match f with
  | [] => []
  | c :: f' => if bool_decide (c = DQ) then DQ :: DQ :: escape_quotes f' else c :: escape_quotes f'
  end.

Definition encode_field (term f : list Ascii.ascii) : list Ascii.ascii :=
  if needs_quotes term f then DQ :: escape_quotes f ++ [DQ] else f.

Fixpoint join_fields (term : list Ascii.ascii) (fs : list (list Ascii.ascii)) : list Ascii.ascii :=
  match fs with
  | [] => []
  | [f] => encode_field term f
  | f :: fs' => encode_field term f ++ COMMA :: join_fields term fs'
  end.

(** [csv.writer.writerow] with line terminator [term]: a record of one
    empty field is written as two quotes. *)
Definition render_row_term (term : list Ascii.ascii) (fs : list (list Ascii.ascii)) : list Ascii.ascii :=
  (match fs with [[]] => [DQ; DQ] | _ => join_fields term fs end) ++ term.

Definition render_rows_term (term : list Ascii.ascii) (rows : list (list (list Ascii.ascii))) : list Ascii.ascii :=
  concat (map (render_row_term term) rows).

(** The csv module's default terminator is CR LF. *)
Definition render_row : list (list Ascii.ascii) → list Ascii.ascii := render_row_term [CR; LF].
Definition render_rows : list (list (list Ascii.ascii)) → list Ascii.ascii := render_rows_term [CR; LF].

(** The text a cell value becomes. *)
Definition csv_cell (x : json) : string :=
  match x with JNull => "" | _ => py_str x end.

Definition cell_chars (x : json) : list Ascii.ascii := String.list_ascii_of_string (csv_cell x).

(** ** [DictWriter] *)

(** [DictWriter._dict_to_list] with [extrasaction="raise"], [restval=""]. *)
Definition dict_to_list (fieldnames : list string) (rowdict : row) : pyres (list json) :=
  match filter (λ k, k ∉ fieldnames) (map fst rowdict) with
  | [] => inr (map (λ k, default (JStr "") (assoc_get k rowdict)) fieldnames)
  | wrong =>
      inl (ValueError ("dict contains fields not in fieldnames: "
                       +s+ join ", " (map (λ k, py_repr (JStr k)) wrong)))
  end.

Definition writerow (path : string) (fields : list json) : PyM unit :=
  file_write path (String.string_of_list_ascii (render_row (map cell_chars fields))).

(** [DictWriter.writerows]: row by row, so an error leaves the rows
    before it written. *)
Fixpoint writerows (path : string) (fieldnames : list string) (rows : list row) : PyM unit :=
  match rows with
  | [] => mret tt
  | r :: rs =>
      fields ← lift (dict_to_list fieldnames r);
      writerow path fields;;
      writerows path fieldnames rs
  end.

(** [DictWriter.writeheader]: the row [{name: name}] of the field names. *)
Definition writeheader (path : string) (fieldnames : list string) : PyM unit :=
  writerow path (map JStr fieldnames).

Definition save_to_csv (data : list row) (filename : string) : PyM unit :=
  match data with
  | [] => py_print "No data to save."
  | first :: _ =>
      let keys := map fst first in
      file_open_w filename;;
      writeheader filename keys;;
      writerows filename keys data
  end.

(** The text of the file for uniform rows: the header, then the rows. *)
Definition csv_text (keys : list string) (data : list row) : list Ascii.ascii :=
  render_rows (map (map cell_chars) (map JStr keys :: map (map snd) data)).

(** ** Theorems *)

Definition set_file (w : world) (path contents : string) : world :=
  mk_world (w_requests w) (w_stdout w) (<[path := contents]> (w_files w)) (w_bars w).

(** The values [DictWriter] writes for a dict whose keys are among the
    field names: the value of each field name, [restval] [""] when absent. *)
Definition row_values (keys : list string) (r : row) : list json :=
  map (λ k, default (JStr "") (assoc_get k r)) keys.

Lemma dict_to_list_ok keys r :
  Forall (λ k, k ∈ keys) (map fst r) → dict_to_list keys r = inr (row_values keys r).
Proof.
  intros Hk. unfold dict_to_list. rewrite filter_empty_Forall; [done|].
  apply Forall_impl with (1 := Hk). naive_solver.
Qed.

Lemma render_rows_term_cons term x xs :
  render_rows_term term (x :: xs) = render_row_term term x ++ render_rows_term term xs.
Proof. reflexivity. Qed.

Lemma render_rows_cons x xs : render_rows (x :: xs) = render_row x ++ render_rows xs.
Proof. reflexivity. Qed.

Lemma set_file_twice w path a b :
  set_file (set_file w path a) path b = set_file w path b.
Proof. unfold set_file; simpl. by rewrite insert_insert_eq. Qed.

Lemma set_file_same w path a :
  w_files w !! path = Some a → set_file w path a = w.
Proof. destruct w. unfold set_file; simpl. intros H. by rewrite insert_id. Qed.

Lemma writerows_ok path keys rows : ∀ w old,
  w_files w !! path = Some old →
  Forall (λ r, Forall (λ k, k ∈ keys) (map fst r)) rows →
  writerows path keys rows w =
    (Ok tt, set_file w path (old +s+ String.string_of_list_ascii
                               (render_rows (map (map cell_chars) (map (row_values keys) rows))))).
Proof.
  induction rows as [|r rs IH]; intros w old Hold Hall; simpl.
  - by rewrite string_app_nil_r, set_file_same.
  - apply Forall_cons in Hall as [Hr Hrs].
    rewrite run_bind, dict_to_list_ok by done. simpl.
    rewrite run_bind. unfold writerow, file_write. rewrite Hold. simpl.
    fold (set_file w path (old +s+ String.string_of_list_ascii (render_row (map cell_chars (row_values keys r))))).
    rewrite (IH _ (old +s+ String.string_of_list_ascii (render_row (map cell_chars (row_values keys r)))));
      [|by unfold set_file; simpl; rewrite lookup_insert_eq|done].
    rewrite set_file_twice, string_app_assoc. cbn [map]. by rewrite render_rows_cons, string_of_list_ascii_app.
Qed.

Lemma writerows_stops path keys good bad post e : ∀ w old,
  w_files w !! path = Some old →
  Forall (λ r, Forall (λ k, k ∈ keys) (map fst r)) good →
  dict_to_list keys bad = inl e →
  writerows path keys (good ++ bad :: post) w =
    (Exc e, set_file w path (old +s+ String.string_of_list_ascii
                               (render_rows (map (map cell_chars) (map (row_values keys) good))))).
Proof.
  induction good as [|r rs IH]; intros w old Hold Hall Hbad; simpl.
  - rewrite run_bind, Hbad. simpl. by rewrite string_app_nil_r, set_file_same.
  - apply Forall_cons in Hall as [Hr Hrs].
    rewrite run_bind, dict_to_list_ok by done. simpl.
    rewrite run_bind. unfold writerow, file_write. rewrite Hold. simpl.
    fold (set_file w path (old +s+ String.string_of_list_ascii (render_row (map cell_chars (row_values keys r))))).
    rewrite (IH _ (old +s+ String.string_of_list_ascii (render_row (map cell_chars (row_values keys r)))));
      [|by unfold set_file; simpl; rewrite lookup_insert_eq|done|done].
    rewrite set_file_twice, string_app_assoc. cbn [map]. by rewrite render_rows_cons, string_of_list_ascii_app.
Qed.

Lemma dict_to_list_extra keys r k :
  k ∈ map fst r → k ∉ keys → ∃ msg, dict_to_list keys r = inl (ValueError msg).
Proof.
  intros Hin Hnot. unfold dict_to_list.
  destruct (filter (λ k, k ∉ keys) (map fst r)) eqn:Hf; [|eauto].
  exfalso. by apply (filter_nil_not_elem_of _ _ k Hf).
Qed.

Lemma row_values_uniform (r : row) :
  NoDup (map fst r) → row_values (map fst r) r = map snd r.
Proof.
  induction r as [|[k v] r IH]; intros Hnd; [done|].
  apply NoDup_cons in Hnd as [Hk Hnd]. unfold row_values in *. simpl.
  rewrite decide_True by done. f_equal. rewrite <- IH by done.
  apply map_ext_in. intros k' Hk'. rewrite decide_False; [done|].
  intros ->. apply Hk. by apply list_elem_of_In.
Qed.

(** The text [save_to_csv] writes for rows whose keys are among the first
    row's: the header of the first row's keys, then each row's values in
    header order. *)
Definition dict_csv_text (first : row) (data : list row) : list Ascii.ascii :=
  render_rows (map (map cell_chars) (map JStr (map fst first) :: map (row_values (map fst first)) data)).

Lemma writerow_run path fields w :
  writerow path fields w =
    (Ok tt, set_file w path (default "" (w_files w !! path)
                             +s+ String.string_of_list_ascii (render_row (map cell_chars fields)))).
Proof. reflexivity. Qed.

Lemma file_open_w_run path w : file_open_w path w = (Ok tt, set_file w path "").
Proof. reflexivity. Qed.

Lemma lookup_set_file w path s : w_files (set_file w path s) !! path = Some s.
Proof. apply lookup_insert_eq. Qed.

Definition header_text (keys : list string) : string :=
  String.string_of_list_ascii (render_row (map cell_chars (map JStr keys))).

(** [open(filename, "w")] then [writeheader()]: the file holds the header. *)
Lemma open_writeheader_run filename keys (k : unit → PyM unit) w :
  (file_open_w filename;; writeheader filename keys;; k tt) w =
    k tt (set_file w filename (header_text keys)).
Proof.
  rewrite (run_bind_ok _ _ _ tt (set_file w filename "")) by apply file_open_w_run. cbv beta.
  rewrite (run_bind_ok _ _ _ tt (set_file w filename (header_text keys))); [reflexivity|].
  unfold writeheader. rewrite writerow_run, lookup_set_file, set_file_twice. reflexivity.
Qed.

Section Save.

Lemma save_to_csv_run first rest filename w :
  Forall (λ r, Forall (λ k, k ∈ map fst first) (map fst r)) rest →
  save_to_csv (first :: rest) filename w =
    (Ok tt, set_file w filename (String.string_of_list_ascii (dict_csv_text first (first :: rest)))).
Proof.
  intros Hrest. unfold save_to_csv.
  rewrite (open_writeheader_run filename (map fst first) (λ _, writerows filename (map fst first) (first :: rest))).
  rewrite (writerows_ok _ _ _ _ (header_text (map fst first))); [|apply lookup_set_file|].
  - unfold header_text. by rewrite set_file_twice, <- string_of_list_ascii_app.
  - constructor; [|done]. by apply Forall_forall.
Qed.

(** C18: [save_to_csv] on rows whose keys are among the first row's keys: the
    file is created (or truncated) and holds the header then every row,
    a key missing from a row giving an empty cell; nothing is printed. *)
Theorem save_to_csv_writes first rest filename w :
  Forall (λ r, Forall (λ k, k ∈ map fst first) (map fst r)) rest →
  save_to_csv (first :: rest) filename w =
    (Ok tt, set_file w filename (String.string_of_list_ascii (dict_csv_text first (first :: rest)))).
Proof. apply save_to_csv_run. Qed.

(** C29: A row with a key that is not in the header makes [DictWriter] raise
    [ValueError]; the file keeps the header and the rows before it. *)
Theorem save_to_csv_extra_key first good bad post filename w k :
  Forall (λ r, Forall (λ k, k ∈ map fst first) (map fst r)) good →
  k ∈ map fst bad → k ∉ map fst first →
  ∃ msg, save_to_csv (first :: good ++ bad :: post) filename w =
    (Exc (ValueError msg),
     set_file w filename (String.string_of_list_ascii (dict_csv_text first (first :: good)))).
Proof.
  intros Hgood Hk Hnot. destruct (dict_to_list_extra (map fst first) bad k Hk Hnot) as [msg Hmsg].
  exists msg. unfold save_to_csv.
  rewrite (open_writeheader_run filename (map fst first)
             (λ _, writerows filename (map fst first) (first :: good ++ bad :: post))).
  rewrite app_comm_cons, (writerows_stops _ _ _ _ _ (ValueError msg) _ (header_text (map fst first)));
    [|apply lookup_set_file| |done].
  - unfold header_text. by rewrite set_file_twice, <- string_of_list_ascii_app.
  - constructor; [|done]. by apply Forall_forall.
Qed.
End Save.

(** ** Witnesses *)

(** A profile whose company needs quoting: a comma and a quote. *)
Definition demo_row_a : row :=
  [("person_name", JStr "Alice"); ("github_profile_link", JStr "https://github.com/alice");
   ("company", JStr ("Acme, " +s+ String DQ "Inc" +s+ String DQ ""))].

Definition demo_row_b : row :=
  [("person_name", JStr "Bob"); ("github_profile_link", JStr "https://github.com/bob")].

Definition demo_row_extra : row :=
  [("person_name", JStr "Eve"); ("login", JStr "eve")].

Lemma save_to_csv_writes_witness :
  save_to_csv [demo_row_a; demo_row_b] "ai-town_stargazers.csv" world0 =
    (Ok tt, set_file world0 "ai-town_stargazers.csv"
              (String.string_of_list_ascii (dict_csv_text demo_row_a [demo_row_a; demo_row_b]))).
Proof.
  apply (save_to_csv_writes demo_row_a [demo_row_b]).
  apply (bool_decide_unpack _). vm_compute. reflexivity.
Defined.

Lemma save_to_csv_extra_key_witness :
  ∃ msg, save_to_csv (demo_row_a :: [] ++ demo_row_extra :: [demo_row_b]) "ai-town_stargazers.csv" world0 =
    (Exc (ValueError msg),
     set_file world0 "ai-town_stargazers.csv"
       (String.string_of_list_ascii (dict_csv_text demo_row_a (demo_row_a :: [])))).
Proof.
  apply (save_to_csv_extra_key demo_row_a [] demo_row_extra [demo_row_b] _ _ "login").
  - constructor.
  - apply (bool_decide_unpack _). vm_compute. reflexivity.
  - apply (bool_decide_unpack _). vm_compute. reflexivity.
Defined.
