(* ===== verification/CsvReader.v ===== *)
(** * The CSV reader behind [pd.read_csv], and the round trip

    [merge_csv.py] line 13 reads each file with [pd.read_csv(file)].  Its
    tokenizer (pandas' C parser, with the default dialect: [,] separator,
    the double-quote character as quote, doubled inside a quoted field,
    [skip_blank_lines=True]) is a state machine with the C tokenizer's
    states: a field starts unquoted or quoted; a quoted field runs to the
    quote that is not doubled; CR, LF or CR LF end a record; empty lines
    and lines of spaces and tabs only are skipped ([WHITESPACE_LINE]);
    end of input inside a quoted field is an error.  [tokenize] runs it over the characters of a file as a
    [fold_left] of [step] (one character at a time), then [end_of_input].

    The round trip: reading the text the writer of [CsvWriter] renders
    gives back the rows that [readable_record] admits (not a lone field of
    whitespace, and with the LF terminator no CR left unquoted), and
    reading the file [save_to_csv] writes gives the header and every row's
    cells; an example shows that the whitespace condition is needed. *)

From S2P Require Import Prelude Json World Enricher CsvWriter.

Inductive pstate :=
| StartRecord
| StartField
| InField
| InQuoted
| QuoteInQuoted
| EatCRNL
| WhitespaceLine.

(** The tokenizer's state: where it is, the current field (reversed; in
    [WhitespaceLine], the spaces and tabs read so far), the fields of the
    current record (reversed), the records read (reversed). *)
Record pst := mk_pst {
  p_state : pstate;
  p_field : list Ascii.ascii;
  p_record : list string;
  p_out : list (list string)
}.

Definition SPACE : Ascii.ascii := Ascii.ascii_of_nat 32.
Definition TAB : Ascii.ascii := Ascii.ascii_of_nat 9.

Definition is_nl (c : Ascii.ascii) : bool := bool_decide (c = CR) || bool_decide (c = LF).

(** [IS_WHITESPACE] of the C tokenizer. *)
Definition is_ws (c : Ascii.ascii) : bool := bool_decide (c = SPACE) || bool_decide (c = TAB).

Definition save_field (fld : list Ascii.ascii) (rec : list string) : list string :=
  String.string_of_list_ascii (rev fld) :: rec.

(** A record ends: its fields, in order, are added to the output. *)
Definition end_record (st : pstate) (fld : list Ascii.ascii) (rec : list string)
    (out : list (list string)) : pst :=
  mk_pst st [] [] (rev (save_field fld rec) :: out).

(** The first character of a field. *)
Definition start_field (p : pst) (c : Ascii.ascii) : pst :=
  if bool_decide (c = DQ) then mk_pst InQuoted [] (p_record p) (p_out p)
  else if bool_decide (c = COMMA) then mk_pst StartField [] (save_field [] (p_record p)) (p_out p)
  else if bool_decide (c = CR) then end_record EatCRNL [] (p_record p) (p_out p)
  else if bool_decide (c = LF) then end_record StartRecord [] (p_record p) (p_out p)
  else mk_pst InField [c] (p_record p) (p_out p).

(** A character after an unquoted field's characters or a closing quote. *)
Definition after_field (p : pst) (c : Ascii.ascii) : option pst :=
  if bool_decide (c = COMMA) then Some (mk_pst StartField [] (save_field (p_field p) (p_record p)) (p_out p))
  else if bool_decide (c = CR) then Some (end_record EatCRNL (p_field p) (p_record p) (p_out p))
  else if bool_decide (c = LF) then Some (end_record StartRecord (p_field p) (p_record p) (p_out p))
  else None.

(** [IN_FIELD]: a delimiter or a line end closes the field, any other
    character (a quote included) is added to it. *)
Definition in_field (p : pst) (c : Ascii.ascii) : pst :=
  match after_field p c with
  | Some p' => p'
  | None => mk_pst InField (c :: p_field p) (p_record p) (p_out p)
  end.

(** [START_RECORD] on a character that is not a line end: with
    [skip_blank_lines], a space or a tab (not the delimiter) starts a line
    that may hold whitespace only; anything else starts the first field. *)
Definition start_record (p : pst) (c : Ascii.ascii) : pst :=
  if is_ws c then mk_pst WhitespaceLine [c] (p_record p) (p_out p) else start_field p c.

(** One character.  [WhitespaceLine] is the C tokenizer's
    [WHITESPACE_LINE]: a line end drops the line; more whitespace is kept;
    any other character backtracks to the start of the line and reads it
    from [START_FIELD], where the whitespace is the first field's text,
    which is the field [IN_FIELD] holds here. *)
Definition step (p : pst) (c : Ascii.ascii) : pst :=
  match p_state p with
  | StartRecord => if is_nl c then p else start_record p c
  | StartField => start_field p c
  | InField => in_field p c
  | InQuoted =>
      if bool_decide (c = DQ) then mk_pst QuoteInQuoted (p_field p) (p_record p) (p_out p)
      else mk_pst InQuoted (c :: p_field p) (p_record p) (p_out p)
  | QuoteInQuoted =>
      if bool_decide (c = DQ) then mk_pst InQuoted (DQ :: p_field p) (p_record p) (p_out p)
      else in_field p c
  | EatCRNL => if is_nl c then mk_pst StartRecord [] [] (p_out p) else start_record p c
  | WhitespaceLine =>
      if is_nl c then mk_pst StartRecord [] (p_record p) (p_out p)
      else if is_ws c then mk_pst WhitespaceLine (c :: p_field p) (p_record p) (p_out p)
      else in_field (mk_pst InField (p_field p) (p_record p) (p_out p)) c
  end.

Definition end_of_input (p : pst) : pyres (list (list string)) :=
  match p_state p with
  | StartRecord | EatCRNL | WhitespaceLine => inr (rev (p_out p))
  | StartField => inr (rev (rev (save_field [] (p_record p)) :: p_out p))
  | InField | QuoteInQuoted => inr (rev (rev (save_field (p_field p) (p_record p)) :: p_out p))
  | InQuoted => inl (ParserError "EOF inside string")
  end.

Definition init_pst : pst := mk_pst StartRecord [] [] [].

Definition tokenize (s : list Ascii.ascii) : pyres (list (list string)) :=
  end_of_input (fold_left step s init_pst).

(** The records of a file's text. *)
Definition read_csv_records (text : string) : pyres (list (list string)) :=
  tokenize (String.list_ascii_of_string text).

(** ** The tokenizer on what the writer renders *)

Definition chars_string (f : list Ascii.ascii) : string := String.string_of_list_ascii f.

(** A character the tokenizer reads as text in an unquoted field: what
    the CR LF writer leaves unquoted. *)
Notation plain c := (special [CR; LF] c = false).

(** A record of one field of spaces and tabs only, not empty: no
    character of it forces quotes, so its line holds whitespace only and
    [skip_blank_lines] drops it. *)
Definition whitespace_record (fs : list (list Ascii.ascii)) : bool :=
  match fs with
  | [f] => negb (bool_decide (f = [])) && forallb is_ws f
  | _ => false
  end.

(** A record that reads back as written with terminator [term]: it has a
    field, it is not a whitespace line, and each field is quoted exactly
    when the CR LF writer would quote it (always so for CR LF; with LF, a
    field that holds a CR must also hold a character that forces quotes). *)
Definition readable_record (term : list Ascii.ascii) (fs : list (list Ascii.ascii)) : Prop :=
  fs ≠ [] ∧ whitespace_record fs = false ∧
  Forall (λ f, needs_quotes term f = needs_quotes [CR; LF] f) fs.

Lemma whitespace_record_long fs : 2 ≤ length fs → whitespace_record fs = false.
Proof. destruct fs as [|f [|f' fs]]; simpl; [lia|lia|done]. Qed.

(** The steps the round trip uses. *)
Lemma step_start_field fld rec out c :
  step (mk_pst StartField fld rec out) c = start_field (mk_pst StartField fld rec out) c.
Proof. reflexivity. Qed.

Lemma step_quoted_quote fld rec out :
  step (mk_pst InQuoted fld rec out) DQ = mk_pst QuoteInQuoted fld rec out.
Proof. reflexivity. Qed.

Lemma step_quoted_char c fld rec out :
  c ≠ DQ → step (mk_pst InQuoted fld rec out) c = mk_pst InQuoted (c :: fld) rec out.
Proof. intros Hc. unfold step; simpl. by rewrite bool_decide_eq_false_2. Qed.

Lemma step_quote_quote fld rec out :
  step (mk_pst QuoteInQuoted fld rec out) DQ = mk_pst InQuoted (DQ :: fld) rec out.
Proof. reflexivity. Qed.

Lemma step_quote_after c fld rec out p' :
  c ≠ DQ → after_field (mk_pst QuoteInQuoted fld rec out) c = Some p' →
  step (mk_pst QuoteInQuoted fld rec out) c = p'.
Proof. intros Hc Ha. unfold step, in_field; simpl. rewrite bool_decide_eq_false_2 by done. by rewrite Ha. Qed.

Lemma step_field_after c fld rec out p' :
  after_field (mk_pst InField fld rec out) c = Some p' → step (mk_pst InField fld rec out) c = p'.
Proof. intros Ha. unfold step, in_field; simpl. by rewrite Ha. Qed.

Lemma after_field_plain st c fld rec out :
  plain c → after_field (mk_pst st fld rec out) c = None.
Proof.
  unfold special, in_term, after_field. cbn [existsb]. intros Hs.
  repeat case_bool_decide; simpl in *; try done;
    repeat (rewrite orb_true_iff in Hs || rewrite orb_false_iff in Hs); naive_solver.
Qed.

Lemma step_field_char c fld rec out :
  plain c → step (mk_pst InField fld rec out) c = mk_pst InField (c :: fld) rec out.
Proof. intros Hs. unfold step, in_field; simpl. by rewrite after_field_plain. Qed.

Lemma fold_escape f : ∀ acc rec out,
  fold_left step (escape_quotes f) (mk_pst InQuoted acc rec out) =
    mk_pst InQuoted (rev f ++ acc) rec out.
Proof.
  induction f as [|c f IH]; intros acc rec out; [done|]. simpl.
  case_bool_decide as Hc; simpl.
  - subst. rewrite step_quoted_quote, step_quote_quote, IH. by rewrite <- app_assoc.
  - rewrite step_quoted_char, IH by done. by rewrite <- app_assoc.
Qed.

Lemma fold_plain f : ∀ acc rec out,
  Forall (λ c, plain c) f →
  fold_left step f (mk_pst InField acc rec out) = mk_pst InField (rev f ++ acc) rec out.
Proof.
  induction f as [|c f IH]; intros acc rec out Hf; [done|].
  apply Forall_cons in Hf as [Hc Hf]. simpl.
  rewrite step_field_char, IH by done. by rewrite <- app_assoc.
Qed.

Lemma needs_quotes_false term f : needs_quotes term f = false → Forall (λ c, special term c = false) f.
Proof.
  induction f as [|c f IH]; simpl; [done|]. intros H.
  apply orb_false_iff in H as [Hc Hf]. constructor; auto.
Qed.

Lemma start_field_plain p c :
  plain c → start_field p c = mk_pst InField [c] (p_record p) (p_out p).
Proof.
  unfold special, in_term, start_field. cbn [existsb]. intros Hs.
  repeat case_bool_decide; simpl in *; try done;
    repeat (rewrite orb_true_iff in Hs || rewrite orb_false_iff in Hs); naive_solver.
Qed.

(** [after_field] does not look at the state it is in. *)
Lemma after_field_state st st' c fld rec out :
  after_field (mk_pst st fld rec out) c = after_field (mk_pst st' fld rec out) c.
Proof. reflexivity. Qed.

Definition delimiter (c : Ascii.ascii) : Prop := c = COMMA ∨ c = CR ∨ c = LF.

Lemma delimiter_not_quote c : delimiter c → c ≠ DQ.
Proof. by intros [->|[->| ->]]. Qed.

(** An encoded field followed by a delimiter, read from the start of a
    field, acts as the field's characters followed by that delimiter. *)
Lemma fold_field f c rec out :
  delimiter c →
  Some (fold_left step (encode_field [CR; LF] f ++ [c]) (mk_pst StartField [] rec out)) =
    after_field (mk_pst InField (rev f) rec out) c.
Proof.
  intros Hc. unfold encode_field. destruct (needs_quotes [CR; LF] f) eqn:Hq.
  - replace ((DQ :: escape_quotes f ++ [DQ]) ++ [c]) with (DQ :: escape_quotes f ++ [DQ; c])
      by (simpl; by rewrite <- app_assoc).
    cbn [fold_left]. change (step (mk_pst StartField [] rec out) DQ) with (mk_pst InQuoted [] rec out).
    rewrite fold_left_app, fold_escape, app_nil_r. cbn [fold_left].
    rewrite step_quoted_quote.
    destruct (after_field (mk_pst QuoteInQuoted (rev f) rec out) c) as [p'|] eqn:Ha.
    + rewrite (step_quote_after c _ _ _ p'); [|by apply delimiter_not_quote|done].
      by rewrite (after_field_state InField QuoteInQuoted), Ha.
    + exfalso. destruct Hc as [->|[->| ->]]; discriminate.
  - destruct f as [|c0 f].
    + by destruct Hc as [->|[->| ->]].
    + apply needs_quotes_false in Hq. apply Forall_cons in Hq as [Hc0 Hf].
      rewrite fold_left_app. cbn [fold_left]. rewrite step_start_field, start_field_plain by done.
      cbn [p_record p_out]. rewrite fold_plain by done.
      destruct (after_field (mk_pst InField (rev f ++ [c0]) rec out) c) as [p'|] eqn:Ha.
      * by rewrite (step_field_after c _ _ _ p').
      * exfalso. destruct Hc as [->|[->| ->]]; discriminate.
Qed.

(** The state a line terminator leaves the tokenizer in. *)
Definition after_eol (t : Ascii.ascii) : pstate := if bool_decide (t = CR) then EatCRNL else StartRecord.

Lemma fold_join t fs : ∀ rec out, t = CR ∨ t = LF → fs ≠ [] →
  fold_left step (join_fields [CR; LF] fs ++ [t]) (mk_pst StartField [] rec out) =
    mk_pst (after_eol t) [] [] ((rev rec ++ map chars_string fs) :: out).
Proof.
  induction fs as [|f fs IH]; intros rec out Ht Hne; [done|].
  destruct fs as [|f' fs'].
  - pose proof (fold_field f t rec out (or_intror Ht)) as H.
    cbn [join_fields]. destruct Ht as [->| ->]; simpl in H; injection H as ->;
      unfold end_record, save_field; rewrite rev_involutive; reflexivity.
  - replace (join_fields [CR; LF] (f :: f' :: fs') ++ [t])
      with ((encode_field [CR; LF] f ++ [COMMA]) ++ (join_fields [CR; LF] (f' :: fs') ++ [t]))
      by (simpl; by rewrite <- !app_assoc).
    rewrite fold_left_app.
    pose proof (fold_field f COMMA rec out (or_introl eq_refl)) as H. simpl in H. injection H as ->.
    rewrite IH by done. unfold save_field. rewrite rev_involutive. simpl.
    by rewrite <- app_assoc.
Qed.

Lemma special_not_nl c : plain c → is_nl c = false.
Proof.
  unfold special, in_term, is_nl. cbn [existsb]. intros H.
  repeat (rewrite orb_false_iff in H). destruct H as [[_ _] [? [? _]]].
  by rewrite H, H0.
Qed.

Lemma ws_plain c : is_ws c = true → plain c ∧ is_nl c = false.
Proof.
  unfold is_ws. intros H. apply orb_true_iff in H as [H|H];
    apply bool_decide_eq_true in H; subst; split; reflexivity.
Qed.

(** *** Whitespace at the start of a line *)

(** A line whose leading spaces and tabs are followed by a character that
    is not a line end: [WHITESPACE_LINE] backtracks on it. *)
Fixpoint ws_then_text (l : list Ascii.ascii) : bool :=
  match l with
  | [] => false
  | c :: l' => if is_ws c then ws_then_text l' else negb (is_nl c)
  end.

Lemma fold_whitespace_line l : ∀ acc rec out, ws_then_text l = true →
  fold_left step l (mk_pst WhitespaceLine acc rec out) = fold_left step l (mk_pst InField acc rec out).
Proof.
  induction l as [|c l IH]; intros acc rec out Hl; [done|]. cbn [ws_then_text] in Hl. cbn [fold_left].
  destruct (is_ws c) eqn:Hw.
  - destruct (ws_plain c Hw) as [Hp Hn]. rewrite step_field_char by done.
    unfold step at 2; cbn [p_state p_field p_record p_out]. rewrite Hn, Hw. by apply IH.
  - apply negb_true_iff in Hl. unfold step at 2; cbn [p_state p_field p_record p_out].
    by rewrite Hl, Hw.
Qed.

(** Read from the start of a line, such a line is read as from the start
    of its first field. *)
Lemma fold_start_record l rec out : ws_then_text l = true →
  fold_left step l (mk_pst StartRecord [] rec out) = fold_left step l (mk_pst StartField [] rec out).
Proof.
  destruct l as [|c l]; [done|]. cbn [ws_then_text fold_left]. intros Hl.
  set (g := fold_left step l). unfold step; cbn [p_state p_field p_record p_out]. unfold start_record.
  destruct (is_ws c) eqn:Hw.
  - destruct (ws_plain c Hw) as [Hp Hn]. rewrite Hn, start_field_plain by done.
    by apply fold_whitespace_line.
  - apply negb_true_iff in Hl. by rewrite Hl.
Qed.

Lemma ws_then_text_app f l : Forall (λ c, is_nl c = false) f →
  ws_then_text (f ++ l) = if forallb is_ws f then ws_then_text l else true.
Proof.
  induction f as [|c f IH]; intros Hf; [done|]. apply Forall_cons in Hf as [Hc Hf].
  cbn [app ws_then_text forallb]. rewrite Hc. destruct (is_ws c); [by apply IH|done].
Qed.

(** What the writer renders for a record with a field that is not a
    whitespace line starts, after its whitespace, with text. *)
Lemma join_ws_then_text fs term :
  fs ≠ [] → fs ≠ [[]] → whitespace_record fs = false →
  ws_then_text (join_fields [CR; LF] fs ++ term) = true.
Proof.
  intros Hne Hne1 Hws. destruct fs as [|f fs]; [done|].
  assert (Hf : ∀ l, (forallb is_ws f = true → ws_then_text l = true) →
            ws_then_text (encode_field [CR; LF] f ++ l) = true).
  { intros l Hl. unfold encode_field. destruct (needs_quotes [CR; LF] f) eqn:Hq; [done|].
    apply needs_quotes_false in Hq. rewrite ws_then_text_app.
    - destruct (forallb is_ws f); auto.
    - apply Forall_impl with (1 := Hq). intros c. apply special_not_nl. }
  destruct fs as [|f' fs'].
  - cbn [join_fields]. apply Hf. intros Hall. exfalso. cbn in Hws.
    rewrite Hall, andb_true_r in Hws. apply negb_false_iff, bool_decide_eq_true in Hws. by subst.
  - cbn [join_fields]. rewrite <- app_assoc. apply Hf. intros _. reflexivity.
Qed.

(** Both writers quote the same fields: the text is the same. *)
Lemma join_fields_agree term fs :
  Forall (λ f, needs_quotes term f = needs_quotes [CR; LF] f) fs →
  join_fields term fs = join_fields [CR; LF] fs.
Proof.
  induction fs as [|f fs IH]; intros Hall; [done|]. apply Forall_cons in Hall as [Hf Hall].
  assert (Hef : encode_field term f = encode_field [CR; LF] f) by (unfold encode_field; by rewrite Hf).
  destruct fs as [|f' fs']; [by cbn; rewrite Hef|].
  change (encode_field term f ++ COMMA :: join_fields term (f' :: fs') =
          encode_field [CR; LF] f ++ COMMA :: join_fields [CR; LF] (f' :: fs')).
  by rewrite Hef, IH.
Qed.

Lemma render_row_join term fs : fs ≠ [[]] → render_row_term term fs = join_fields term fs ++ term.
Proof. intros H. unfold render_row_term. destruct fs as [|[|c f] [|f' fs']]; done. Qed.

(** The two terminators the program writes: CR LF ([csv]) and LF
    ([DataFrame.to_csv]). *)
Definition eol (term : list Ascii.ascii) : Prop := term = [CR; LF] ∨ term = [LF].

Lemma fold_row term fs out : eol term → readable_record term fs →
  fold_left step (render_row_term term fs) (mk_pst StartRecord [] [] out) =
    mk_pst StartRecord [] [] (map chars_string fs :: out).
Proof.
  intros Hterm (Hne & Hws & Hagree). destruct (decide (fs = [[]])) as [->|Hne1].
  { by destruct Hterm as [-> | ->]. }
  rewrite render_row_join, join_fields_agree, fold_start_record by auto using join_ws_then_text.
  destruct Hterm as [-> | ->].
  - replace (join_fields [CR; LF] fs ++ [CR; LF]) with ((join_fields [CR; LF] fs ++ [CR]) ++ [LF])
      by (by rewrite <- app_assoc).
    rewrite fold_left_app, (fold_join CR) by auto. reflexivity.
  - rewrite (fold_join LF) by auto. reflexivity.
Qed.

Lemma fold_rows term rows : ∀ out, eol term → Forall (readable_record term) rows →
  fold_left step (render_rows_term term rows) (mk_pst StartRecord [] [] out) =
    mk_pst StartRecord [] [] (rev (map (map chars_string) rows) ++ out).
Proof.
  induction rows as [|fs rows IH]; intros out Hterm Hall; [done|].
  apply Forall_cons in Hall as [Hfs Hrows].
  rewrite render_rows_term_cons, fold_left_app, fold_row, IH by done.
  simpl. by rewrite <- app_assoc.
Qed.

(** The tokenizer reads back what the writer renders, with either line
    terminator, for records that read back as written. *)
Theorem tokenize_render_term term rows :
  eol term → Forall (readable_record term) rows →
  tokenize (render_rows_term term rows) = inr (map (map chars_string) rows).
Proof.
  intros Hterm Hall. unfold tokenize, init_pst. rewrite fold_rows by done.
  unfold end_of_input; cbn [p_state p_out]. by rewrite app_nil_r, rev_involutive.
Qed.

(** The same on strings: [recs] written with terminator [term] and read
    back. *)
Lemma read_render_strings term recs :
  eol term → Forall (λ vs, readable_record term (map String.list_ascii_of_string vs)) recs →
  read_csv_records (String.string_of_list_ascii
    (render_rows_term term (map (map String.list_ascii_of_string) recs))) = inr recs.
Proof.
  intros Hterm Hall. unfold read_csv_records.
  rewrite String.list_ascii_of_string_of_list_ascii, tokenize_render_term.
  - f_equal. rewrite map_map. etransitivity; [|apply map_id]. apply map_ext. intros vs.
    rewrite map_map. etransitivity; [|apply map_id]. apply map_ext. intros v.
    apply String.string_of_list_ascii_of_string.
  - done.
  - by apply Forall_map.
Qed.

(** *** Texts the LF writer writes as the CR LF writer does *)

(** A text that [to_csv] (terminator LF) quotes exactly when [csv]'s
    default dialect (CR LF) does: it holds no CR, or it also holds a
    character that forces quotes.  A lone CR in a field the LF writer
    leaves bare ends the record when pandas reads it back. *)
Definition lf_safe (s : string) : Prop :=
  needs_quotes [LF] (String.list_ascii_of_string s) = needs_quotes [CR; LF] (String.list_ascii_of_string s).

#[export] Instance lf_safe_dec s : Decision (lf_safe s).
Proof. unfold lf_safe. apply _. Defined.

Lemma list_ascii_of_string_app (a b : string) :
  String.list_ascii_of_string (a +s+ b) = String.list_ascii_of_string a ++ String.list_ascii_of_string b.
Proof. induction a as [|c a IH]; [done|]. simpl. by rewrite IH. Qed.

Lemma needs_quotes_no_cr f : CR ∉ f → needs_quotes [LF] f = needs_quotes [CR; LF] f.
Proof.
  induction f as [|c f IH]; intros Hf; [done|]. rewrite not_elem_of_cons in Hf. destruct Hf as [Hc Hf].
  specialize (IH Hf). unfold needs_quotes in *. cbn [existsb]. rewrite IH. f_equal.
  unfold special, in_term. cbn [existsb]. by rewrite (bool_decide_eq_false_2 (c = CR)).
Qed.

Lemma lf_safe_no_cr s : CR ∉ String.list_ascii_of_string s → lf_safe s.
Proof. apply needs_quotes_no_cr. Qed.

Lemma needs_quotes_comma term f : COMMA ∈ f → needs_quotes term f = true.
Proof.
  intros H. apply existsb_exists. exists COMMA. split; [by apply list_elem_of_In|].
  unfold special. by rewrite bool_decide_eq_true_2.
Qed.

(** A join with a separator holding a comma: two parts or more are quoted
    by both writers. *)
Lemma lf_safe_join sep xs :
  COMMA ∈ String.list_ascii_of_string sep → Forall lf_safe xs → lf_safe (join sep xs).
Proof.
  intros Hs Hall. destruct xs as [|x [|y xs]]; [done|by inversion Hall|].
  cbn [join]. unfold lf_safe. rewrite !needs_quotes_comma; [done|..];
    rewrite !list_ascii_of_string_app; set_solver.
Qed.

Lemma chars_string_cell x : chars_string (cell_chars x) = csv_cell x.
Proof. apply String.string_of_list_ascii_of_string. Qed.

Lemma map_chars_string_cells xs : map chars_string (map cell_chars xs) = map csv_cell xs.
Proof. rewrite map_map. apply map_ext. apply chars_string_cell. Qed.

(** The records [save_to_csv] writes for uniform rows: the keys, then
    each row's values as the strings [str] makes of them. *)
Definition saved_records (first : row) (rest : list row) : list (list string) :=
  map fst first :: map (λ r, map csv_cell (map snd r)) (first :: rest).

Lemma dict_csv_text_strings first rest :
  NoDup (map fst first) → Forall (λ r, map fst r = map fst first) rest →
  dict_csv_text first (first :: rest) =
    render_rows (map (map String.list_ascii_of_string) (saved_records first rest)).
Proof.
  intros Hnd Hrest. unfold dict_csv_text, saved_records, cell_chars. cbn [map]. f_equal.
  rewrite !map_map. f_equal. f_equal.
  - rewrite row_values_uniform by done. by rewrite map_map.
  - apply map_ext_Forall. apply Forall_impl with (1 := Hrest).
    intros r Hr. rewrite <- Hr, row_values_uniform by (by rewrite Hr). by rewrite !map_map.
Qed.

(** The tokenizer reads back the text [save_to_csv] writes, unless a
    record is a whitespace line. *)
Lemma dict_csv_text_records first rest :
  map fst first ≠ [] → NoDup (map fst first) → Forall (λ r, map fst r = map fst first) rest →
  Forall (λ vs, whitespace_record (map String.list_ascii_of_string vs) = false) (saved_records first rest) →
  read_csv_records (String.string_of_list_ascii (dict_csv_text first (first :: rest))) =
    inr (saved_records first rest).
Proof.
  intros Hne Hnd Hrest Hws. rewrite dict_csv_text_strings by done.
  apply read_render_strings; [by left|].
  apply Forall_impl with (P := λ vs, vs ≠ [] ∧
    whitespace_record (map String.list_ascii_of_string vs) = false).
  - apply Forall_and; split; [|done]. unfold saved_records.
    constructor; [done|]. apply Forall_forall. intros vs Hvs.
    apply list_elem_of_In, in_map_iff in Hvs as (r & <- & Hr).
    assert (Hk : map fst r = map fst first).
    { destruct Hr as [<-|Hr]; [done|]. rewrite Forall_forall in Hrest. apply Hrest. by apply list_elem_of_In. }
    intros Hnil. apply map_eq_nil in Hnil. apply Hne. rewrite <- Hk. by destruct r.
  - intros vs [Hvs Hw]. split_and!; [by destruct vs|done|]. by apply Forall_forall.
Qed.

(** The round trip through the tokenizer. *)
Lemma save_to_csv_records first rest filename w :
  map fst first ≠ [] → NoDup (map fst first) →
  Forall (λ r, map fst r = map fst first) rest →
  Forall (λ vs, whitespace_record (map String.list_ascii_of_string vs) = false) (saved_records first rest) →
  ∃ text, save_to_csv (first :: rest) filename w = (Ok tt, set_file w filename text) ∧
    read_csv_records text = inr (saved_records first rest).
Proof.
  intros Hne Hnd Hrest Hws. eexists. split; [|by apply dict_csv_text_records].
  apply save_to_csv_run. apply Forall_impl with (1 := Hrest). intros r ->. by apply Forall_forall.
Qed.

(** C5: The specification's round trip: writing uniform records with
    [save_to_csv] and reading the file back gives the header (the keys)
    and, for every record, its values in order as the strings [str] makes
    of them ([None] as the empty string), provided no record is a single
    field of spaces and tabs, a line pandas skips. *)
Theorem save_to_csv_roundtrip first rest filename w :
  map fst first ≠ [] → NoDup (map fst first) →
  Forall (λ r, map fst r = map fst first) rest →
  Forall (λ vs, whitespace_record (map String.list_ascii_of_string vs) = false) (saved_records first rest) →
  ∃ text, save_to_csv (first :: rest) filename w = (Ok tt, set_file w filename text) ∧
    read_csv_records text = inr (saved_records first rest).
Proof. apply save_to_csv_records. Qed.

(** The side condition is needed: a one-column file whose value is a
    space is written as the line [" "], which [skip_blank_lines] drops. *)
Example save_to_csv_drops_whitespace_value :
  ∃ text, save_to_csv [[("bio", JStr " ")]] "a.csv" world0 = (Ok tt, set_file world0 "a.csv" text) ∧
    read_csv_records text = inr [["bio"]].
Proof. eexists. split; [reflexivity|]. vm_compute. reflexivity. Qed.

(** ** Witness *)

Definition demo_row_c : row :=
  [("person_name", JStr "Carol"); ("github_profile_link", JStr "https://github.com/carol");
   ("company", JNull)].

Lemma save_to_csv_roundtrip_witness :
  ∃ text, save_to_csv [demo_row_a; demo_row_c] "ai-town_stargazers.csv" world0 =
      (Ok tt, set_file world0 "ai-town_stargazers.csv" text) ∧
    read_csv_records text = inr (saved_records demo_row_a [demo_row_c]).
Proof.
  apply (save_to_csv_roundtrip demo_row_a [demo_row_c]).
  - vm_compute. congruence.
  - apply (bool_decide_unpack _). vm_compute. reflexivity.
  - apply (bool_decide_unpack _). vm_compute. reflexivity.
  - apply (bool_decide_unpack _). vm_compute. reflexivity.
Defined.
