(* ===== verification/Collector.v ===== *)
(** * [main] of [github_data_collector.py]: the two pipelines

    [main] (lines 114-131) runs the same pipeline twice, for stargazers and
    for forks: the paginated list of identities ([get_stargazers] or
    [get_forks] of [Paginator]); when it is non-empty, [collect_user_info]
    of [Enricher] with the login extractor of the pipeline, [save_to_csv]
    of [CsvWriter], and a message that the data was saved; otherwise a
    message that nothing was found.  The two blocks are
    [collect_stargazers] and [collect_forkers]; [main] runs one then the
    other with the same page fuel.

    The theorems: the normal path writes the file of the collected
    profiles and reports it; when every profile fetch fails the message
    that the data was saved is printed although no file was written; and
    a whole run of [main] on a concrete server. *)

From S2P Require Import Prelude Json World Paginator Enricher CsvWriter CsvReader.

Section Main.
Context `{GitHubServer}.

(** Lines 115-122. *)
Definition collect_stargazers (fuel : nat) : PyM unit :=
  stargazers ← get_stargazers fuel;
  if py_truthy (JList stargazers) then
    stargazer_info ← collect_user_info stargazers stargazer_login;
    save_to_csv stargazer_info STARGAZERS_CSV;;
    py_print ("Stargazer data saved to " +s+ STARGAZERS_CSV)
  else py_print "No stargazers found or failed to fetch data.".

(** Lines 124-131. *)
Definition collect_forkers (fuel : nat) : PyM unit :=
  forkers ← get_forks fuel;
  if py_truthy (JList forkers) then
    forker_info ← collect_user_info forkers fork_owner_login;
    save_to_csv forker_info FORKERS_CSV;;
    py_print ("Forker data saved to " +s+ FORKERS_CSV)
  else py_print "No forkers found or failed to fetch data.".

Definition main (fuel : nat) : PyM unit :=
  collect_stargazers fuel;;
  collect_forkers fuel.
End Main.

(** ** Every row is a profile *)

Lemma profile_of_keys info r : profile_of info = inr r → map fst r = PROFILE_KEYS.
Proof.
  unfold profile_of. intros Hp.
  repeat match type of Hp with
         | context [dict_get ?x ?k ?d] => destruct (dict_get x k d); simpl in Hp; [done|]
         end.
  by injection Hp as <-.
Qed.

Lemma enrich_spec_keys `{GitHubServer} ex users rows :
  enrich_spec ex users = inr rows → Forall (λ r, map fst r = PROFILE_KEYS) rows.
Proof.
  revert rows. induction users as [|u us IH]; intros rows Hs; simpl in Hs.
  - by injection Hs as <-.
  - destruct (user_answer ex u) as [e|info]; simpl in Hs; [done|].
    destruct (py_truthy info); [destruct (profile_of info) as [e|p] eqn:Hp|]; simpl in Hs; [done| |];
      destruct (enrich_spec ex us) as [e|rest]; simpl in Hs; try done; injection Hs as <-.
    + constructor; [by apply (profile_of_keys info)|by apply IH].
    + by apply IH.
Qed.

(** Rows with the same keys as the first one pass [DictWriter]'s check. *)
Lemma uniform_keys_among (first : row) (rest : list row) :
  Forall (λ r, map fst r = map fst first) rest →
  Forall (λ r, Forall (λ k, k ∈ map fst first) (map fst r)) rest.
Proof.
  intros Hall. eapply Forall_impl; [done|]. intros r Hr. rewrite Hr. by apply Forall_forall.
Qed.

(** ** The two pipelines

    Both blocks of [main] have one shape: fetch the identities; when there
    are some, collect the profiles, save them and print the saved
    message.  The lemmas below run that shape once; the theorems
    instantiate it with the stargazer and the fork pipeline. *)

Section Blocks.
Context `{GitHubServer}.

(** [get_paginated_data] with a count field, as the pipelines call it:
    the identities of the contract, and neither printed lines nor files. *)
Lemma paginated_quiet_run ep desc cf fuel k users w t :
  cf ≠ "" →
  pbar_total (respond repo_request) cf = inr (Some t) →
  collects ep 1 k users → (k < fuel)%nat →
  ∃ w1, get_paginated_data fuel ep desc (Some cf) w = (Ok users, w1) ∧
    w_stdout w1 = w_stdout w ∧ w_files w1 = w_files w.
Proof.
  intros Hcf Ht Hc Hk.
  destruct (paginated_bar_run ep desc cf fuel k users w t Hcf Ht Hc Hk) as (w1 & Hrun & _ & _ & Ho & Hf).
  by exists w1.
Qed.

(** One block, up to the saving: a non-empty list of identities whose
    profiles give [rows]. *)
Lemma block_run (fetch : PyM (list json)) ex file msg none users rows w w1 :
  fetch w = (Ok users, w1) → users ≠ [] → enrich_spec ex users = inr rows →
  ∃ w2, (users ← fetch;
         if py_truthy (JList users) then
           info ← collect_user_info users ex; save_to_csv info file;; py_print msg
         else py_print none) w = (save_to_csv rows file;; py_print msg) w2 ∧
    w_stdout w2 = w_stdout w1 ∧ w_files w2 = w_files w1.
Proof.
  intros Hf Hne Hs. rewrite (run_bind_ok _ _ _ _ _ Hf).
  destruct users as [|u us]; [done|]. cbn [py_truthy length Nat.eqb negb].
  rewrite (run_bind_ok _ _ _ _ _ (collect_user_info_run _ _ w1 rows Hs)). by eexists.
Qed.

(** The saving and the message, for rows that are profiles. *)
Lemma save_print_run ex users first rest file msg w2 :
  enrich_spec ex users = inr (first :: rest) →
  (save_to_csv (first :: rest) file;; py_print msg) w2 =
    (Ok tt, mk_world (w_requests w2) (w_stdout w2 ++ [msg])
              (<[file := String.string_of_list_ascii (dict_csv_text first (first :: rest))]> (w_files w2))
              (w_bars w2)).
Proof.
  intros Hs. apply enrich_spec_keys, Forall_cons in Hs as [Hfirst Hrest].
  rewrite run_bind, save_to_csv_run; [reflexivity|].
  apply uniform_keys_among. eapply Forall_impl; [done|]. intros r ->. done.
Qed.

Lemma collect_stargazers_run fuel k users rows w t :
  pbar_total (respond repo_request) "stargazers_count" = inr (Some t) →
  collects stargazers_endpoint 1 k users → (k < fuel)%nat → users ≠ [] →
  enrich_spec stargazer_login users = inr rows →
  ∃ w2, collect_stargazers fuel w =
      (save_to_csv rows STARGAZERS_CSV;; py_print ("Stargazer data saved to " +s+ STARGAZERS_CSV)) w2 ∧
    w_stdout w2 = w_stdout w ∧ w_files w2 = w_files w.
Proof.
  intros Ht Hc Hk Hne Hs.
  destruct (paginated_quiet_run stargazers_endpoint (Some "Fetching stargazers") "stargazers_count"
              fuel k users w t ltac:(done) Ht Hc Hk) as (w1 & Hrun & Ho & Hf).
  destruct (block_run _ _ STARGAZERS_CSV ("Stargazer data saved to " +s+ STARGAZERS_CSV)
              "No stargazers found or failed to fetch data." users rows w w1 Hrun Hne Hs)
    as (w2 & Hb & Ho2 & Hf2).
  exists w2. split; [apply Hb|]. by rewrite Ho2, Hf2.
Qed.

Lemma collect_forkers_run fuel k users rows w t :
  pbar_total (respond repo_request) "forks_count" = inr (Some t) →
  collects forks_endpoint 1 k users → (k < fuel)%nat → users ≠ [] →
  enrich_spec fork_owner_login users = inr rows →
  ∃ w2, collect_forkers fuel w =
      (save_to_csv rows FORKERS_CSV;; py_print ("Forker data saved to " +s+ FORKERS_CSV)) w2 ∧
    w_stdout w2 = w_stdout w ∧ w_files w2 = w_files w.
Proof.
  intros Ht Hc Hk Hne Hs.
  destruct (paginated_quiet_run forks_endpoint (Some "Fetching forks") "forks_count"
              fuel k users w t ltac:(done) Ht Hc Hk) as (w1 & Hrun & Ho & Hf).
  destruct (block_run _ _ FORKERS_CSV ("Forker data saved to " +s+ FORKERS_CSV)
              "No forkers found or failed to fetch data." users rows w w1 Hrun Hne Hs)
    as (w2 & Hb & Ho2 & Hf2).
  exists w2. split; [apply Hb|]. by rewrite Ho2, Hf2.
Qed.

(** The stargazer block on the normal path, as a world. *)
Lemma stargazers_saved fuel k users first rest w t :
  pbar_total (respond repo_request) "stargazers_count" = inr (Some t) →
  collects stargazers_endpoint 1 k users → (k < fuel)%nat → users ≠ [] →
  enrich_spec stargazer_login users = inr (first :: rest) →
  ∃ w', collect_stargazers fuel w = (Ok tt, w') ∧
    w_files w' = <[STARGAZERS_CSV := String.string_of_list_ascii (dict_csv_text first (first :: rest))]>
                   (w_files w) ∧
    w_stdout w' = w_stdout w ++ ["Stargazer data saved to " +s+ STARGAZERS_CSV].
Proof.
  intros Ht Hc Hk Hne Hs.
  destruct (collect_stargazers_run fuel k users _ w t Ht Hc Hk Hne Hs) as (w2 & -> & Hout & Hfiles).
  rewrite (save_print_run _ _ _ _ _ _ _ Hs). eexists. split_and!; [reflexivity|simpl; by rewrite Hfiles|simpl; by rewrite Hout].
Qed.

Lemma forkers_saved fuel k users first rest w t :
  pbar_total (respond repo_request) "forks_count" = inr (Some t) →
  collects forks_endpoint 1 k users → (k < fuel)%nat → users ≠ [] →
  enrich_spec fork_owner_login users = inr (first :: rest) →
  ∃ w', collect_forkers fuel w = (Ok tt, w') ∧
    w_files w' = <[FORKERS_CSV := String.string_of_list_ascii (dict_csv_text first (first :: rest))]>
                   (w_files w) ∧
    w_stdout w' = w_stdout w ++ ["Forker data saved to " +s+ FORKERS_CSV].
Proof.
  intros Ht Hc Hk Hne Hs.
  destruct (collect_forkers_run fuel k users _ w t Ht Hc Hk Hne Hs) as (w2 & -> & Hout & Hfiles).
  rewrite (save_print_run _ _ _ _ _ _ _ Hs). eexists. split_and!; [reflexivity|simpl; by rewrite Hfiles|simpl; by rewrite Hout].
Qed.

(** C19: the normal path: when the stargazers are listed and the profiles
    collected give at least one row, [ai-town_stargazers.csv] is written
    with the header and the rows, and the saved message is printed. *)
Theorem collect_stargazers_saves fuel k users first rest w t :
  pbar_total (respond repo_request) "stargazers_count" = inr (Some t) →
  collects stargazers_endpoint 1 k users → (k < fuel)%nat → users ≠ [] →
  enrich_spec stargazer_login users = inr (first :: rest) →
  ∃ w', collect_stargazers fuel w = (Ok tt, w') ∧
    w_files w' = <[STARGAZERS_CSV := String.string_of_list_ascii (dict_csv_text first (first :: rest))]>
                   (w_files w) ∧
    w_stdout w' = w_stdout w ++ ["Stargazer data saved to " +s+ STARGAZERS_CSV].
Proof. apply stargazers_saved. Qed.

(** C25: when every profile fetch of a non-empty stargazer list fails (each
    [/users/<login>] answers with a status other than 200), [save_to_csv]
    prints that there is no data and writes nothing, and [main] then
    prints that the stargazer data was saved to [ai-town_stargazers.csv]. *)
Theorem collect_stargazers_reports_unsaved fuel k users w t :
  pbar_total (respond repo_request) "stargazers_count" = inr (Some t) →
  collects stargazers_endpoint 1 k users → (k < fuel)%nat → users ≠ [] →
  enrich_spec stargazer_login users = inr [] →
  ∃ w', collect_stargazers fuel w = (Ok tt, w') ∧ w_files w' = w_files w ∧
    w_stdout w' = w_stdout w ++ ["No data to save."; "Stargazer data saved to ai-town_stargazers.csv"].
Proof.
  intros Ht Hc Hk Hne Hs.
  destruct (collect_stargazers_run fuel k users _ w t Ht Hc Hk Hne Hs) as (w2 & -> & Hout & Hfiles).
  eexists. split_and!; [reflexivity|done|simpl; by rewrite Hout, <- app_assoc].
Qed.

(** C20: the fork pipeline on the normal path writes [ai-town_forkers.csv]
    with the header and the profiles of the fork owners, and prints the
    saved message. *)
Theorem collect_forkers_saves fuel k users first rest w t :
  pbar_total (respond repo_request) "forks_count" = inr (Some t) →
  collects forks_endpoint 1 k users → (k < fuel)%nat → users ≠ [] →
  enrich_spec fork_owner_login users = inr (first :: rest) →
  ∃ w', collect_forkers fuel w = (Ok tt, w') ∧
    w_files w' = <[FORKERS_CSV := String.string_of_list_ascii (dict_csv_text first (first :: rest))]>
                   (w_files w) ∧
    w_stdout w' = w_stdout w ++ ["Forker data saved to " +s+ FORKERS_CSV].
Proof. apply forkers_saved. Qed.

(** The specification's empty collection: when the fork list is empty
    (the first page is falsy: no fork, or any failure), the fork block
    prints that nothing was found and writes no file. *)
Theorem collect_forkers_none fuel w t :
  pbar_total (respond repo_request) "forks_count" = inr (Some t) →
  collects forks_endpoint 1 0 [] → (0 < fuel)%nat →
  ∃ w', collect_forkers fuel w = (Ok tt, w') ∧ w_files w' = w_files w ∧
    w_stdout w' = w_stdout w ++ ["No forkers found or failed to fetch data."].
Proof.
  intros Ht Hc Hk.
  destruct (paginated_quiet_run forks_endpoint (Some "Fetching forks") "forks_count"
              fuel 0 [] w t ltac:(done) Ht Hc Hk) as (w1 & Hrun & Ho & Hf).
  unfold collect_forkers, get_forks. rewrite (run_bind_ok _ _ _ _ _ Hrun).
  eexists. split_and!; [reflexivity|done|simpl; by rewrite Ho].
Qed.

Lemma main_run_both fuel k1 users1 first1 rest1 t1 k2 users2 first2 rest2 t2 w :
  pbar_total (respond repo_request) "stargazers_count" = inr (Some t1) →
  collects stargazers_endpoint 1 k1 users1 → (k1 < fuel)%nat → users1 ≠ [] →
  enrich_spec stargazer_login users1 = inr (first1 :: rest1) →
  pbar_total (respond repo_request) "forks_count" = inr (Some t2) →
  collects forks_endpoint 1 k2 users2 → (k2 < fuel)%nat → users2 ≠ [] →
  enrich_spec fork_owner_login users2 = inr (first2 :: rest2) →
  ∃ w', main fuel w = (Ok tt, w') ∧
    w_files w' =
      <[FORKERS_CSV := String.string_of_list_ascii (dict_csv_text first2 (first2 :: rest2))]>
      (<[STARGAZERS_CSV := String.string_of_list_ascii (dict_csv_text first1 (first1 :: rest1))]>
         (w_files w)) ∧
    w_stdout w' = w_stdout w ++ ["Stargazer data saved to " +s+ STARGAZERS_CSV;
                                 "Forker data saved to " +s+ FORKERS_CSV].
Proof.
  intros Ht1 Hc1 Hk1 Hne1 Hs1 Ht2 Hc2 Hk2 Hne2 Hs2.
  destruct (stargazers_saved fuel k1 users1 first1 rest1 w t1 Ht1 Hc1 Hk1 Hne1 Hs1) as (w1 & Hr1 & Hf1 & Ho1).
  destruct (forkers_saved fuel k2 users2 first2 rest2 w1 t2 Ht2 Hc2 Hk2 Hne2 Hs2) as (w2 & Hr2 & Hf2 & Ho2).
  exists w2. unfold main. rewrite (run_bind_ok _ _ _ _ _ Hr1). split_and!; [done|by rewrite Hf2, Hf1|].
  by rewrite Ho2, Ho1, <- app_assoc.
Qed.

(** C8: the two pipelines composed: when both lists are collected and both
    give profiles, [main] writes both files, stargazers first, and prints
    the two saved messages in that order. *)
Theorem main_writes_both fuel k1 users1 first1 rest1 t1 k2 users2 first2 rest2 t2 w :
  pbar_total (respond repo_request) "stargazers_count" = inr (Some t1) →
  collects stargazers_endpoint 1 k1 users1 → (k1 < fuel)%nat → users1 ≠ [] →
  enrich_spec stargazer_login users1 = inr (first1 :: rest1) →
  pbar_total (respond repo_request) "forks_count" = inr (Some t2) →
  collects forks_endpoint 1 k2 users2 → (k2 < fuel)%nat → users2 ≠ [] →
  enrich_spec fork_owner_login users2 = inr (first2 :: rest2) →
  ∃ w', main fuel w = (Ok tt, w') ∧
    w_files w' =
      <[FORKERS_CSV := String.string_of_list_ascii (dict_csv_text first2 (first2 :: rest2))]>
      (<[STARGAZERS_CSV := String.string_of_list_ascii (dict_csv_text first1 (first1 :: rest1))]>
         (w_files w)) ∧
    w_stdout w' = w_stdout w ++ ["Stargazer data saved to " +s+ STARGAZERS_CSV;
                                 "Forker data saved to " +s+ FORKERS_CSV].
Proof. apply main_run_both. Qed.
End Blocks.

(** The [__main__] block, lines 134-135. *)
Definition collector_entry `{GitHubServer} (fuel : nat) : PyM unit := main fuel.

(** ** A run of [main] on a concrete server

    The repository has two stargazers, [alice] (a profile) and [ghost]
    (404), and no fork. *)

Definition main_repo_info : json :=
  JDict [("stargazers_count", JInt 2); ("forks_count", JInt 0)].

Definition main_stargazers : list json :=
  [JDict [("login", JStr "alice")]; JDict [("login", JStr "ghost")]].

Definition main_demo_server : GitHubServer :=
  with_repo_info main_repo_info
    (λ r, if String.eqb (req_url r) stargazers_endpoint
          then stub_pages stargazers_endpoint [main_stargazers] r
          else demo_user_server r).

Definition ghost_server : GitHubServer :=
  with_repo_info main_repo_info (stub_pages stargazers_endpoint [[JDict [("login", JStr "ghost")]]]).

(** A whole run of [main]: one stargazer has a profile, so
    [ai-town_stargazers.csv] holds the header and her row (a JSON [null]
    and a missing field both written empty); the fork list is empty, so
    the second pipeline only prints that nothing was found. *)
Example main_run_example :
  let w' := (@main main_demo_server 5 world0).2 in
  (@main main_demo_server 5 world0).1 = Ok tt ∧
  w_stdout w' = ["Stargazer data saved to ai-town_stargazers.csv";
                 "No forkers found or failed to fetch data."] ∧
  option_map read_csv_records (w_files w' !! STARGAZERS_CSV) =
    Some (inr [PROFILE_KEYS; ["Alice"; "https://github.com/alice"; ""; ""; "towns"]]) ∧
  w_files w' !! FORKERS_CSV = None.
Proof. vm_compute. repeat split. Qed.

(** ** Witnesses *)

Definition alice_row : row :=
  [("person_name", JStr "Alice"); ("github_profile_link", JStr "https://github.com/alice");
   ("email", JNull); ("company", JStr ""); ("interests", JStr "towns")].

Lemma main_stargazers_collected :
  @collects main_demo_server stargazers_endpoint 1 1 main_stargazers.
Proof.
  apply (collects_page _ 1 0 (JList main_stargazers) main_stargazers []);
    [vm_compute; reflexivity|reflexivity|reflexivity|].
  apply (collects_stop _ 2 (JList [])); [vm_compute; reflexivity|reflexivity].
Qed.

Lemma collect_stargazers_saves_witness :
  ∃ w', @collect_stargazers main_demo_server 5 world0 = (Ok tt, w') ∧
    w_files w' = <[STARGAZERS_CSV := String.string_of_list_ascii (dict_csv_text alice_row [alice_row])]>
                   (w_files world0) ∧
    w_stdout w' = w_stdout world0 ++ ["Stargazer data saved to " +s+ STARGAZERS_CSV].
Proof.
  apply (@collect_stargazers_saves main_demo_server 5 1 main_stargazers alice_row [] world0 2).
  - vm_compute. reflexivity.
  - apply main_stargazers_collected.
  - lia.
  - vm_compute. congruence.
  - vm_compute. reflexivity.
Defined.

Lemma collect_stargazers_reports_unsaved_witness :
  ∃ w', @collect_stargazers ghost_server 5 world0 = (Ok tt, w') ∧ w_files w' = w_files world0 ∧
    w_stdout w' = w_stdout world0 ++ ["No data to save."; "Stargazer data saved to ai-town_stargazers.csv"].
Proof.
  apply (@collect_stargazers_reports_unsaved ghost_server 5 1 [JDict [("login", JStr "ghost")]] world0 2).
  - vm_compute. reflexivity.
  - apply (collects_page _ 1 0 (JList [JDict [("login", JStr "ghost")]]) [JDict [("login", JStr "ghost")]] []);
      [vm_compute; reflexivity|reflexivity|reflexivity|].
    apply (collects_stop _ 2 (JList [])); [vm_compute; reflexivity|reflexivity].
  - lia.
  - congruence.
  - vm_compute. reflexivity.
Defined.

(** A repository with the two stargazers and one fork, owned by [alice]. *)
Definition main_forks : list json := [JDict [("owner", JDict [("login", JStr "alice")])]].

Definition both_demo_server : GitHubServer :=
  with_repo_info (JDict [("stargazers_count", JInt 2); ("forks_count", JInt 1)])
    (λ r, if String.eqb (req_url r) stargazers_endpoint
          then stub_pages stargazers_endpoint [main_stargazers] r
          else if String.eqb (req_url r) forks_endpoint
          then stub_pages forks_endpoint [main_forks] r
          else demo_user_server r).

Lemma both_stargazers_collected :
  @collects both_demo_server stargazers_endpoint 1 1 main_stargazers.
Proof.
  apply (collects_page _ 1 0 (JList main_stargazers) main_stargazers []);
    [vm_compute; reflexivity|reflexivity|reflexivity|].
  apply (collects_stop _ 2 (JList [])); [vm_compute; reflexivity|reflexivity].
Qed.

Lemma both_forks_collected : @collects both_demo_server forks_endpoint 1 1 main_forks.
Proof.
  apply (collects_page _ 1 0 (JList main_forks) main_forks []);
    [vm_compute; reflexivity|reflexivity|reflexivity|].
  apply (collects_stop _ 2 (JList [])); [vm_compute; reflexivity|reflexivity].
Qed.

Lemma collect_forkers_saves_witness :
  ∃ w', @collect_forkers both_demo_server 5 world0 = (Ok tt, w') ∧
    w_files w' = <[FORKERS_CSV := String.string_of_list_ascii (dict_csv_text alice_row [alice_row])]>
                   (w_files world0) ∧
    w_stdout w' = w_stdout world0 ++ ["Forker data saved to " +s+ FORKERS_CSV].
Proof.
  apply (@collect_forkers_saves both_demo_server 5 1 main_forks alice_row [] world0 1).
  - vm_compute. reflexivity.
  - apply both_forks_collected.
  - lia.
  - vm_compute. congruence.
  - vm_compute. reflexivity.
Defined.

Lemma collect_forkers_none_witness :
  ∃ w', @collect_forkers main_demo_server 5 world0 = (Ok tt, w') ∧ w_files w' = w_files world0 ∧
    w_stdout w' = w_stdout world0 ++ ["No forkers found or failed to fetch data."].
Proof.
  apply (@collect_forkers_none main_demo_server 5 world0 0).
  - vm_compute. reflexivity.
  - apply (collects_stop _ 1 JNull); [vm_compute; reflexivity|reflexivity].
  - lia.
Defined.

Lemma main_writes_both_witness :
  ∃ w', @main both_demo_server 5 world0 = (Ok tt, w') ∧
    w_files w' =
      <[FORKERS_CSV := String.string_of_list_ascii (dict_csv_text alice_row [alice_row])]>
      (<[STARGAZERS_CSV := String.string_of_list_ascii (dict_csv_text alice_row [alice_row])]>
         (w_files world0)) ∧
    w_stdout w' = w_stdout world0 ++ ["Stargazer data saved to " +s+ STARGAZERS_CSV;
                                      "Forker data saved to " +s+ FORKERS_CSV].
Proof.
  apply (@main_writes_both both_demo_server 5 1 main_stargazers alice_row [] 2 1 main_forks alice_row [] 1).
  - vm_compute. reflexivity.
  - apply both_stargazers_collected.
  - lia.
  - vm_compute. congruence.
  - vm_compute. reflexivity.
  - vm_compute. reflexivity.
  - apply both_forks_collected.
  - lia.
  - vm_compute. congruence.
  - vm_compute. reflexivity.
Defined.
