(* ===== verification/Frames.v ===== *)
(** * Frames read with [pd.read_csv]

    [merge_csv.py] line 13 reads each matched file with [pd.read_csv(file)]:
    the CSV records of [CsvReader]'s tokenizer, the first one the header;
    a field that is one of pandas' default NA strings (the empty field
    among them) is NaN; a record shorter than the header is padded with
    NaN, a longer one is a [ParserError]; an empty file is an
    [EmptyDataError].  A cell is a string or NaN: pandas' conversion of
    numeric and boolean columns is not modelled.  When the first data
    record is longer than the header by [j] fields, pandas takes the
    first [j] fields of every record as an implicit index (documented for
    files with trailing delimiters), and the columns get the fields after
    them.  The column names are the header renamed as pandas' C parser
    renames it ([TextReader._get_header]), proved to terminate and to
    give distinct names. *)

From S2P Require Import Prelude Json World CsvWriter CsvReader.

(** ** Frames read with [pd.read_csv] *)

Inductive cell :=
| CStr (s : string)
| CNaN.

#[export] Instance cell_eq_dec : EqDecision cell.
Proof. solve_decision. Defined.

(** pandas' default NA strings ([STR_NA_VALUES] of its parser): with the
    default [na_filter=True], a field equal to one of them, quoted or not,
    is read as NaN. *)
Definition NA_VALUES : list string :=
  ["-1.#IND"; "1.#QNAN"; "1.#IND"; "-1.#QNAN"; "#N/A N/A"; "#N/A"; "N/A"; "n/a"; "NA";
   "<NA>"; "#NA"; "NULL"; "null"; "NaN"; "-NaN"; "nan"; "-nan"; "None"; ""].

Definition cell_of_field (s : string) : cell := if decide (s ∈ NA_VALUES) then CNaN else CStr s.

Record frame := mk_frame {
  columns : list string;
  frame_rows : list (list cell)
}.

(** A data record under a header of [ncols] columns, after [idx] index
    fields: missing trailing fields are NaN, more than [idx + ncols]
    fields is a parser error. *)
Definition record_cells (idx ncols : nat) (fields : list string) : pyres (list cell) :=
  if Nat.ltb (idx + ncols) (length fields)
  then inl (ParserError ("Expected " +s+ pretty (N.of_nat (idx + ncols)) +s+ " fields, saw "
                         +s+ pretty (N.of_nat (length fields))))
  else let fs := drop idx fields in
       inr (map cell_of_field fs ++ replicate (ncols - length fs) CNaN).

(** ** Column names: [TextReader._get_header] of pandas' C parser

    An empty name at position [i] becomes [Unnamed: i]; then the names
    are made distinct, the non-empty ones first and the unnamed ones
    after them ([col_loop_order]), by the loop

    - [cur_count = counts.get(col, 0)]
    - [while cur_count > 0:]
      [counts\[old_col\] = cur_count + 1];
      [col = f"{old_col}.{cur_count}"];
      [cur_count += 1] if [col in this_header]
      else [cur_count = counts.get(col, 0)]
    - [this_header\[i\] = col; counts\[col\] = cur_count + 1]. *)

Definition header_name (i : nat) (name : string) : string :=
  if decide (name = "") then "Unnamed: " +s+ pretty i else name.

Definition col_loop_order (header : list string) : list nat :=
  filter (λ i, header !! i ≠ Some "") (seq 0 (length header)) ++
  filter (λ i, header !! i = Some "") (seq 0 (length header)).

Definition get_count (counts : gmap string nat) (col : string) : nat := default 0 (counts !! col).

Definition suffixed (old_col : string) (k : nat) : string := old_col +s+ "." +s+ pretty k.

(** The [while] loop, from [col] and [cur_count]; it returns [counts],
    [col] and [cur_count] on exit.  The fuel [length this_header + 2]
    is enough ([mangle_loop_exits]): every iteration but the last two
    meets a new name of the header. *)
Fixpoint mangle_loop (fuel : nat) (this_header : list string) (old_col : string)
    (counts : gmap string nat) (col : string) (cur_count : nat) : option (gmap string nat * string * nat) :=
  match fuel with
  | 0 => None
  | S f =>
      if decide (cur_count = 0) then Some (counts, col, cur_count)
      else
        let counts := <[old_col := S cur_count]> counts in
        let col := suffixed old_col cur_count in
        let cur_count := if decide (col ∈ this_header) then S cur_count else get_count counts col in
        mangle_loop f this_header old_col counts col cur_count
  end.

(** The [for i in col_loop_order] loop. *)
Fixpoint mangle_order (order : list nat) (this_header : list string) (counts : gmap string nat)
    : option (list string) :=
  match order with
  | [] => Some this_header
  | i :: order' =>
      match this_header !! i with
      | None => None
      | Some col =>
          match mangle_loop (length this_header + 2) this_header col counts col (get_count counts col) with
          | None => None
          | Some (counts, col, cur_count) =>
              mangle_order order' (<[i := col]> this_header) (<[col := S cur_count]> counts)
          end
      end
  end.

(** The column names of a header; [None] is never returned
    ([mangle_header_spec]). *)
Definition mangle_header (header : list string) : option (list string) :=
  mangle_order (col_loop_order header) (imap header_name header) ∅.

(** The frame of the records: the first record is the header; when the
    first data record has [j] more fields than the header, its first [j]
    fields are an implicit index (pandas' rule for trailing delimiters),
    so every record gives its fields after the first [j] to the columns. *)
Definition frame_of_records (recs : list (list string)) : pyres frame :=
  match recs with
  | [] => inl EmptyDataError
  | header :: rows =>
      let idx := match rows with first :: _ => length first - length header | [] => 0 end in
      rows' ← mapM (record_cells idx (length header)) rows;
      mret (mk_frame (default header (mangle_header header)) rows')
  end.

(** [pd.read_csv(file)] *)
Definition read_csv (file : string) : PyM frame :=
  text ← file_read file;
  lift (recs ← read_csv_records text; frame_of_records recs).


(** ** Column names are distinct, and the loop exits *)

#[export] Instance suffixed_inj old_col : Inj (=) (=) (suffixed old_col).
Proof. intros k1 k2 H. unfold suffixed in H. by apply (inj (String.append old_col)), (inj (String.append ".")), (inj pretty) in H. Qed.

(** The names [old.base], ..., [old.(cur-1)] are distinct, so at most
    [length hdr] of them are names of the header. *)
Lemma suffixed_run_length hdr old base cur :
  (∀ k, base ≤ k < cur → suffixed old k ∈ hdr) → cur - base ≤ length hdr.
Proof.
  intros H. transitivity (length (suffixed old <$> seq base (cur - base))); [by rewrite length_fmap, length_seq|].
  apply submseteq_length, NoDup_submseteq.
  - apply NoDup_fmap_2; first [apply NoDup_seq|apply suffixed_inj].
  - intros x Hx. apply list_elem_of_fmap in Hx as (k & -> & Hk). apply H. apply elem_of_seq in Hk. lia.
Qed.

Section Loop.
Context (hdr : list string) (old : string).
Hypothesis Hold : old ∈ hdr.

(** Every name counted is a name of the header. *)
Definition counts_in (counts : gmap string nat) : Prop := ∀ k, 0 < get_count counts k → k ∈ hdr.

Lemma get_count_insert counts k v k' :
  get_count (<[k := v]> counts) k' = if decide (k' = k) then v else get_count counts k'.
Proof. unfold get_count. case_decide; subst; [by rewrite lookup_insert_eq|by rewrite lookup_insert_ne]. Qed.

(** Raising the count of a name already counted leaves the counted names
    as they were. *)
Lemma counts_bump counts v :
  0 < get_count counts old → 0 < v →
  ∀ k, 0 < get_count (<[old := v]> counts) k ↔ 0 < get_count counts k.
Proof. intros Hc Hv k. rewrite get_count_insert. case_decide; subst; lia. Qed.

Lemma mangle_loop_exits fuel counts col cur base :
  counts_in counts →
  (cur = 0 → get_count counts col = 0 ∧ 1 ≤ fuel) →
  (0 < cur → 0 < get_count counts old ∧ base ≤ cur ∧ (∀ k, base ≤ k < cur → suffixed old k ∈ hdr) ∧
             length hdr + 2 ≤ fuel + (cur - base)) →
  ∃ counts' col', mangle_loop fuel hdr old counts col cur = Some (counts', col', 0) ∧
    get_count counts' col' = 0 ∧ ∀ k, 0 < get_count counts' k ↔ 0 < get_count counts k.
Proof.
  revert counts col cur. induction fuel as [|f IH]; intros counts col cur Hin Hzero Hrun.
  - destruct (decide (cur = 0)) as [->|Hc]; [specialize (Hzero eq_refl); lia|].
    destruct Hrun as (_ & _ & Hk & Hb); [lia|]. apply suffixed_run_length in Hk. lia.
  - cbn [mangle_loop]. case_decide as Hc; [subst; exists counts, col; naive_solver|].
    destruct Hrun as (Hpos & Hbase & Hk & Hb); [lia|].
    pose proof (counts_bump counts (S cur) Hpos ltac:(lia)) as Hbump.
    assert (counts_in (<[old := S cur]> counts)) as Hin' by (intros k Hk'; apply Hin, Hbump, Hk').
    case_decide as Hmem.
    + destruct (IH (<[old := S cur]> counts) (suffixed old cur) (S cur)) as (c' & col' & Hrun & H0 & Hc');
        [done|lia| |].
      * intros _. split_and!; [rewrite get_count_insert, decide_True; [lia|done]|lia| |lia].
        intros k Hk'. destruct (decide (k = cur)) as [->|]; [done|]. apply Hk. lia.
      * exists c', col'. split_and!; [done..|]. intros k. by rewrite Hc', Hbump.
    + assert (get_count (<[old := S cur]> counts) (suffixed old cur) = 0) as ->.
      { destruct (get_count _ (suffixed old cur)) eqn:E; [done|]. exfalso. apply Hmem, Hin'. lia. }
      apply suffixed_run_length in Hk.
      destruct (IH (<[old := S cur]> counts) (suffixed old cur) 0) as (c' & col' & Hrun & H0 & Hc');
        [done| |lia|].
      * intros _. split; [|lia]. destruct (get_count _ (suffixed old cur)) eqn:E; [done|].
        exfalso. apply Hmem, Hin'. lia.
      * exists c', col'. split_and!; [done..|]. intros k. by rewrite Hc', Hbump.
Qed.

(** The loop started as [_get_header] starts it exits with a name that
    was not counted, and counts the same names. *)
Lemma mangle_loop_start counts :
  counts_in counts →
  ∃ counts' col, mangle_loop (length hdr + 2) hdr old counts old (get_count counts old) = Some (counts', col, 0) ∧
    get_count counts col = 0 ∧ ∀ k, 0 < get_count counts' k ↔ 0 < get_count counts k.
Proof.
  intros Hin.
  destruct (mangle_loop_exits (length hdr + 2) counts old (get_count counts old) (get_count counts old))
    as (c' & col & Hrun & H0 & Hc'); [done|lia|intros Hp; split_and!; [lia|lia|intros; lia|lia]|].
  exists c', col. split_and!; [done| |done]. specialize (Hc' col). lia.
Qed.
End Loop.

(** The invariant of the [for] loop, with [D] the positions done: the
    names counted are the names at positions done, and those are
    distinct. *)
Definition mangle_inv (hdr : list string) (counts : gmap string nat) (D : list nat) : Prop :=
  (∀ k, 0 < get_count counts k ↔ ∃ j, j ∈ D ∧ hdr !! j = Some k) ∧
  (∀ j1 j2 x, j1 ∈ D → j2 ∈ D → hdr !! j1 = Some x → hdr !! j2 = Some x → j1 = j2).

(** One iteration of the [for] loop keeps the invariant. *)
Lemma mangle_inv_step hdr counts counts' D i col :
  mangle_inv hdr counts D → i ∉ D → i < length hdr →
  get_count counts col = 0 → (∀ k, 0 < get_count counts' k ↔ 0 < get_count counts k) →
  mangle_inv (<[i := col]> hdr) (<[col := 1]> counts') (i :: D).
Proof.
  intros [Hcnt Hdist] HiD Hi H0 Hc'. split.
  - intros k. rewrite get_count_insert. setoid_rewrite elem_of_cons. case_decide as Hk; subst.
    + split; [intros _; exists i; split; [by left|by rewrite list_lookup_insert_eq]|lia].
    + rewrite Hc', Hcnt. split.
      * intros (j & Hj & Hl). exists j. split; [by right|]. rewrite list_lookup_insert_ne; [done|set_solver].
      * intros (j & [->|Hj] & Hl); [rewrite list_lookup_insert_eq in Hl by done; congruence|].
        exists j. split; [done|]. rewrite list_lookup_insert_ne in Hl; [done|set_solver].
  - assert (∀ j, j ∈ D → <[i := col]> hdr !! j = hdr !! j) as Hsame
      by (intros j Hj; apply list_lookup_insert_ne; set_solver).
    assert (∀ j, j ∈ D → hdr !! j ≠ Some col) as Hfresh.
    { intros j Hj Hl. assert (0 < get_count counts col) by (apply Hcnt; by exists j). lia. }
    intros j1 j2 x [->|H1]%elem_of_cons [->|H2]%elem_of_cons L1 L2; [done| | |].
    + rewrite list_lookup_insert_eq in L1 by done. rewrite Hsame in L2 by done. simplify_eq. exfalso. by apply (Hfresh j2).
    + rewrite list_lookup_insert_eq in L2 by done. rewrite Hsame in L1 by done. simplify_eq. exfalso. by apply (Hfresh j1).
    + rewrite Hsame in L1, L2 by done. eauto.
Qed.

Lemma mangle_order_spec order hdr counts D :
  mangle_inv hdr counts D → NoDup order → (∀ i, i ∈ order → i < length hdr ∧ i ∉ D) →
  ∃ hdr', mangle_order order hdr counts = Some hdr' ∧ length hdr' = length hdr ∧
    ∀ j1 j2 x, j1 ∈ D ++ order → j2 ∈ D ++ order → hdr' !! j1 = Some x → hdr' !! j2 = Some x → j1 = j2.
Proof.
  revert hdr counts D. induction order as [|i order IH]; intros hdr counts D Hinv Hnd Hord.
  - exists hdr. rewrite app_nil_r. split_and!; [done|done|apply Hinv].
  - destruct (Hord i ltac:(set_solver)) as [Hi HiD].
    destruct (lookup_lt_is_Some_2 hdr i Hi) as [old Hold].
    destruct (mangle_loop_start hdr old counts) as (c' & col & Hrun & H0 & Hc').
    { intros k Hk. apply Hinv in Hk as (j & _ & Hl). by eapply list_elem_of_lookup_2. }
    cbn [mangle_order]. rewrite Hold, Hrun. apply NoDup_cons in Hnd as [Hnot Hnd].
    destruct (IH (<[i := col]> hdr) (<[col := 1]> c') (i :: D)) as (hdr' & Hm & Hlen & Hdist).
    + by apply (mangle_inv_step hdr counts c').
    + done.
    + intros i' Hi'. rewrite length_insert. destruct (Hord i') as [? ?]; [set_solver|].
      split; [done|]. rewrite elem_of_cons. intros [->|]; [done|done].
    + exists hdr'. rewrite length_insert in Hlen. split_and!; [done|done|].
      intros j1 j2 x H1 H2. apply Hdist; set_solver.
Qed.

Lemma NoDup_col_loop_order header : NoDup (col_loop_order header).
Proof.
  unfold col_loop_order. apply NoDup_app. split_and!; [apply NoDup_filter, NoDup_seq| |apply NoDup_filter, NoDup_seq].
  intros i Hi1 Hi2. apply list_elem_of_filter in Hi1 as [? _], Hi2 as [? _]. done.
Qed.

Lemma elem_of_col_loop_order header i : i ∈ col_loop_order header ↔ i < length header.
Proof.
  unfold col_loop_order. rewrite elem_of_app, !list_elem_of_filter, elem_of_seq.
  destruct (decide (header !! i = Some "")); naive_solver lia.
Qed.

(** [_get_header] always terminates, keeps one name per column and makes
    the names distinct. *)
Lemma mangle_header_spec header :
  ∃ cols, mangle_header header = Some cols ∧ length cols = length header ∧ NoDup cols.
Proof.
  destruct (mangle_order_spec (col_loop_order header) (imap header_name header) ∅ [])
    as (cols & Hm & Hlen & Hdist).
  - split; [|set_solver]. intros k. unfold get_count. rewrite lookup_empty. cbn. split; [lia|set_solver].
  - apply NoDup_col_loop_order.
  - intros i. rewrite elem_of_col_loop_order, length_imap. set_solver.
  - rewrite length_imap in Hlen. exists cols. split_and!; [done|done|].
    apply NoDup_alt. intros j1 j2 x L1 L2. apply (Hdist j1 j2 x); [| |done|done];
      rewrite elem_of_app, elem_of_col_loop_order; right;
      [apply lookup_lt_Some in L1|apply lookup_lt_Some in L2]; lia.
Qed.

Lemma mangle_order_keep order header counts (D : list nat) :
  (∀ k, 0 < get_count counts k ↔ ∃ j, j ∈ D ∧ header !! j = Some k) → NoDup header → NoDup order →
  (∀ i, i ∈ order → i < length header ∧ i ∉ D) →
  mangle_order order header counts = Some header.
Proof.
  revert counts D. induction order as [|i order IH]; intros counts D Hcnt Hnd Hno Hord; [done|].
  destruct (Hord i ltac:(set_solver)) as [Hi HiD].
  destruct (lookup_lt_is_Some_2 header i Hi) as [old Hold].
  assert (get_count counts old = 0) as H0.
  { destruct (get_count counts old) eqn:E; [done|]. exfalso.
    destruct (proj1 (Hcnt old) ltac:(lia)) as (j & Hj & Hl).
    assert (j = i) as -> by exact (NoDup_lookup header j i old Hnd Hl Hold). done. }
  cbn [mangle_order]. rewrite Hold, H0. cbn [mangle_loop Nat.add]. rewrite Nat.add_comm. cbn [mangle_loop Nat.add]. rewrite decide_True by done. cbv iota beta. rewrite list_insert_id by done.
  apply NoDup_cons in Hno as [Hnot Hno].
  apply (IH _ (i :: D)); [|done|done|].
  - intros k. rewrite get_count_insert. setoid_rewrite elem_of_cons. case_decide; subst.
    + split; [intros _; exists i; by split; [left|]|lia].
    + rewrite Hcnt. split; [intros (j & ? & ?); exists j; by split; [right|]|].
      intros (j & [->|?] & Hl); [congruence|]. by exists j.
  - intros i' Hi'. destruct (Hord i') as [? ?]; [set_solver|]. split; [done|]. set_solver.
Qed.

Lemma imap_header_name header : "" ∉ header → imap header_name header = header.
Proof.
  intros Hne. apply list_eq. intros i. rewrite list_lookup_imap.
  destruct (header !! i) as [name|] eqn:E; [|done]. cbn. unfold header_name.
  rewrite decide_False; [done|]. intros ->. apply Hne. by eapply list_elem_of_lookup_2.
Qed.

(** A header whose names are distinct and non-empty, such as the one
    [save_to_csv] writes, is kept as it is. *)
Lemma mangle_header_keep header : NoDup header → "" ∉ header → mangle_header header = Some header.
Proof.
  intros Hnd Hne. unfold mangle_header. rewrite imap_header_name by done.
  apply (mangle_order_keep _ _ _ []); [|done|apply NoDup_col_loop_order|].
  - intros k. unfold get_count. rewrite lookup_empty. cbn. split; [lia|set_solver].
  - intros i. rewrite elem_of_col_loop_order. set_solver.
Qed.

Lemma length_frame_columns header : length (default header (mangle_header header)) = length header.
Proof. destruct (mangle_header_spec header) as (cols & -> & Hlen & _). done. Qed.

(** ** Frames are rectangular *)

(** A frame whose every row has one cell per column. *)
Definition rectangular (fr : frame) : Prop :=
  Forall (λ r, length r = length (columns fr)) (frame_rows fr).

Lemma record_cells_length idx n fields cs : record_cells idx n fields = inr cs → length cs = n.
Proof.
  unfold record_cells. destruct (Nat.ltb_spec (idx + n) (length fields)) as [Hlt|Hge]; [done|].
  intros [= <-]. rewrite length_app, length_map, length_replicate, length_drop. lia.
Qed.

Lemma mapM_sum_Forall2 {E A B} (f : A → E + B) l l' :
  mapM f l = inr l' → Forall2 (λ x y, f x = inr y) l l'.
Proof.
  revert l'. induction l as [|x l IH]; intros l' Hm; simpl in Hm.
  - injection Hm as <-. constructor.
  - destruct (f x) as [e|y] eqn:Hx; simpl in Hm; [done|].
    destruct (mapM f l) as [e|ys] eqn:Hl; simpl in Hm; [done|]. injection Hm as <-.
    constructor; [done|]. by apply IH.
Qed.

Lemma frame_of_records_rectangular recs fr : frame_of_records recs = inr fr → rectangular fr.
Proof.
  destruct recs as [|header rows]; cbn [frame_of_records]; [done|].
  set (idx := match rows with first :: _ => length first - length header | [] => 0 end).
  destruct (mapM (record_cells idx (length header)) rows) as [e|rows'] eqn:Hm; simpl; [done|].
  intros [= <-]. unfold rectangular; simpl.
  apply mapM_sum_Forall2 in Hm. induction Hm as [|f c fs cs Hc _ IH]; constructor; [|done].
  rewrite length_frame_columns. by apply record_cells_length in Hc.
Qed.

Lemma frame_of_records_columns_eq header rows fr :
  frame_of_records (header :: rows) = inr fr → columns fr = default header (mangle_header header).
Proof.
  cbn [frame_of_records]. destruct (mapM _ rows) as [e|rows']; simpl; [done|]. by intros [= <-].
Qed.

Lemma frame_of_records_nodup recs fr : frame_of_records recs = inr fr → NoDup (columns fr).
Proof.
  destruct recs as [|header rows]; [done|]. intros ->%frame_of_records_columns_eq.
  by destruct (mangle_header_spec header) as (cols & -> & _ & ?).
Qed.

Lemma record_cells_fits n fields :
  length fields ≤ n → record_cells 0 n fields = inr (map cell_of_field fields ++ replicate (n - length fields) CNaN).
Proof. unfold record_cells. destruct (Nat.ltb_spec (0 + n) (length fields)); [lia|done]. Qed.

(** Records of the header's width, under a header of distinct non-empty
    names: the frame is the header and the cells of the fields. *)
Lemma frame_of_records_uniform header rows :
  NoDup header → "" ∉ header → Forall (λ r, length r = length header) rows →
  frame_of_records (header :: rows) = inr (mk_frame header (map (map cell_of_field) rows)).
Proof.
  intros Hnd Hne Hrows. cbn [frame_of_records].
  assert ((match rows with first :: _ => length first - length header | [] => 0 end) = 0) as ->.
  { destruct Hrows; [done|]. lia. }
  assert (mapM (M := sum py_exc) (record_cells 0 (length header)) rows = inr (map (map cell_of_field) rows)) as ->.
  { induction Hrows as [|r rows Hr _ IH]; [done|]. cbn [mapM].
    rewrite record_cells_fits by lia. rewrite Hr, Nat.sub_diag, app_nil_r. cbn [mbind sum_bind].
    by rewrite IH. }
  cbn. by rewrite mangle_header_keep.
Qed.

(** C17: [pd.read_csv] leaves the world as it was, and the frame it returns
    is well formed: one cell per column in every row (short records are
    padded with NaN, long ones were rejected) and distinct column names
    (empty and repeated header names were renamed). *)
Theorem read_csv_well_formed file w fr w' :
  read_csv file w = (Ok fr, w') → w' = w ∧ rectangular fr ∧ NoDup (columns fr).
Proof.
  unfold read_csv. rewrite run_bind. unfold file_read.
  destruct (w_files w !! file) as [text|]; [|done]. unfold lift; simpl.
  destruct (read_csv_records text) as [e|recs]; simpl; [done|].
  destruct (frame_of_records recs) as [e|fr'] eqn:Hf; simpl; [done|].
  intros [= <- <-]. split_and!; [done|by eapply frame_of_records_rectangular|by eapply frame_of_records_nodup].
Qed.

(** A file whose header names are distinct and non-empty, as
    [save_to_csv] writes them, is read with its header as the columns. *)
Theorem frame_of_records_columns header rows fr :
  frame_of_records (header :: rows) = inr fr → NoDup header → "" ∉ header → columns fr = header.
Proof. intros ->%frame_of_records_columns_eq Hnd Hne. by rewrite mangle_header_keep. Qed.

(** [pd.read_csv] of a file holding what [save_to_csv] writes. *)
Lemma read_csv_dict_csv_text first rest filename w :
  map fst first ≠ [] → NoDup (map fst first) → "" ∉ map fst first →
  Forall (λ r, map fst r = map fst first) rest →
  Forall (λ vs, whitespace_record (map String.list_ascii_of_string vs) = false) (saved_records first rest) →
  w_files w !! filename = Some (String.string_of_list_ascii (dict_csv_text first (first :: rest))) →
  read_csv filename w =
    (Ok (mk_frame (map fst first) (map (λ r, map cell_of_field (map csv_cell (map snd r))) (first :: rest))), w).
Proof.
  intros Hne Hnd Hemp Hrest Hws Hf.
  unfold read_csv. rewrite run_bind. unfold file_read. rewrite Hf. unfold lift.
  rewrite dict_csv_text_records by done. unfold saved_records. cbn [mbind sum_bind mret sum_ret].
  rewrite frame_of_records_uniform; [by rewrite map_map|done|done|].
  apply Forall_map, Forall_cons. split; [by rewrite !length_map|].
  apply (Forall_impl _ _ _ Hrest). intros r Hr'. rewrite !length_map. by rewrite <- (length_map fst r), Hr', length_map.
Qed.

(** C27: the round trip through pandas: the rows [save_to_csv] writes, with
    distinct non-empty keys, are read back by [pd.read_csv] as a frame
    whose columns are the keys and whose cells are the written values,
    where pandas turns the NA strings (the empty string of [None] among
    them) into NaN; no record may be a single field of spaces and tabs,
    a line that [skip_blank_lines] drops. *)
Theorem save_to_csv_read_csv first rest filename w :
  map fst first ≠ [] → NoDup (map fst first) → "" ∉ map fst first →
  Forall (λ r, map fst r = map fst first) rest →
  Forall (λ vs, whitespace_record (map String.list_ascii_of_string vs) = false) (saved_records first rest) →
  ∃ w', save_to_csv (first :: rest) filename w = (Ok tt, w') ∧
    read_csv filename w' =
      (Ok (mk_frame (map fst first) (map (λ r, map cell_of_field (map csv_cell (map snd r))) (first :: rest))), w').
Proof.
  intros Hne Hnd Hemp Hrest Hws. eexists. split.
  - apply save_to_csv_run. apply Forall_impl with (1 := Hrest). intros r ->. by apply Forall_forall.
  - apply read_csv_dict_csv_text; [done..|apply lookup_set_file].
Qed.

(** The renaming on a header with a repeated name, an empty name and a
    name that the first renaming would produce: [a.1] is taken, so the
    second [a] becomes [a.2]; the empty name becomes [Unnamed: 2]. *)
Example mangle_header_example :
  mangle_header ["a"; "a"; ""; "a.1"] = Some ["a"; "a.2"; "Unnamed: 2"; "a.1"].
Proof. vm_compute. reflexivity. Qed.

(** A record longer than the header is rejected, whatever follows it. *)
Lemma mapM_record_cells_long n pre r post :
  Forall (λ r', length r' ≤ n) pre → n < length r →
  ∃ msg, mapM (M := sum py_exc) (record_cells 0 n) (pre ++ r :: post) = inl (ParserError msg).
Proof.
  intros Hpre Hlong. induction Hpre as [|r' pre Hr' _ [msg IH]]; cbn [app mapM].
  - unfold record_cells at 2. destruct (Nat.ltb_spec (0 + n) (length r)); [by eexists|lia].
  - rewrite record_cells_fits by done. cbn [mbind sum_bind]. rewrite IH. by exists msg.
Qed.

(** C31: after at least one record of the header's width, a record with
    more fields than the header makes [read_csv]'s frame construction
    raise [ParserError], whatever the records after it: pandas neither
    truncates nor skips it. *)
Theorem frame_of_records_long header pre r post :
  pre ≠ [] → Forall (λ r', length r' = length header) pre → length header < length r →
  ∃ msg, frame_of_records (header :: pre ++ r :: post) = inl (ParserError msg).
Proof.
  intros Hne Hpre Hlong.
  destruct (mapM_record_cells_long (length header) pre r post) as [msg Hm]; [|done|].
  { eapply Forall_impl; [done|]. intros r' ->. done. }
  exists msg. cbn [frame_of_records].
  destruct pre as [|first pre]; [done|]. apply Forall_cons in Hpre as [Hfirst _].
  cbn [app]. rewrite Hfirst, Nat.sub_diag. cbn [app] in Hm. by rewrite Hm.
Qed.

Lemma mapM_record_cells_wide j n rows :
  Forall (λ r, length r = n + j) rows →
  mapM (M := sum py_exc) (record_cells j n) rows = inr (map (λ r, map cell_of_field (drop j r)) rows).
Proof.
  induction rows as [|r rows IH]; intros Hall; [done|]. apply Forall_cons in Hall as [Hr Hall].
  cbn [mapM]. rewrite (IH Hall). unfold record_cells.
  replace (Nat.ltb (j + n) (length r)) with false by (symmetry; apply Nat.ltb_ge; lia).
  rewrite length_drop, Hr. replace (n - (n + j - j)) with 0 by lia. cbn. by rewrite app_nil_r.
Qed.

(** C32: The implicit index (a trailing delimiter on every row): when every
    data record has [j] more fields than the header, the frame has the
    header's columns and each record's fields after its first [j]: every
    field moves [j] columns to the left, and the first [j] are lost. *)
Theorem frame_of_records_implicit_index header rows j :
  rows ≠ [] → Forall (λ r, length r = length header + j) rows →
  frame_of_records (header :: rows) =
    inr (mk_frame (default header (mangle_header header)) (map (λ r, map cell_of_field (drop j r)) rows)).
Proof.
  intros Hne Hall. destruct rows as [|r rows']; [done|]. cbn [frame_of_records].
  assert (length r - length header = j) as -> by (apply Forall_cons in Hall as [Hr _]; lia).
  by rewrite mapM_record_cells_wide.
Qed.

Lemma frame_of_records_long_witness :
  ∃ msg, frame_of_records (["login"] :: [["alice"]] ++ ["bob"; "extra"] :: [["carol"]]) = inl (ParserError msg).
Proof.
  apply (frame_of_records_long ["login"] [["alice"]] ["bob"; "extra"] [["carol"]]);
    [discriminate|repeat constructor|simpl; lia].
Defined.

Lemma frame_of_records_implicit_index_witness :
  frame_of_records [["person_name"; "github_profile_link"]; ["Ann"; "https://github.com/ann"; ""]] =
    inr (mk_frame (default ["person_name"; "github_profile_link"]
                     (mangle_header ["person_name"; "github_profile_link"]))
           (map (λ r, map cell_of_field (drop 1 r)) [["Ann"; "https://github.com/ann"; ""]])).
Proof.
  apply (frame_of_records_implicit_index ["person_name"; "github_profile_link"] _ 1); [discriminate|].
  apply Forall_cons. split; [reflexivity|apply List.Forall_nil].
Defined.

Lemma read_csv_well_formed_witness :
  let w := mk_world [] [] {[ "a.csv" := "login,email" +s+ String LF "" +s+ "alice" +s+ String LF "" ]} [] in
  w = w ∧ rectangular (mk_frame ["login"; "email"] [[CStr "alice"; CNaN]]) ∧
    NoDup (columns (mk_frame ["login"; "email"] [[CStr "alice"; CNaN]])).
Proof.
  apply (read_csv_well_formed "a.csv" _ _ _). vm_compute. reflexivity.
Defined.

Lemma save_to_csv_read_csv_witness :
  ∃ w', save_to_csv [demo_row_a; demo_row_c] "ai-town_stargazers.csv" world0 = (Ok tt, w') ∧
    read_csv "ai-town_stargazers.csv" w' =
      (Ok (mk_frame (map fst demo_row_a)
             (map (λ r, map cell_of_field (map csv_cell (map snd r))) [demo_row_a; demo_row_c])), w').
Proof.
  apply (save_to_csv_read_csv demo_row_a [demo_row_c]).
  - vm_compute. congruence.
  - refine (bool_decide_unpack _ _). vm_compute. exact I.
  - refine (bool_decide_unpack _ _). vm_compute. exact I.
  - refine (bool_decide_unpack _ _). vm_compute. exact I.
  - refine (bool_decide_unpack _ _). vm_compute. exact I.
Defined.
