(* ===== verification/Glob.v ===== *)
(** * [glob.glob(pattern)] of [merge_csv.py] line 8

    [glob] splits the pattern at [/] and matches each component of a
    name against the component of the pattern in the same position
    ([glob._iglob], [glob._glob1]); a component is matched with
    [fnmatch.filter], which compiles it with [fnmatch.translate] into a
    regular expression.  The file follows that structure:
    - [translate] is [fnmatch.translate]: the pattern becomes a list of
      items ([*], [?], a bracket class, a literal character); a bracket
      class is split into chunks at its range hyphens and the empty
      (reversed) ranges are merged away, as lines 20-72 of [translate] do;
    - [imatch] decides whether a list of items matches a whole component,
      [imatches] is the regular-expression semantics it decides;
    - [glob_match] matches the components and applies [_ishidden]: a
      component starting with [.] is only matched by a pattern component
      starting with [.] ([include_hidden=False]).
    The file system of [World] holds files only, a directory being the
    prefix of the names under it: a directory whose own name matches the
    pattern is not listed (Python lists it, and [pd.read_csv] then raises
    [IsADirectoryError]).  The names are listed in the order of the file
    map; Python's order is that of [os.scandir], which is not sorted. *)

From S2P Require Import Prelude Json World CsvWriter Frames.

Definition STAR : Ascii.ascii := Ascii.ascii_of_nat 42.
Definition QMARK : Ascii.ascii := Ascii.ascii_of_nat 63.
Definition SLASH : Ascii.ascii := Ascii.ascii_of_nat 47.
Definition DOT : Ascii.ascii := Ascii.ascii_of_nat 46.
Definition LBRACKET : Ascii.ascii := Ascii.ascii_of_nat 91.
Definition RBRACKET : Ascii.ascii := Ascii.ascii_of_nat 93.
Definition BANG : Ascii.ascii := Ascii.ascii_of_nat 33.
Definition HYPHEN : Ascii.ascii := Ascii.ascii_of_nat 45.

(** ** [fnmatch.translate] *)

(** A member of a bracket class, and an item of the translated pattern. *)
Inductive citem := CChar (c : Ascii.ascii) | CRange (lo hi : Ascii.ascii).
Inductive pitem :=
| PStar
| PAny
| PClass (negated : bool) (members : list citem)
| PLit (c : Ascii.ascii).

(** The text of a class once joined: its characters, and the hyphens
    that [translate] leaves unescaped between two chunks (lines 56-57). *)
Inductive ctok := TLit (c : Ascii.ascii) | THyph.

#[export] Instance citem_eq_dec : EqDecision citem.
Proof. solve_decision. Defined.
#[export] Instance pitem_eq_dec : EqDecision pitem.
Proof. solve_decision. Defined.

(** Lines 21-27: the characters after [\[] up to the closing [\]], where
    a leading [!] and then a leading [\]] belong to the class. *)
Fixpoint scan_close (p : list Ascii.ascii) : option (list Ascii.ascii * list Ascii.ascii) :=
  match p with
  | [] => None
  | c :: p' =>
      if bool_decide (c = RBRACKET) then Some ([], p')
      else match scan_close p' with Some (b, r) => Some (c :: b, r) | None => None end
  end.

Definition class_split (p : list Ascii.ascii) : option (list Ascii.ascii * list Ascii.ascii) :=
  let '(pre, p1) :=
    match p with
    | c :: q => if bool_decide (c = BANG) then ([c], q) else ([], p)
    | [] => ([], [])
    end in
  let '(pre, p2) :=
    match p1 with
    | c :: q => if bool_decide (c = RBRACKET) then (pre ++ [c], q) else (pre, p1)
    | [] => (pre, [])
    end in
  match scan_close p2 with Some (b, r) => Some (pre ++ b, r) | None => None end.

(** Lines 36-43: [pat.find('-', k, j)] from [k = i+1] ([i+2] after [!]),
    and [k+3] after each range hyphen; [skip] counts the characters that
    precede the next place a hyphen may split at. *)
Fixpoint hyphen_chunks (skip : nat) (cur p : list Ascii.ascii)
    : list (list Ascii.ascii) * list Ascii.ascii :=
  match p with
  | [] => ([], cur)
  | c :: p' =>
      if bool_decide (c = HYPHEN) && bool_decide (skip = 0) then
        let '(cs, last) := hyphen_chunks 2 [] p' in (cur :: cs, last)
      else hyphen_chunks (pred skip) (cur ++ [c]) p'
  end.

(** Line 48: [chunks\[-1\] += '-']. *)
Fixpoint app_last (cs : list (list Ascii.ascii)) (x : list Ascii.ascii) : list (list Ascii.ascii) :=
  match cs with
  | [] => []
  | [c] => [c ++ x]
  | c :: cs' => c :: app_last cs' x
  end.

(** Lines 44-48. *)
Definition chunks_of (body : list Ascii.ascii) : list (list Ascii.ascii) :=
  let skip := match body with c :: _ => if bool_decide (c = BANG) then 2 else 1 | [] => 1 end in
  let '(cs, last) := hyphen_chunks skip [] body in
  match last with [] => app_last cs [HYPHEN] | _ => cs ++ [last] end.

(** Lines 50-53: from the last boundary to the first, a chunk whose last
    character exceeds the first character of the next one is merged with
    it, dropping both characters. *)
Fixpoint merge_ranges (cs : list (list Ascii.ascii)) : list (list Ascii.ascii) :=
  match cs with
  | [] => []
  | c :: cs' =>
      match merge_ranges cs' with
      | [] => [c]
      | d :: ds =>
          match last c, head d with
          | Some a, Some b =>
              if bool_decide (Ascii.nat_of_ascii b < Ascii.nat_of_ascii a)
              then (removelast c ++ tail d) :: ds
              else c :: d :: ds
          | _, _ => c :: d :: ds
          end
      end
  end.

(** Lines 56-57: [\-] inside a chunk is a literal, the joining [-] a range. *)
Fixpoint join_chunks (cs : list (list Ascii.ascii)) : list ctok :=
  match cs with
  | [] => []
  | [c] => map TLit c
  | c :: cs' => map TLit c ++ THyph :: join_chunks cs'
  end.

Definition class_tokens (body : list Ascii.ascii) : list ctok :=
  if existsb (λ c, bool_decide (c = HYPHEN)) body
  then join_chunks (merge_ranges (chunks_of body))
  else map TLit body.

(** How [re] reads the class text: [a-b] a range, a hyphen that joins
    nothing a literal. *)
Fixpoint class_members (ts : list ctok) : list citem :=
  match ts with
  | [] => []
  | TLit a :: THyph :: TLit b :: ts' => CRange a b :: class_members ts'
  | TLit a :: ts' => CChar a :: class_members ts'
  | THyph :: ts' => CChar HYPHEN :: class_members ts'
  end.

(** Lines 61-72: an empty class never matches, [!] alone matches any
    character, a leading [!] negates. *)
Definition class_of (body : list Ascii.ascii) : pitem :=
  match class_tokens body with
  | [] => PClass false []
  | [TLit c] => if bool_decide (c = BANG) then PAny else PClass false [CChar c]
  | TLit c :: ts => if bool_decide (c = BANG) then PClass true (class_members ts)
                    else PClass false (class_members (TLit c :: ts))
  | ts => PClass false (class_members ts)
  end.

(** Lines 11-74, one item per iteration; every iteration consumes at
    least one character, so [length pat] iterations suffice
    ([translate_fuel_translate]).  Consecutive stars are kept rather than
    compressed (line 16): [**] and [*] denote the same language. *)
Fixpoint translate_fuel (fuel : nat) (p : list Ascii.ascii) : list pitem :=
  match fuel with
  | 0 => []
  | S f =>
      match p with
      | [] => []
      | c :: p' =>
          if bool_decide (c = STAR) then PStar :: translate_fuel f p'
          else if bool_decide (c = QMARK) then PAny :: translate_fuel f p'
          else if bool_decide (c = LBRACKET) then
            match class_split p' with
            | Some (body, rest) => class_of body :: translate_fuel f rest
            | None => PLit c :: translate_fuel f p'
            end
          else PLit c :: translate_fuel f p'
      end
  end.

Definition translate (p : list Ascii.ascii) : list pitem := translate_fuel (length p) p.

(** ** Matching a component: the compiled expression, [re.match] with [\Z] *)

Definition citem_ok (c : Ascii.ascii) (m : citem) : bool :=
  match m with
  | CChar d => bool_decide (c = d)
  | CRange lo hi =>
      (Ascii.nat_of_ascii lo <=? Ascii.nat_of_ascii c) && (Ascii.nat_of_ascii c <=? Ascii.nat_of_ascii hi)
  end.

Definition pitem_ok (it : pitem) (c : Ascii.ascii) : bool :=
  match it with
  | PStar => false
  | PAny => true
  | PClass neg ms => xorb neg (existsb (citem_ok c) ms)
  | PLit d => bool_decide (c = d)
  end.

Fixpoint imatch (its : list pitem) (s : list Ascii.ascii) : bool :=
  match its with
  | [] => match s with [] => true | _ => false end
  | PStar :: its' =>
      (fix star (s : list Ascii.ascii) : bool :=
         imatch its' s || match s with [] => false | _ :: s' => star s' end) s
  | it :: its' =>
      match s with
      | [] => false
      | c :: s' => pitem_ok it c && imatch its' s'
      end
  end.

(** [fnmatch.fnmatchcase(name, pat)] ([os.path.normcase] is the identity
    on POSIX). *)
Definition fnmatch (name pat : list Ascii.ascii) : bool := imatch (translate pat) name.

(** ** [glob.glob] *)

(** [os.path.split] applied until no [/] is left. *)
Fixpoint split_path (s : list Ascii.ascii) : list (list Ascii.ascii) :=
  match s with
  | [] => [[]]
  | c :: s' =>
      let ws := split_path s' in
      if bool_decide (c = SLASH) then [] :: ws
      else match ws with w :: ws' => (c :: w) :: ws' | [] => [[c]] end
  end.

(** [glob._ishidden]. *)
Definition hidden (s : list Ascii.ascii) : bool :=
  match s with c :: _ => bool_decide (c = DOT) | [] => false end.

(** [_glob1]: hidden names are dropped unless the pattern is hidden, the
    rest filtered with [fnmatch]; a component without magic characters
    ([_glob0]) is an equality, which [fnmatch] and the hidden rule give
    as well. *)
Definition component_match (pc nc : list Ascii.ascii) : bool :=
  fnmatch nc pc && (negb (hidden nc) || hidden pc).

Definition glob_match (pattern name : string) : bool :=
  bool_decide (Forall2 (λ pc nc, component_match pc nc = true)
    (split_path (String.list_ascii_of_string pattern)) (split_path (String.list_ascii_of_string name))).

Definition matched (pattern : string) (w : world) : list string :=
  filter (λ name, glob_match pattern name = true) (map fst (map_to_list (w_files w))).

Definition glob (pattern : string) : PyM (list string) := λ w, (Ok (matched pattern w), w).


(** ** [translate] consumes its input

    Every iteration of [translate] consumes at least the character it
    examines, and a class at least its closing bracket, so the fuel
    [length p] is never exhausted: any larger fuel gives the same items. *)

Lemma scan_close_length p b r : scan_close p = Some (b, r) → length r < length p.
Proof.
  revert b. induction p as [|c p IH]; intros b; cbn; [done|].
  case_bool_decide; [intros [= _ <-]; lia|].
  destruct (scan_close p) as [[b' r']|] eqn:E; [|done]. intros [= _ <-]. specialize (IH _ eq_refl). lia.
Qed.

Lemma class_split_length p b r : class_split p = Some (b, r) → length r < length p.
Proof.
  unfold class_split. intros H.
  repeat (case_match; simplify_eq/=);
    match goal with Hs : scan_close _ = Some _ |- _ => apply scan_close_length in Hs end; cbn in *; lia.
Qed.

Lemma translate_fuel_indep n m p :
  length p ≤ n → length p ≤ m → translate_fuel n p = translate_fuel m p.
Proof.
  revert m p. induction n as [|n IH]; intros m p Hn Hm.
  - destruct p; [|cbn in Hn; lia]. by destruct m.
  - destruct m as [|m]; [destruct p; [done|cbn in Hm; lia]|].
    destruct p as [|c p]; [done|]. cbn in Hn, Hm |- *.
    repeat case_bool_decide; try (f_equal; apply IH; lia).
    destruct (class_split p) as [[body rest]|] eqn:E; f_equal; apply IH;
      try apply class_split_length in E; lia.
Qed.

Lemma translate_fuel_translate n p : length p ≤ n → translate_fuel n p = translate p.
Proof. intros H. by apply translate_fuel_indep. Qed.

(** [bool_decide] on two characters, at least one of them a constant. *)
Ltac decide_chars :=
  repeat match goal with
  | |- context [bool_decide (@eq Ascii.ascii ?a ?b)] =>
      let H := fresh in
      destruct (decide (a = b)) as [H|H];
      [rewrite (bool_decide_true _ H)|rewrite (bool_decide_false _ H)];
      try (exfalso; congruence); try (exfalso; vm_compute in H; congruence)
  end.
(** One iteration of [translate] on a bracket class. *)
Lemma translate_class p body rest :
  class_split p = Some (body, rest) → translate (LBRACKET :: p) = class_of body :: translate rest.
Proof.
  intros H. unfold translate at 1. cbn [length translate_fuel].
  rewrite bool_decide_false by (vm_compute; congruence).
  rewrite bool_decide_false by (vm_compute; congruence).
  rewrite bool_decide_true by done. rewrite H. f_equal.
  apply translate_fuel_translate. apply class_split_length in H. lia.
Qed.
(** [\[lo-hi\]] with [lo] neither [!] nor [\]] and [hi] not [\]]. *)
Lemma range_split lo hi :
  lo ≠ BANG → lo ≠ RBRACKET → hi ≠ RBRACKET →
  class_split [lo; HYPHEN; hi; RBRACKET] = Some ([lo; HYPHEN; hi], []).
Proof. intros. unfold class_split. cbn. decide_chars. cbn. decide_chars. reflexivity. Qed.
(** The class [\[lo-hi\]]: one range, or no member at all when reversed. *)
Lemma range_class lo hi :
  lo ≠ BANG →
  class_of [lo; HYPHEN; hi] =
    PClass false (if bool_decide (Ascii.nat_of_ascii hi < Ascii.nat_of_ascii lo) then [] else [CRange lo hi]).
Proof.
  intros H. unfold class_of, class_tokens, chunks_of. cbn.
  rewrite (bool_decide_false (lo = BANG)), orb_true_r by done. cbn.
  rewrite andb_false_r, (bool_decide_true (HYPHEN = HYPHEN)) by done. cbn.
  rewrite andb_false_r. cbn.
  rewrite (bool_decide_true (0 = 0)) by done. cbn.
  case_bool_decide; cbn; [done|]. by rewrite bool_decide_false.
Qed.

(** ** The regular-expression semantics [imatch] decides

    What [re] gives the compiled pattern: [.*] any string, [.] any
    character (the pattern is compiled with [(?s)]), a class a character
    among its members (or not among them when negated), a literal itself;
    the match must reach the end ([\Z]). *)

Inductive citem_in (c : Ascii.ascii) : citem → Prop :=
| ci_char : citem_in c (CChar c)
| ci_range lo hi :
    Ascii.nat_of_ascii lo ≤ Ascii.nat_of_ascii c ≤ Ascii.nat_of_ascii hi → citem_in c (CRange lo hi).

Inductive item_matches : pitem → Ascii.ascii → Prop :=
| it_any c : item_matches PAny c
| it_lit c : item_matches (PLit c) c
| it_class c ms : Exists (citem_in c) ms → item_matches (PClass false ms) c
| it_nclass c ms : ¬ Exists (citem_in c) ms → item_matches (PClass true ms) c.

Inductive imatches : list pitem → list Ascii.ascii → Prop :=
| im_nil : imatches [] []
| im_star its s1 s2 : imatches its s2 → imatches (PStar :: its) (s1 ++ s2)
| im_item it its c s : item_matches it c → imatches its s → imatches (it :: its) (c :: s).

Lemma citem_ok_iff c m : citem_ok c m = true ↔ citem_in c m.
Proof.
  destruct m as [d|lo hi]; cbn.
  - rewrite bool_decide_eq_true. split; [intros ->; constructor|by inversion 1].
  - rewrite andb_true_iff, !Nat.leb_le. split; [by constructor|by inversion 1].
Qed.

Lemma existsb_citem_ok c ms : existsb (citem_ok c) ms = true ↔ Exists (citem_in c) ms.
Proof.
  rewrite existsb_exists, Exists_exists. setoid_rewrite citem_ok_iff.
  by setoid_rewrite list_elem_of_In.
Qed.

Lemma pitem_ok_iff it c : pitem_ok it c = true ↔ item_matches it c.
Proof.
  split.
  - destruct it as [| |[] ms|d]; cbn; try done.
    + constructor.
    + intros H%negb_true_iff. constructor. by rewrite <- existsb_citem_ok, H.
    + rewrite existsb_citem_ok. by constructor.
    + intros ->%bool_decide_eq_true. constructor.
  - destruct 1 as [|c'|c' ms H|c' ms H]; cbn; try done.
    + by apply bool_decide_eq_true.
    + by apply existsb_citem_ok.
    + apply negb_true_iff, not_true_iff_false. by rewrite existsb_citem_ok.
Qed.

Lemma imatch_star_nil its : imatch (PStar :: its) [] = imatch its [].
Proof. cbn. by rewrite orb_false_r. Qed.

Lemma imatch_star_cons its c s :
  imatch (PStar :: its) (c :: s) = imatch its (c :: s) || imatch (PStar :: its) s.
Proof. reflexivity. Qed.

(** The loop of [*] tries the rest of the pattern at every suffix. *)
Lemma imatch_star its s :
  imatch (PStar :: its) s = true ↔ ∃ s1 s2, s = s1 ++ s2 ∧ imatch its s2 = true.
Proof.
  induction s as [|c s IH].
  - rewrite imatch_star_nil. split; [intros H; by exists [], []|].
    intros (s1 & s2 & Hs & H). by destruct s1, s2.
  - rewrite imatch_star_cons, orb_true_iff, IH. split.
    + intros [H|(s1 & s2 & -> & H)]; [by exists [], (c :: s)|]. by exists (c :: s1), s2.
    + intros ([|c' s1] & s2 & Hs & H); simpl in Hs; [subst; by left|].
      injection Hs as <- ->. right. by exists s1, s2.
Qed.

Lemma imatch_item it its s :
  it ≠ PStar →
  imatch (it :: its) s = match s with [] => false | c :: s' => pitem_ok it c && imatch its s' end.
Proof. by destruct it. Qed.

Lemma imatches_inv it its s :
  imatches (it :: its) s →
  (it = PStar ∧ ∃ s1 s2, s = s1 ++ s2 ∧ imatches its s2) ∨
  (∃ c s', s = c :: s' ∧ item_matches it c ∧ imatches its s').
Proof. inversion 1; subst; [left; split; [done|by eexists _, _]|right; by eexists _, _]. Qed.

Lemma imatch_correct its s : imatch its s = true ↔ imatches its s.
Proof.
  revert s. induction its as [|it its IH]; intros s.
  - split; [by destruct s; [intros; constructor|]|]. by inversion 1.
  - destruct (decide (it = PStar)) as [->|Hit].
    + rewrite imatch_star. split.
      * intros (s1 & s2 & -> & H). constructor. by apply IH.
      * intros [[_ (s1 & s2 & -> & H)]|(c & s' & -> & Hc & _)]%imatches_inv;
          [exists s1, s2; by rewrite IH|inversion Hc].
    + rewrite imatch_item by done. split.
      * destruct s as [|c s]; [done|]. rewrite andb_true_iff, IH, pitem_ok_iff.
        intros [Hc H]. by constructor.
      * intros [[-> _]|(c & s' & -> & Hc & H)]%imatches_inv; [done|].
        rewrite andb_true_iff, IH, pitem_ok_iff. done.
Qed.

#[export] Instance imatches_dec its s : Decision (imatches its s).
Proof.
  destruct (imatch its s) eqn:E; [left|right]; rewrite <- imatch_correct; congruence.
Defined.

(** A pattern without magic characters ([glob.has_magic] is false)
    matches exactly itself, which is why [_glob0]'s existence test and
    [fnmatch] agree on such a component. *)
Lemma translate_literal p :
  Forall (λ c, c ≠ STAR ∧ c ≠ QMARK ∧ c ≠ LBRACKET) p → translate p = map PLit p.
Proof.
  unfold translate. induction 1 as [|c p (H1 & H2 & H3) _ IH]; [done|]. cbn [length translate_fuel].
  rewrite (bool_decide_false (c = STAR)), (bool_decide_false (c = QMARK)), (bool_decide_false (c = LBRACKET))
    by done.
  by rewrite IH.
Qed.

Lemma imatch_literal p s : imatch (map PLit p) s = true ↔ s = p.
Proof.
  revert s. induction p as [|c p IH]; intros [|c' s]; cbn; try done.
  rewrite andb_true_iff, bool_decide_eq_true, IH. naive_solver.
Qed.

Lemma fnmatch_literal p s :
  Forall (λ c, c ≠ STAR ∧ c ≠ QMARK ∧ c ≠ LBRACKET) p → fnmatch s p = true ↔ s = p.
Proof. intros H. unfold fnmatch. by rewrite translate_literal, imatch_literal. Qed.

(** ** What [glob] matches *)

(** The reference: the pattern and the name have as many components, and
    each component of the name is matched by the regular expression of
    the pattern's component and is hidden only if that one is. *)
Definition glob_matches (pattern name : list Ascii.ascii) : Prop :=
  Forall2 (λ pc nc, imatches (translate pc) nc ∧ (hidden nc = true → hidden pc = true))
    (split_path pattern) (split_path name).

Lemma component_match_iff pc nc :
  component_match pc nc = true ↔ imatches (translate pc) nc ∧ (hidden nc = true → hidden pc = true).
Proof.
  unfold component_match, fnmatch. rewrite andb_true_iff, orb_true_iff, negb_true_iff, imatch_correct.
  destruct (hidden nc); naive_solver.
Qed.

Lemma glob_match_iff pattern name :
  glob_match pattern name = true ↔
    glob_matches (String.list_ascii_of_string pattern) (String.list_ascii_of_string name).
Proof.
  unfold glob_match, glob_matches. rewrite bool_decide_eq_true.
  split; intros H; eapply Forall2_impl; try exact H; intros pc nc; by rewrite component_match_iff.
Qed.

Lemma elem_of_map_fst_map_to_list (m : gmap string string) name :
  name ∈ map fst (map_to_list m) ↔ is_Some (m !! name).
Proof.
  rewrite list_elem_of_In, in_map_iff. split.
  - intros ([k v] & <- & Hin). apply list_elem_of_In, elem_of_map_to_list in Hin. by exists v.
  - intros [v Hv]. exists (name, v). split; [done|]. by apply list_elem_of_In, elem_of_map_to_list.
Qed.

Lemma elem_of_matched pattern w name :
  name ∈ matched pattern w ↔ is_Some (w_files w !! name) ∧ glob_match pattern name = true.
Proof. unfold matched. rewrite list_elem_of_filter, elem_of_map_fst_map_to_list. naive_solver. Qed.

Lemma NoDup_matched pattern w : NoDup (matched pattern w).
Proof. apply NoDup_filter, NoDup_fst_map_to_list. Qed.

(** C9: [glob.glob(pattern)] lists, each once and without changing the
    world, exactly the existing names that the pattern matches component
    by component, where a hidden component of a name needs a hidden
    component of the pattern. *)
Theorem glob_spec pattern w :
  glob pattern w = (Ok (matched pattern w), w) ∧ NoDup (matched pattern w) ∧
  ∀ name, name ∈ matched pattern w ↔
    is_Some (w_files w !! name) ∧
    glob_matches (String.list_ascii_of_string pattern) (String.list_ascii_of_string name).
Proof.
  split_and!; [done|apply NoDup_matched|]. intros name. rewrite elem_of_matched, glob_match_iff. done.
Qed.

(** C28: a range class [[lo-hi]] matches a character exactly when it lies
    between [lo] and [hi]; a reversed range ([hi] below [lo]), which
    [translate] turns into an empty class, matches nothing. *)
Theorem fnmatch_range lo hi c :
  lo ≠ BANG → lo ≠ RBRACKET → hi ≠ RBRACKET →
  fnmatch [c] [LBRACKET; lo; HYPHEN; hi; RBRACKET] = true ↔
    Ascii.nat_of_ascii lo ≤ Ascii.nat_of_ascii c ≤ Ascii.nat_of_ascii hi.
Proof.
  intros H1 H2 H3. unfold fnmatch.
  rewrite (translate_class _ _ _ (range_split lo hi H1 H2 H3)), range_class by done.
  cbn. case_bool_decide; cbn; [lia|]. rewrite andb_true_r, orb_false_r, andb_true_iff, !Nat.leb_le. lia.
Qed.

Lemma fnmatch_range_witness :
  fnmatch [(Ascii.ascii_of_nat 98)] [LBRACKET; (Ascii.ascii_of_nat 97); HYPHEN; (Ascii.ascii_of_nat 99); RBRACKET] = true.
Proof. apply (fnmatch_range (Ascii.ascii_of_nat 97) (Ascii.ascii_of_nat 99) (Ascii.ascii_of_nat 98)); try (vm_compute; lia); by vm_compute. Defined.
