(* ===== verification/Merger.v ===== *)
(** * The merger: [combine_csv_files] of [merge_csv.py]

    [merge_csv.py] lines 6-38.  [glob] ([Glob]) lists the matching files;
    each is read with [read_csv] ([Frames]); every row is keyed by its
    [github_profile_link] cell in the insertion-ordered dict
    [combined_data]: an unseen key stores the row's dict with
    [source_files = [file]], a seen key appends [file] to that list.
    [pd.DataFrame.from_dict(combined_data, orient="index")] makes one row
    per key, its columns the keys of the stored dicts in first-seen order;
    the [source_files] lists are joined with [", "]; the frame is written
    with [to_csv(index=False)] (line terminator LF, empty cells for NaN).

    A key is a cell compared by value: an empty link is the one shared NaN
    of a text column (a link column with no text at all would be a float
    column, whose NaNs are distinct objects; not modelled).

    The contract [merge_spec]: the entries are the distinct links in
    first-seen order, each with the first row that had it and the list of
    the files of all its rows, in order.  The theorems prove that the loop
    implements it, the invariant of [combined_data] (and with it that the
    loop raises nothing but [read_csv]'s errors and the missing link's
    [KeyError]), the size bound, and that the order of the files changes
    the links and their sources only up to permutation.  The output
    (lines 24-38, [combine_csv_files] as a whole and the entry point) is
    [MergerOutput]'s. *)

From S2P Require Import Prelude Json World Enricher CsvWriter CsvReader Frames Glob.

(** What a dict of [combined_data] holds: a cell of the row, or the
    [source_files] list. *)
Inductive value :=
| VCell (c : cell)
| VFiles (fs : list string).

(** ** [combined_data]: an insertion-ordered dict keyed by the link

    A key is a cell, compared by value.  pandas fills every missing field
    of a text column with one shared NaN object, and Python's [in] tests
    identity before equality, so an empty link finds the earlier empty
    link like any string does. *)

Definition dict_row : Type := list (string * value).
Definition entry : Type := cell * dict_row.

(** [row.to_dict()] *)
Definition row_dict (cols : list string) (r : list cell) : dict_row :=
  zip cols (map VCell r).

(** [d["source_files"].append(file)] on the stored dict [d]. *)
Definition add_source (file : string) (d : dict_row) : pyres dict_row :=
  match assoc_get "source_files" d with
  | Some (VFiles fs) => inr (assoc_set "source_files" (VFiles (fs ++ [file])) d)
  | Some (VCell (CStr _)) => inl (AttributeError "'str' object has no attribute 'append'")
  | Some (VCell CNaN) => inl (AttributeError "'float' object has no attribute 'append'")
  | None => inl (KeyError "source_files")
  end.

(** The body of the inner loop, lines 16-22. *)
Definition merge_row (file : string) (cols : list string) (cd : list entry) (r : list cell)
    : pyres (list entry) :=
  link ← (match assoc_get "github_profile_link" (zip cols r) with
          | Some c => inr c
          | None => inl (KeyError "github_profile_link")
          end);
  match assoc_get link cd with
  | None => inr (assoc_set link (assoc_set "source_files" (VFiles [file]) (row_dict cols r)) cd)
  | Some d => d' ← add_source file d; inr (assoc_set link d' cd)
  end.

Fixpoint merge_frame (file : string) (cols : list string) (rows : list (list cell))
    (cd : list entry) : pyres (list entry) :=
  match rows with
  | [] => inr cd
  | r :: rs => cd' ← merge_row file cols cd r; merge_frame file cols rs cd'
  end.

(** The outer loop, lines 12-22. *)
Fixpoint merge_files (files : list string) (cd : list entry) : PyM (list entry) :=
  match files with
  | [] => mret cd
  | f :: fs =>
      data ← read_csv f;
      cd' ← lift (merge_frame f (columns data) (frame_rows data) cd);
      merge_files fs cd'
  end.

(** ** The contract of the merge

    The rows of all files, in reading order, are events.  The merged dict
    has one entry per distinct link, in first-seen order; its dict is the
    first row with that link, whose [source_files] is the list of the
    files of all rows with that link, in order. *)

Record event := mk_event { ev_file : string; ev_cols : list string; ev_cells : list cell }.

Definition ev_link (e : event) : option cell :=
  assoc_get "github_profile_link" (zip (ev_cols e) (ev_cells e)).

Definition hits (evs : list event) (k : cell) : list event :=
  filter (λ e, ev_link e = Some k) evs.

Definition spec_dict (evs : list event) (k : cell) : dict_row :=
  match hits evs k with
  | e :: _ => assoc_set "source_files" (VFiles (map ev_file (hits evs k))) (row_dict (ev_cols e) (ev_cells e))
  | [] => []
  end.

Definition spec_keys (evs : list event) : list cell := add_new [] (omap ev_link evs).

Definition merge_spec (evs : list event) : list entry :=
  map (λ k, (k, spec_dict evs k)) (spec_keys evs).

(** The events of the rows of one frame, and of the frames of files. *)
Definition frame_events (file : string) (fr : frame) : list event :=
  map (mk_event file (columns fr)) (frame_rows fr).

Fixpoint merge_events (evs : list event) (cd : list entry) : pyres (list entry) :=
  match evs with
  | [] => inr cd
  | e :: es => cd' ← merge_row (ev_file e) (ev_cols e) cd (ev_cells e); merge_events es cd'
  end.

(** ** The merge implements its contract *)

Section Contract.
Implicit Types (evs pre : list event) (e : event) (k : cell).

Lemma hits_snoc pre e k :
  hits (pre ++ [e]) k = hits pre k ++ (if decide (ev_link e = Some k) then [e] else []).
Proof. unfold hits. rewrite filter_app, filter_cons, filter_nil. by case_decide. Qed.

Lemma hits_nil pre k : hits pre k = [] ↔ k ∉ omap ev_link pre.
Proof.
  induction pre as [|e pre IH]; [set_solver|]. unfold hits in *. rewrite filter_cons.
  simpl. destruct (ev_link e) as [k'|] eqn:He; case_decide as Hk; simplify_eq/=.
  - set_solver.
  - rewrite IH. set_solver.
  - done.
Qed.

Lemma elem_of_spec_keys pre k : k ∈ spec_keys pre ↔ k ∈ omap ev_link pre.
Proof. unfold spec_keys. rewrite elem_of_add_new. set_solver. Qed.

Lemma spec_keys_snoc pre e k :
  ev_link e = Some k →
  spec_keys (pre ++ [e]) =
    if decide (k ∈ spec_keys pre) then spec_keys pre else spec_keys pre ++ [k].
Proof. intros He. unfold spec_keys. rewrite omap_app. simpl. rewrite He. by rewrite add_new_app. Qed.

Lemma spec_dict_other pre e k k' :
  ev_link e = Some k → k' ≠ k → spec_dict (pre ++ [e]) k' = spec_dict pre k'.
Proof.
  intros He Hne. unfold spec_dict. rewrite hits_snoc, decide_False by congruence.
  by rewrite app_nil_r.
Qed.

Lemma spec_dict_new pre e k :
  ev_link e = Some k → k ∉ omap ev_link pre →
  spec_dict (pre ++ [e]) k =
    assoc_set "source_files" (VFiles [ev_file e]) (row_dict (ev_cols e) (ev_cells e)).
Proof.
  intros He Hn. unfold spec_dict. rewrite hits_snoc, decide_True by done.
  by rewrite (proj2 (hits_nil pre k) Hn).
Qed.

Lemma spec_dict_seen pre e k :
  ev_link e = Some k → k ∈ omap ev_link pre →
  add_source (ev_file e) (spec_dict pre k) = inr (spec_dict (pre ++ [e]) k).
Proof.
  intros He Hin. unfold spec_dict. rewrite hits_snoc, decide_True by done.
  destruct (hits pre k) as [|e0 hs] eqn:Hh; [by apply hits_nil in Hh|]. simpl.
  unfold add_source. rewrite assoc_get_set_eq, assoc_set_twice. by rewrite map_app.
Qed.

Lemma merge_row_spec pre e k :
  ev_link e = Some k →
  merge_row (ev_file e) (ev_cols e) (merge_spec pre) (ev_cells e) = inr (merge_spec (pre ++ [e])).
Proof.
  intros He. unfold merge_row. unfold ev_link in He. rewrite He. cbn [mbind sum_bind].
  fold (ev_link e) in He. unfold merge_spec at 1. rewrite assoc_get_map.
  unfold merge_spec. rewrite (spec_keys_snoc pre e k He).
  destruct (decide (k ∈ spec_keys pre)) as [Hin|Hn].
  - rewrite spec_dict_seen by (done || by apply elem_of_spec_keys). cbn [mbind sum_bind].
    rewrite assoc_set_map by (done || apply NoDup_add_new, NoDup_nil_2). f_equal.
    apply map_ext. intros k'. destruct (decide (k' = k)) as [->|Hne]; [done|].
    by rewrite (spec_dict_other pre e k).
  - rewrite assoc_set_new by (by rewrite map_fst_pairs). rewrite map_app. simpl.
    rewrite spec_dict_new by (done || by rewrite <- elem_of_spec_keys). f_equal. f_equal.
    apply map_ext_in. intros k' Hk'%list_elem_of_In.
    rewrite (spec_dict_other pre e k); [done|done|]. by intros ->.
Qed.

Lemma merge_spec_nil : merge_spec [] = [].
Proof. reflexivity. Qed.

Lemma merge_events_spec evs pre :
  Forall (λ e, is_Some (ev_link e)) evs →
  merge_events evs (merge_spec pre) = inr (merge_spec (pre ++ evs)).
Proof.
  revert pre. induction evs as [|e evs IH]; intros pre Hall; simpl.
  - by rewrite app_nil_r.
  - apply Forall_cons in Hall as [[k Hk] Hall].
    rewrite (merge_row_spec pre e k Hk). cbn [mbind sum_bind].
    rewrite IH by done. by rewrite <- app_assoc.
Qed.

(** A row without a [github_profile_link] column stops the merge with
    [KeyError], whatever came before it. *)
Lemma merge_events_missing_link evs pre :
  ¬ Forall (λ e, is_Some (ev_link e)) evs →
  merge_events evs (merge_spec pre) = inl (KeyError "github_profile_link").
Proof.
  revert pre. induction evs as [|e evs IH]; intros pre Hnot; simpl; [by destruct Hnot|].
  destruct (ev_link e) as [k|] eqn:Hk.
  - rewrite (merge_row_spec pre e k Hk). cbn [mbind sum_bind].
    apply IH. intros Hall. apply Hnot. constructor; [by rewrite Hk|done].
  - unfold merge_row. unfold ev_link in Hk. by rewrite Hk.
Qed.

End Contract.

Lemma merge_frame_events file cols rows cd :
  merge_frame file cols rows cd = merge_events (map (mk_event file cols) rows) cd.
Proof.
  revert cd. induction rows as [|r rows IH]; intros cd; simpl; [done|].
  destruct (merge_row file cols cd r); simpl; [done|]. apply IH.
Qed.

(** The frames [pd.read_csv] returns for a list of files, in a world the
    reads do not change. *)
Definition reads_ok (w : world) (files : list string) (frs : list frame) : Prop :=
  Forall2 (λ f fr, read_csv f w = (Ok fr, w)) files frs.

Definition files_events (files : list string) (frs : list frame) : list event :=
  concat (zip_with frame_events files frs).

Lemma merge_files_spec w files frs pre :
  reads_ok w files frs →
  Forall (λ e, is_Some (ev_link e)) (files_events files frs) →
  merge_files files (merge_spec pre) w = (Ok (merge_spec (pre ++ files_events files frs)), w).
Proof.
  intros Hr. revert pre. induction Hr as [|f fr files frs Hf Hr IH]; intros pre Hall; simpl.
  - by rewrite app_nil_r.
  - unfold files_events in *. simpl in Hall |- *. apply Forall_app in Hall as [Hf1 Hrest].
    rewrite run_bind, Hf. unfold frame_events in *.
    rewrite run_bind. unfold lift. rewrite merge_frame_events, merge_events_spec by done.
    simpl. rewrite IH by done. by rewrite app_assoc.
Qed.

(** ** The order of the files

    [glob.glob] lists the files in the order of the directory.  Reading
    them in another order permutes the events; the links and the source
    files of each link are then the same up to order, and only the row
    kept for a link, the first one, can change. *)

Lemma concat_Permutation {A} (ls1 ls2 : list (list A)) : ls1 ≡ₚ ls2 → concat ls1 ≡ₚ concat ls2.
Proof.
  induction 1 as [|l ls1 ls2 _ IH|l1 l2 ls|ls1 ls2 ls3 _ IH1 _ IH2]; cbn [concat].
  - done.
  - by rewrite IH.
  - apply Permutation_app_swap_app.
  - by rewrite IH1.
Qed.

#[export] Instance hits_Permutation : Proper ((≡ₚ) ==> eq ==> (≡ₚ)) hits.
Proof. intros evs1 evs2 Hp k ? <-. unfold hits. by rewrite Hp. Qed.

#[export] Instance spec_keys_Permutation : Proper ((≡ₚ) ==> (≡ₚ)) spec_keys.
Proof.
  intros evs1 evs2 Hp. apply NoDup_Permutation; [apply NoDup_add_new, NoDup_nil_2..|].
  intros k. by rewrite !elem_of_spec_keys, Hp.
Qed.

Lemma files_events_Permutation files1 frs1 files2 frs2 :
  length files1 = length frs1 → length files2 = length frs2 →
  zip files1 frs1 ≡ₚ zip files2 frs2 → files_events files1 frs1 ≡ₚ files_events files2 frs2.
Proof.
  intros _ _ Hp. unfold files_events.
  rewrite (zip_with_zip frame_events files1), (zip_with_zip frame_events files2).
  by apply concat_Permutation, fmap_Permutation.
Qed.

(** The [source_files] list a merged dict stores for a link. *)
Definition sources (cd : list entry) (k : cell) : option (list string) :=
  match assoc_get k cd with
  | Some d => match assoc_get "source_files" d with Some (VFiles fs) => Some fs | _ => None end
  | None => None
  end.

Lemma sources_merge_spec evs k :
  sources (merge_spec evs) k =
    if decide (k ∈ spec_keys evs) then Some (map ev_file (hits evs k)) else None.
Proof.
  unfold sources, merge_spec. rewrite assoc_get_map. case_decide as Hk; [|done].
  unfold spec_dict. destruct (hits evs k) as [|e hs] eqn:Hh.
  - apply hits_nil in Hh. apply elem_of_spec_keys in Hk. done.
  - by rewrite assoc_get_set_eq.
Qed.

Lemma reads_ok_length w files frs : reads_ok w files frs → length files = length frs.
Proof. apply Forall2_length. Qed.

(** ** The invariant of [combined_data]

    Keys are distinct and every stored dict holds a non-empty
    [source_files] list.  The empty dict has it, [merge_row] keeps it,
    and under it [.append] always finds a list: the only exception a row
    raises is the [KeyError] of a missing link column. *)

Definition wf_combined (cd : list entry) : Prop :=
  NoDup (map fst cd) ∧
  Forall (λ e : entry, ∃ fs, assoc_get "source_files" e.2 = Some (VFiles fs) ∧ fs ≠ []) cd.

Lemma wf_combined_nil : wf_combined [].
Proof. split; constructor. Qed.

Lemma assoc_get_Some_elem {K V} `{EqDecision K} (k : K) (v : V) d :
  assoc_get k d = Some v → (k, v) ∈ d.
Proof.
  induction d as [|[k' v'] d IH]; simpl; [done|].
  case_decide; [intros [= <-]; subst; left|intros; right; auto].
Qed.

Lemma add_source_wf file d fs :
  assoc_get "source_files" d = Some (VFiles fs) →
  add_source file d = inr (assoc_set "source_files" (VFiles (fs ++ [file])) d).
Proof. unfold add_source. by intros ->. Qed.

Lemma merge_row_wf file cols cd r :
  wf_combined cd →
  match merge_row file cols cd r with
  | inr cd' => wf_combined cd'
  | inl e => e = KeyError "github_profile_link"
  end.
Proof.
  intros [Hnd Hall]. unfold merge_row.
  destruct (assoc_get "github_profile_link" (zip cols r)) as [link|]; simpl; [|done].
  destruct (assoc_get link cd) as [d|] eqn:Hd.
  - pose proof (assoc_get_Some_elem _ _ _ Hd) as Hin.
    destruct (proj1 (Forall_forall _ _) Hall _ Hin) as (fs & Hfs & Hne). simpl in Hfs.
    rewrite (add_source_wf file d fs Hfs). simpl. split.
    + rewrite assoc_set_keys, decide_True; [done|]. by eapply assoc_get_Some_in.
    + apply assoc_set_Forall; [done|]. simpl. exists (fs ++ [file]).
      rewrite assoc_get_set_eq. split; [done|]. by destruct fs.
  - rewrite assoc_set_new by (by apply assoc_get_None). split.
    + rewrite map_app. apply NoDup_app. split_and!; [done| |apply NoDup_singleton].
      intros k Hk ->%list_elem_of_singleton. by apply assoc_get_None in Hd.
    + apply Forall_app. split; [done|]. constructor; [|done]. exists [file]. simpl.
      by rewrite assoc_get_set_eq.
Qed.

Lemma merge_frame_wf file cols rows cd :
  wf_combined cd →
  match merge_frame file cols rows cd with
  | inr cd' => wf_combined cd'
  | inl e => e = KeyError "github_profile_link"
  end.
Proof.
  revert cd. induction rows as [|r rows IH]; intros cd Hwf; simpl; [done|].
  pose proof (merge_row_wf file cols cd r Hwf) as Hr.
  destruct (merge_row file cols cd r); simpl; [done|]. by apply IH.
Qed.

Lemma read_csv_pure file w : ∃ r : pyres frame, read_csv file w = (of_pyres r, w).
Proof.
  unfold read_csv. rewrite run_bind. unfold file_read.
  destruct (w_files w !! file); [by eexists|]. by exists (inl (FileNotFoundError file)).
Qed.

(** What the merge loop ends with, from a well-formed dict: the world
    unchanged, never out of fuel, a well-formed dict, and only the
    exceptions of [pd.read_csv] or of a missing link column. *)
Lemma merge_files_inv files cd w :
  wf_combined cd →
  (merge_files files cd w).2 = w ∧
  match (merge_files files cd w).1 with
  | Ok cd' => wf_combined cd'
  | Exc e => e = KeyError "github_profile_link" ∨ ∃ f, f ∈ files ∧ read_csv f w = (Exc e, w)
  | OutOfFuel => False
  end.
Proof.
  revert cd. induction files as [|f files IH]; intros cd Hwf; simpl; [done|].
  rewrite run_bind. destruct (read_csv_pure f w) as [[e|data] Hread]; rewrite Hread; simpl.
  2:{ rewrite run_bind. unfold lift at 1. cbn [fst snd].
    pose proof (merge_frame_wf f (columns data) (frame_rows data) cd Hwf) as Hm.
    destruct (merge_frame f (columns data) (frame_rows data) cd) as [e|cd']; simpl; [by split; [|left]|].
    destruct (IH cd' Hm) as [Hw' Ho]. split; [done|].
    destruct ((merge_files files cd' w).1); try done.
    destruct Ho as [|(f' & Hf' & Hr')]; [by left|right]. exists f'. split; [by right|done]. }
  split; [done|]. right. exists f. split; [left|done].
Qed.

(** ** The program-level theorems *)

Lemma merge_files_missing_link w files frs pre :
  reads_ok w files frs →
  ¬ Forall (λ e, is_Some (ev_link e)) (files_events files frs) →
  merge_files files (merge_spec pre) w = (Exc (KeyError "github_profile_link"), w).
Proof.
  intros Hr. revert pre. induction Hr as [|f fr files frs Hf Hr IH]; intros pre Hnot; simpl.
  - by destruct Hnot.
  - unfold files_events in *. simpl in Hnot. rewrite run_bind, Hf, run_bind. unfold lift.
    rewrite merge_frame_events. unfold frame_events in *.
    destruct (decide (Forall (λ e, is_Some (ev_link e)) (map (mk_event f (columns fr)) (frame_rows fr))))
      as [Hall|Hbad].
    + rewrite merge_events_spec by done. simpl. apply IH.
      intros Hrest. apply Hnot, Forall_app. by split.
    + by rewrite merge_events_missing_link.
Qed.

(** C2: the merge loop computes the contract: reading files whose rows all
    have a [github_profile_link], [combined_data] ends as one entry per
    distinct link, in first-seen order, holding the first row with that
    link and the files of all its rows. *)
Theorem merge_files_correct w files frs :
  reads_ok w files frs →
  Forall (λ e, is_Some (ev_link e)) (files_events files frs) →
  merge_files files [] w = (Ok (merge_spec (files_events files frs)), w).
Proof. intros Hr Hall. exact (merge_files_spec w files frs [] Hr Hall). Qed.

(** C14: no link is stored twice, and the stored links are exactly the links
    of the rows read. *)
Theorem merge_files_keys w files frs :
  reads_ok w files frs →
  Forall (λ e, is_Some (ev_link e)) (files_events files frs) →
  ∃ cd, merge_files files [] w = (Ok cd, w) ∧ NoDup (map fst cd) ∧
    ∀ k, k ∈ map fst cd ↔ ∃ e, e ∈ files_events files frs ∧ ev_link e = Some k.
Proof.
  intros Hr Hall. eexists. split; [exact (merge_files_spec w files frs [] Hr Hall)|].
  unfold merge_spec. rewrite map_fst_pairs. split.
  - apply NoDup_add_new, NoDup_nil_2.
  - intros k. rewrite elem_of_spec_keys, list_elem_of_omap. naive_solver.
Qed.

(** C13: the state invariant of the merge: from the empty dict of line 10
    the loop ends without touching the world and never by running out of
    fuel; when it returns, the keys of [combined_data] are distinct and
    every stored dict holds a non-empty [source_files] list. *)
Theorem merge_files_wf files w :
  (merge_files files [] w).2 = w ∧ (merge_files files [] w).1 ≠ OutOfFuel ∧
  ∀ cd, (merge_files files [] w).1 = Ok cd → wf_combined cd.
Proof.
  destruct (merge_files_inv files [] w wf_combined_nil) as [Hw Ho].
  split_and!; [done| |].
  - by destruct ((merge_files files [] w).1).
  - intros cd Hcd. by rewrite Hcd in Ho.
Qed.

(** C16: the merge loop raises only what [pd.read_csv] raises on one of the
    files and the [KeyError] of a row without a [github_profile_link]
    column: the [.append] of line 22 never meets a value that is not a
    list. *)
Theorem merge_files_exceptions files w e :
  (merge_files files [] w).1 = Exc e →
  e = KeyError "github_profile_link" ∨ ∃ f, f ∈ files ∧ read_csv f w = (Exc e, w).
Proof.
  destruct (merge_files_inv files [] w wf_combined_nil) as [_ Ho]. intros He. by rewrite He in Ho.
Qed.

(** C22: the order in which [glob.glob] lists the files does not matter
    to the links nor to their sources: merging the same files, with the
    same frames, in another order stores the same links, and for every
    link the same source files, each up to order. *)
Theorem merge_files_order w files1 frs1 files2 frs2 :
  reads_ok w files1 frs1 → reads_ok w files2 frs2 → zip files1 frs1 ≡ₚ zip files2 frs2 →
  Forall (λ e, is_Some (ev_link e)) (files_events files1 frs1) →
  ∃ cd1 cd2, merge_files files1 [] w = (Ok cd1, w) ∧ merge_files files2 [] w = (Ok cd2, w) ∧
    map fst cd1 ≡ₚ map fst cd2 ∧ ∀ k, option_Forall2 (≡ₚ) (sources cd1 k) (sources cd2 k).
Proof.
  intros Hr1 Hr2 Hp Hall.
  pose proof (files_events_Permutation files1 frs1 files2 frs2
    (reads_ok_length _ _ _ Hr1) (reads_ok_length _ _ _ Hr2) Hp) as Hevs.
  exists (merge_spec (files_events files1 frs1)), (merge_spec (files_events files2 frs2)).
  split_and!.
  - exact (merge_files_spec w files1 frs1 [] Hr1 Hall).
  - apply (merge_files_spec w files2 frs2 [] Hr2). by rewrite <- Hevs.
  - unfold merge_spec. rewrite !map_fst_pairs. by rewrite Hevs.
  - intros k. rewrite !sources_merge_spec.
    assert (k ∈ spec_keys (files_events files1 frs1) ↔ k ∈ spec_keys (files_events files2 frs2)) as Hk
      by (by rewrite Hevs).
    do 2 case_decide; try tauto; constructor. by rewrite Hevs.
Qed.

Lemma length_omap_le {A B} (f : A → option B) (l : list A) : length (omap f l) ≤ length l.
Proof. induction l as [|x l IH]; [done|]. csimpl. destruct (f x); simpl; lia. Qed.

(** C21: bounds: the combined table has at most one row per row read, and
    exactly one per distinct link. *)
Theorem merge_files_size w files frs :
  reads_ok w files frs →
  Forall (λ e, is_Some (ev_link e)) (files_events files frs) →
  ∃ cd, merge_files files [] w = (Ok cd, w) ∧
    length cd = length (add_new [] (omap ev_link (files_events files frs))) ∧
    length cd ≤ length (files_events files frs).
Proof.
  intros Hr Hall. eexists. split; [exact (merge_files_spec w files frs [] Hr Hall)|].
  rewrite app_nil_l. unfold merge_spec, spec_keys. rewrite length_map. split; [done|].
  etrans; [apply length_add_new|]. simpl. apply length_omap_le.
Qed.

(** ** Demo data: the specification's two files *)

Definition lf : string := String LF "".

Definition merge_demo_a : string :=
  "person_name,github_profile_link,email" +s+ lf +s+
  "Ann,https://github.com/ann,ann@example.org" +s+ lf +s+
  "Bob,https://github.com/bob," +s+ lf.

Definition merge_demo_b : string :=
  "person_name,github_profile_link,email" +s+ lf +s+
  "Ann B,https://github.com/ann," +s+ lf +s+
  "Cy,https://github.com/cy,cy@example.org" +s+ lf.

Definition merge_demo_world : world :=
  mk_world [] [] (<["a.csv" := merge_demo_a]> (<["b.csv" := merge_demo_b]> ∅)) [].

Definition merge_demo_frames : list frame :=
  [mk_frame ["person_name"; "github_profile_link"; "email"]
     [[CStr "Ann"; CStr "https://github.com/ann"; CStr "ann@example.org"];
      [CStr "Bob"; CStr "https://github.com/bob"; CNaN]];
   mk_frame ["person_name"; "github_profile_link"; "email"]
     [[CStr "Ann B"; CStr "https://github.com/ann"; CNaN];
      [CStr "Cy"; CStr "https://github.com/cy"; CStr "cy@example.org"]]].

(** [reads_ok] on a concrete world: each read evaluated by the VM. *)
Ltac reads_ok_tac :=
  repeat (apply List.Forall2_cons; [vm_compute; reflexivity|]); apply List.Forall2_nil.

Lemma merge_demo_reads : reads_ok merge_demo_world (matched "*.csv" merge_demo_world) merge_demo_frames.
Proof.
  assert (matched "*.csv" merge_demo_world = ["a.csv"; "b.csv"]) as -> by (vm_compute; reflexivity).
  reads_ok_tac.
Qed.

Lemma merge_demo_linked :
  Forall (λ e, is_Some (ev_link e)) (files_events (matched "*.csv" merge_demo_world) merge_demo_frames).
Proof.
  assert (matched "*.csv" merge_demo_world = ["a.csv"; "b.csv"]) as -> by (vm_compute; reflexivity).
  repeat constructor; vm_compute; eauto.
Qed.

Definition merge_demo_other : world :=
  mk_world [] [] (<["people.csv" := "name,email" +s+ lf +s+ "Ann,ann@example.org" +s+ lf]> ∅) [].

Definition merge_demo_other_frames : list frame :=
  [mk_frame ["name"; "email"] [[CStr "Ann"; CStr "ann@example.org"]]].

(** ** Witnesses *)

Lemma merge_files_correct_witness :
  merge_files (matched "*.csv" merge_demo_world) [] merge_demo_world =
    (Ok (merge_spec (files_events (matched "*.csv" merge_demo_world) merge_demo_frames)), merge_demo_world).
Proof. apply (merge_files_correct _ _ _ merge_demo_reads merge_demo_linked). Defined.

Lemma merge_files_keys_witness :
  ∃ cd, merge_files (matched "*.csv" merge_demo_world) [] merge_demo_world = (Ok cd, merge_demo_world) ∧
    NoDup (map fst cd) ∧
    ∀ k, k ∈ map fst cd ↔ ∃ e, e ∈ files_events (matched "*.csv" merge_demo_world) merge_demo_frames ∧
                               ev_link e = Some k.
Proof. apply (merge_files_keys _ _ _ merge_demo_reads merge_demo_linked). Defined.

Lemma merge_files_exceptions_witness :
  KeyError "github_profile_link" = KeyError "github_profile_link" ∨
  ∃ f, f ∈ ["people.csv"] ∧ read_csv f merge_demo_other = (Exc (KeyError "github_profile_link"), merge_demo_other).
Proof.
  apply (merge_files_exceptions ["people.csv"] merge_demo_other). vm_compute. reflexivity.
Defined.

Lemma merge_files_order_witness :
  ∃ cd1 cd2, merge_files ["a.csv"; "b.csv"] [] merge_demo_world = (Ok cd1, merge_demo_world) ∧
    merge_files ["b.csv"; "a.csv"] [] merge_demo_world = (Ok cd2, merge_demo_world) ∧
    map fst cd1 ≡ₚ map fst cd2 ∧ ∀ k, option_Forall2 (≡ₚ) (sources cd1 k) (sources cd2 k).
Proof.
  apply (merge_files_order merge_demo_world ["a.csv"; "b.csv"] merge_demo_frames
           ["b.csv"; "a.csv"] (reverse merge_demo_frames)).
  - reads_ok_tac.
  - reads_ok_tac.
  - apply perm_swap.
  - repeat constructor; vm_compute; eauto.
Defined.

(** Which row a link keeps does depend on the order: read [b.csv] first
    and Ann's row is the one of [b.csv]. *)
Example merge_order_changes_values :
  (merge_files ["a.csv"; "b.csv"] [] merge_demo_world).1 ≠ (merge_files ["b.csv"; "a.csv"] [] merge_demo_world).1.
Proof. vm_compute. congruence. Qed.

Lemma merge_files_size_witness :
  ∃ cd, merge_files (matched "*.csv" merge_demo_world) [] merge_demo_world = (Ok cd, merge_demo_world) ∧
    length cd = length (add_new [] (omap ev_link (files_events (matched "*.csv" merge_demo_world) merge_demo_frames))) ∧
    length cd ≤ length (files_events (matched "*.csv" merge_demo_world) merge_demo_frames).
Proof. apply (merge_files_size _ _ _ merge_demo_reads merge_demo_linked). Defined.
