(* ===== verification/MergerOutput.v ===== *)
(** * The merger's output: lines 24-38 of [merge_csv.py]

    The frame [pd.DataFrame.from_dict(combined_data, orient="index")]
    makes of the merged dict ([frame_columns]; the row index
    [frame_index], pandas' union of the columns' key lists; [table_rows],
    [combined_table]), its CSV text ([to_csv_text]), [combine_csv_files]
    as a whole (the loop [merge_files] is [Merger]'s) and the [__main__]
    block [merge_entry].  The theorems: the output theorem with the
    read-back of the written file (when no text holds a CR that the LF
    writer leaves bare), one row per link and, when all files share their
    columns, in first-seen order; the two error paths that stop the run
    before anything is written; and examples on concrete directories: the
    specification's two files, a second run over its own output, pandas'
    NA strings, trailing delimiters, files with different columns and a
    lone CR. *)

From S2P Require Import Prelude Json World Enricher CsvWriter CsvReader Frames Glob Merger.

(** ** The combined frame and its CSV (lines 24-31) *)

(** [pd.DataFrame.from_dict(combined_data, orient="index")]: pandas
    regroups the dicts by column ([_from_nested_dict]:
    [new_data[col][index] = v] for each dict in order, each of its keys in
    order) and builds the frame of that dict of columns.  The columns are
    the keys of the dicts in first-seen order. *)
Definition frame_columns (cd : list entry) : list string :=
  fold_left (λ cols e, add_new cols (map fst e.2)) cd [].

(** The keys of [new_data[col]]: the links of the dicts that have the
    column, in insertion order. *)
Definition column_keys (cd : list entry) (col : string) : list cell :=
  map fst (filter (λ e : entry, col ∈ map fst e.2) cd).

(** The row index ([_extract_index], then [union_indexes(..., sort=False)]
    over lists, i.e. [fast_unique_multiple_list]): the keys of the
    columns' dicts, column by column, each kept where it is first met. *)
Definition frame_index (cd : list entry) : list cell :=
  add_new [] (concat (map (column_keys cd) (frame_columns cd))).

(** The text of one cell of the written frame, after [source_files] was
    joined: NaN and a missing key are empty. *)
Definition value_text (col : string) (v : option value) : string :=
  match v with
  | Some (VCell (CStr s)) => s
  | Some (VCell CNaN) | None => ""
  | Some (VFiles fs) => if String.eqb col "source_files" then join ", " fs else py_repr (JList (map JStr fs))
  end.

(** Lines 25-28: the frame as text rows, one per index key, in index
    order; the cell of a column the key's dict lacks is NaN
    ([fast_multiget] with default NaN).  [combined_df["source_files"]]
    raises [KeyError] when no dict had that key (no row at all). *)
Definition table_rows (cols : list string) (cd : list entry) : list (list string) :=
  map (λ k, map (λ c, value_text c (assoc_get k cd ≫= assoc_get c)) cols) (frame_index cd).

Definition combined_table (cd : list entry) : pyres (list (list string)) :=
  let cols := frame_columns cd in
  if decide ("source_files" ∈ cols)
  then inr (cols :: table_rows cols cd)
  else inl (KeyError "source_files").

(** [to_csv(output_file, index=False)]: LF-terminated records. *)
Definition to_csv_text (table : list (list string)) : string :=
  String.string_of_list_ascii
    (render_rows_term [LF] (map (map String.list_ascii_of_string) table)).

Definition combine_csv_files (file_pattern output_file : string) : PyM unit :=
  csv_files ← glob file_pattern;
  combined_data ← merge_files csv_files [];
  table ← lift (combined_table combined_data);
  file_open_w output_file;;
  file_write output_file (to_csv_text table);;
  py_print ("Combined data saved to " +s+ output_file).

(** The [__main__] block, lines 35-38. *)
Definition merge_entry : PyM unit :=
  let file_pattern := "*.csv" in
  let output_file := "combined_data.csv" in
  combine_csv_files file_pattern output_file.

(** ** The combined frame *)

Lemma elem_of_frame_columns_aux (c : string) (cd : list entry) acc :
  c ∈ fold_left (λ cols e, add_new cols (map fst e.2)) cd acc ↔
    c ∈ acc ∨ ∃ e, e ∈ cd ∧ c ∈ map fst e.2.
Proof.
  revert acc. induction cd as [|e cd IH]; intros acc; simpl; [set_solver|].
  rewrite IH, elem_of_add_new. set_solver.
Qed.

Lemma elem_of_frame_columns c cd :
  c ∈ frame_columns cd ↔ ∃ e, e ∈ cd ∧ c ∈ map fst e.2.
Proof. unfold frame_columns. rewrite elem_of_frame_columns_aux. set_solver. Qed.

Lemma source_files_spec_dict evs k :
  k ∈ spec_keys evs → "source_files" ∈ map fst (spec_dict evs k).
Proof.
  intros Hk%elem_of_spec_keys. unfold spec_dict.
  destruct (hits evs k) as [|e hs] eqn:Hh; [by apply hits_nil in Hh|].
  rewrite assoc_set_keys. case_decide; set_solver.
Qed.

(** Once a row was merged, the frame has the [source_files] column. *)
Lemma source_files_column evs :
  spec_keys evs ≠ [] → "source_files" ∈ frame_columns (merge_spec evs).
Proof.
  intros Hne. destruct (spec_keys evs) as [|k ks] eqn:Hks; [done|].
  apply elem_of_frame_columns. exists (k, spec_dict evs k). split.
  - unfold merge_spec. rewrite Hks. by left.
  - apply source_files_spec_dict. rewrite Hks. by left.
Qed.

Lemma combined_table_spec evs :
  spec_keys evs ≠ [] →
  combined_table (merge_spec evs) =
    inr (frame_columns (merge_spec evs) :: table_rows (frame_columns (merge_spec evs)) (merge_spec evs)).
Proof. intros Hne. unfold combined_table. rewrite decide_True; [done|]. by apply source_files_column. Qed.

Lemma spec_keys_nonempty evs :
  Forall (λ e, is_Some (ev_link e)) evs → evs ≠ [] → spec_keys evs ≠ [].
Proof.
  intros Hall Hne Hnil. destruct evs as [|e evs]; [done|].
  apply Forall_cons in Hall as [[k Hk] _].
  assert (k ∈ spec_keys (e :: evs)) as Hin by (apply elem_of_spec_keys; simpl; rewrite Hk; left).
  rewrite Hnil in Hin. set_solver.
Qed.

(** ** [combine_csv_files] *)

Definition combined_world (w : world) (out text : string) : world :=
  mk_world (w_requests w) (w_stdout w ++ ["Combined data saved to " +s+ out])
    (<[out := text]> (w_files w)) (w_bars w).

(** The table the merge writes for the rows [evs]. *)
Definition merged_table (evs : list event) : list (list string) :=
  let cd := merge_spec evs in frame_columns cd :: table_rows (frame_columns cd) cd.

Lemma combine_tail (table : list (list string)) out w :
  (file_open_w out;; file_write out (to_csv_text table);;
   py_print ("Combined data saved to " +s+ out)) w =
    (Ok tt, combined_world w out (to_csv_text table)).
Proof.
  cbv [mbind PyM_bind file_open_w file_write py_print]. simpl.
  rewrite lookup_insert_eq. simpl. by rewrite insert_insert_eq.
Qed.


(** ** The merged dicts *)

Lemma zip_fst_elem {A B} (c : A) (cols : list A) (cells : list B) : c ∈ map fst (zip cols cells) → c ∈ cols.
Proof.
  revert cells. induction cols as [|c' cols IH]; intros [|x cells]; simpl; [set_solver..|].
  rewrite !elem_of_cons. intros [->|H]; [by left|right; eauto].
Qed.

Lemma row_dict_keys cols cells : map fst (row_dict cols cells) = map fst (zip cols cells).
Proof.
  unfold row_dict. revert cells. induction cols as [|c cols IH]; intros [|x cells]; simpl; by rewrite ?IH.
Qed.

Lemma row_dict_get c cols cells v :
  assoc_get c (row_dict cols cells) = Some v → ∃ x, v = VCell x ∧ x ∈ cells.
Proof.
  revert cells. induction cols as [|c' cols IH]; intros [|x cells]; simpl; try done.
  case_decide; [intros [= <-]; exists x; set_solver|].
  intros (y & -> & Hy)%IH. exists y. set_solver.
Qed.

Lemma hits_elem evs k e : e ∈ hits evs k → ev_link e = Some k ∧ e ∈ evs.
Proof. unfold hits. by intros ?%list_elem_of_filter. Qed.

(** The columns of a merged dict: its first row's columns and [source_files]. *)
Lemma spec_dict_keys evs k c :
  c ∈ map fst (spec_dict evs k) → c = "source_files" ∨ ∃ e, e ∈ evs ∧ c ∈ ev_cols e.
Proof.
  unfold spec_dict. destruct (hits evs k) as [|e hs] eqn:Hh; [set_solver|].
  assert (e ∈ evs) as He by (apply (hits_elem evs k); rewrite Hh; left).
  rewrite assoc_set_keys, row_dict_keys. intros Hc.
  assert (c ∈ map fst (zip (ev_cols e) (ev_cells e)) ∨ c = "source_files") as [Hc'|] by (case_decide; set_solver);
    [|by left]. right. exists e. split; [done|]. by eapply zip_fst_elem.
Qed.

Lemma link_in_spec_dict evs k :
  k ∈ spec_keys evs → "github_profile_link" ∈ map fst (spec_dict evs k).
Proof.
  intros Hk%elem_of_spec_keys. unfold spec_dict.
  destruct (hits evs k) as [|e hs] eqn:Hh; [by apply hits_nil in Hh|].
  assert (ev_link e = Some k) as Hl by (apply (hits_elem evs k); rewrite Hh; left).
  unfold ev_link in Hl. apply assoc_get_Some_in in Hl.
  rewrite assoc_set_keys, row_dict_keys. case_decide; set_solver.
Qed.

(** The values of a merged dict: cells of the rows, and the list of
    files under [source_files]. *)
Lemma spec_dict_values evs k c v :
  assoc_get c (spec_dict evs k) = Some v →
  (c = "source_files" ∧ ∃ fs, v = VFiles fs ∧ Forall (λ f, f ∈ map ev_file evs) fs) ∨
  ∃ e x, e ∈ evs ∧ x ∈ ev_cells e ∧ v = VCell x.
Proof.
  unfold spec_dict. destruct (hits evs k) as [|e hs] eqn:Hh; [done|].
  assert (e ∈ evs) as He by (apply (hits_elem evs k); rewrite Hh; left).
  destruct (decide (c = "source_files")) as [->|Hc].
  - rewrite assoc_get_set_eq. intros [= <-]. left. split; [done|].
    exists (map ev_file (e :: hs)). split; [done|]. rewrite <- Hh. apply Forall_forall. intros f (e' & -> & He')%list_elem_of_fmap.
    apply list_elem_of_fmap. exists e'. split; [done|]. by apply (hits_elem evs k).
  - rewrite assoc_get_set_ne by done. intros (x & -> & Hx)%row_dict_get. right. eauto.
Qed.

Lemma NoDup_frame_columns cd : NoDup (frame_columns cd).
Proof.
  unfold frame_columns. generalize (NoDup_nil_2 (A := string)). generalize ([] : list string).
  induction cd as [|e cd IH]; intros acc Hacc; [done|]. apply IH. by apply NoDup_add_new.
Qed.

Lemma elem_of_merge_spec evs e : e ∈ merge_spec evs ↔ e.1 ∈ spec_keys evs ∧ e.2 = spec_dict evs e.1.
Proof.
  unfold merge_spec. rewrite list_elem_of_fmap. split; [by intros (k & -> & Hk)|].
  intros [Hk He]. exists e.1. split; [|done]. destruct e; simpl in *. by subst.
Qed.

Lemma assoc_get_merge_spec evs k :
  assoc_get k (merge_spec evs) = if decide (k ∈ spec_keys evs) then Some (spec_dict evs k) else None.
Proof. apply assoc_get_map. Qed.

(** ** The cells of the combined table *)

(** A cell of the combined table is a column name, empty (NaN or a
    missing key), the text of a cell that was read, or the joined list of
    the files a link was read from. *)
Lemma merged_table_cells evs r t :
  r ∈ merged_table evs → t ∈ r →
  t ∈ frame_columns (merge_spec evs) ∨ t = "" ∨ (∃ e, e ∈ evs ∧ CStr t ∈ ev_cells e) ∨
  (∃ fs, Forall (λ f, f ∈ map ev_file evs) fs ∧ t = join ", " fs).
Proof.
  unfold merged_table, table_rows. intros [->|Hr]%elem_of_cons; [by left|].
  apply list_elem_of_fmap in Hr as (k & -> & _).
  intros (c & -> & _)%list_elem_of_fmap. right.
  rewrite assoc_get_merge_spec. case_decide; cbn [mbind option_bind]; [|by left].
  destruct (assoc_get c (spec_dict evs k)) as [v|] eqn:Hv; [|by left].
  destruct (spec_dict_values evs k c v Hv) as [[-> (fs & -> & Hfs)]|(e & x & He & Hx & ->)].
  - right; right. exists fs. split; [done|]. reflexivity.
  - destruct x as [s|]; [|by left]. right; left. eauto.
Qed.

(** Every row of the combined table has at least the link and the
    [source_files] columns, which are distinct. *)
Lemma merged_table_wide evs :
  spec_keys evs ≠ [] → Forall (λ r, 2 ≤ length r) (merged_table evs).
Proof.
  intros Hne. assert (Hsf := source_files_column evs Hne).
  destruct (spec_keys evs) as [|k ks] eqn:Hks; [done|].
  assert ("github_profile_link" ∈ frame_columns (merge_spec evs)) as Hl.
  { apply elem_of_frame_columns. exists (k, spec_dict evs k). split.
    - apply elem_of_merge_spec. rewrite Hks. split; [left|done].
    - apply link_in_spec_dict. rewrite Hks. left. }
  assert (2 ≤ length (frame_columns (merge_spec evs))) as H2.
  { pose proof (NoDup_frame_columns (merge_spec evs)) as Hnd.
    destruct (frame_columns (merge_spec evs)) as [|x [|y l]]; simpl; [set_solver|set_solver|lia]. }
  unfold merged_table, table_rows. constructor; [done|].
  apply Forall_forall. intros r (k' & -> & _)%list_elem_of_fmap. by rewrite length_map.
Qed.

(** The text of a cell ([NaN] is written empty). *)
Definition cell_text (x : cell) : string := match x with CStr s => s | CNaN => "" end.

(** The texts an event brings to the combined file: its file name, its
    columns and its cells. *)
Definition event_texts (e : event) : list string := ev_file e :: ev_cols e ++ map cell_text (ev_cells e).

Lemma merged_table_lf_safe evs :
  Forall (λ e, Forall lf_safe (event_texts e)) evs → Forall (Forall lf_safe) (merged_table evs).
Proof.
  intros Hall. rewrite Forall_forall in Hall.
  assert (Hin : ∀ e t, e ∈ evs → t ∈ event_texts e → lf_safe t).
  { intros e t He Ht. specialize (Hall e He). rewrite Forall_forall in Hall. by apply Hall. }
  apply Forall_forall. intros r Hr. apply Forall_forall. intros t Ht. unfold event_texts in Hin.
  destruct (merged_table_cells evs r t Hr Ht) as [Hc|[->|[(e & He & Hx)|(fs & Hfs & ->)]]].
  - apply elem_of_frame_columns in Hc as ([k d] & Hkd & Hc). apply elem_of_merge_spec in Hkd as [_ Hd].
    simpl in *. subst d. destruct (spec_dict_keys evs k t Hc) as [->|(e & He & Hc')]; [done|].
    apply (Hin e); [done|]. set_solver.
  - done.
  - apply (Hin e); [done|]. apply elem_of_cons; right. apply elem_of_app; right.
    apply list_elem_of_fmap. by exists (CStr t).
  - apply lf_safe_join; [by vm_compute; left|]. apply Forall_forall. intros f Hf.
    rewrite Forall_forall in Hfs. apply Hfs, list_elem_of_fmap in Hf as (e & -> & He).
    apply (Hin e); [done|]. by left.
Qed.

(** ** The rows of the combined table *)

(** The text row of a dict under the columns [cols]. *)
Definition dict_text_row (cols : list string) (d : dict_row) : list string :=
  map (λ c, value_text c (assoc_get c d)) cols.

Lemma elem_of_column_keys cd c k :
  k ∈ column_keys cd c ↔ ∃ e, e ∈ cd ∧ e.1 = k ∧ c ∈ map fst e.2.
Proof.
  unfold column_keys. rewrite list_elem_of_fmap. split.
  - intros (e & -> & [Hc He]%list_elem_of_filter). eauto.
  - intros (e & He & <- & Hc). exists e. split; [done|]. by apply list_elem_of_filter.
Qed.

Lemma elem_of_concat_list {A} (x : A) (ls : list (list A)) : x ∈ concat ls ↔ ∃ l, l ∈ ls ∧ x ∈ l.
Proof. rewrite list_elem_of_In, in_concat. setoid_rewrite list_elem_of_In. naive_solver. Qed.

Lemma elem_of_frame_index cd k :
  k ∈ frame_index cd ↔ ∃ e, e ∈ cd ∧ e.1 = k ∧ map fst e.2 ≠ [].
Proof.
  unfold frame_index. rewrite elem_of_add_new, elem_of_nil, elem_of_concat_list. split.
  - intros [[]|(l & Hl & Hk)]. apply list_elem_of_fmap in Hl as (c & -> & _).
    apply elem_of_column_keys in Hk as (e & He & <- & Hc). exists e. split_and!; [done|done|]. intros Hn. rewrite Hn in Hc. set_solver.
  - intros (e & He & <- & Hne). destruct (map fst e.2) as [|c cs] eqn:Hcs; [done|]. right.
    exists (column_keys cd c). split.
    + apply list_elem_of_fmap. exists c. split; [done|]. apply elem_of_frame_columns. exists e. rewrite Hcs. set_solver.
    + apply elem_of_column_keys. exists e. rewrite Hcs. set_solver.
Qed.

Lemma NoDup_frame_index cd : NoDup (frame_index cd).
Proof. apply NoDup_add_new, NoDup_nil_2. Qed.

Lemma map_fst_merge_spec evs : map fst (merge_spec evs) = spec_keys evs.
Proof. unfold merge_spec. rewrite map_map. apply map_id. Qed.

Lemma spec_dict_nonempty evs k : k ∈ spec_keys evs → map fst (spec_dict evs k) ≠ [].
Proof. intros Hk%source_files_spec_dict Hnil. rewrite Hnil in Hk. set_solver. Qed.

(** Each merged link has exactly one row: the index is the links, in
    some order. *)
Lemma frame_index_merge_spec evs : frame_index (merge_spec evs) ≡ₚ spec_keys evs.
Proof.
  apply NoDup_Permutation; [apply NoDup_frame_index|apply NoDup_add_new, NoDup_nil_2|].
  intros k. rewrite elem_of_frame_index. split.
  - intros ([k' d] & (Hk & _)%elem_of_merge_spec & <- & _). done.
  - intros Hk. exists (k, spec_dict evs k). split_and!; [by apply elem_of_merge_spec|done|].
    by apply spec_dict_nonempty.
Qed.

Lemma table_rows_merge_spec evs cols :
  table_rows cols (merge_spec evs) ≡ₚ map (λ k, dict_text_row cols (spec_dict evs k)) (spec_keys evs).
Proof.
  unfold table_rows. rewrite (frame_index_merge_spec evs).
  apply Permutation_refl'. apply map_ext_in. intros k Hk%list_elem_of_In.
  unfold dict_text_row. rewrite assoc_get_merge_spec, decide_True by done. reflexivity.
Qed.

(** The columns of a merged dict whose row had the columns [cols]:
    [source_files] is added at the end unless the row had it. *)
Definition dict_columns (cols : list string) : list string :=
  if decide ("source_files" ∈ cols) then cols else cols ++ ["source_files"].

Lemma map_fst_zip_full {A B} (l : list A) (k : list B) : length l ≤ length k → map fst (zip l k) = l.
Proof.
  revert k. induction l as [|x l IH]; intros [|y k] Hlen; simpl in *; [done|done|lia|].
  f_equal. apply IH. lia.
Qed.

Lemma filter_all {A} (P : A → Prop) `{∀ x, Decision (P x)} (l : list A) : Forall P l → filter P l = l.
Proof.
  induction l as [|x l IH]; intros Hl; [done|]. apply Forall_cons in Hl as [Hx Hl].
  rewrite filter_cons_True by done. by rewrite IH.
Qed.

Lemma spec_dict_columns evs cols k :
  Forall (λ e, ev_cols e = cols ∧ length (ev_cells e) = length cols) evs → k ∈ spec_keys evs →
  map fst (spec_dict evs k) = dict_columns cols.
Proof.
  intros Hall Hk%elem_of_spec_keys. unfold spec_dict.
  destruct (hits evs k) as [|e hs] eqn:Hh; [by apply hits_nil in Hh|].
  assert (e ∈ evs) as He by (apply (hits_elem evs k); rewrite Hh; left).
  rewrite Forall_forall in Hall. destruct (Hall e He) as [Hc Hl].
  rewrite assoc_set_keys, row_dict_keys, Hc, map_fst_zip_full by lia. done.
Qed.

Lemma frame_columns_uniform cd K :
  cd ≠ [] → NoDup K → Forall (λ e : entry, map fst e.2 = K) cd → frame_columns cd = K.
Proof.
  destruct cd as [|e cd]; [done|]. intros _ HK Hall. apply Forall_cons in Hall as [He Hall].
  unfold frame_columns, entry, dict_row in *. cbn [fold_left]. cbv beta. rewrite He, add_new_fresh by (by rewrite app_nil_l). cbn [app].
  induction cd as [|e' cd IH]; [done|]. apply Forall_cons in Hall as [He' Hall]. cbn [fold_left]. cbv beta.
  rewrite He', add_new_seen; [by apply IH|]. by apply Forall_forall.
Qed.

Lemma frame_index_uniform cd K :
  cd ≠ [] → K ≠ [] → NoDup K → NoDup (map fst cd) → Forall (λ e : entry, map fst e.2 = K) cd →
  frame_index cd = map fst cd.
Proof.
  intros Hcd HKne HK Hnd Hall. unfold frame_index. rewrite (frame_columns_uniform cd K) by done.
  assert (Hck : ∀ c, c ∈ K → column_keys cd c = map fst cd).
  { intros c Hc. unfold column_keys. rewrite filter_all; [done|].
    apply Forall_impl with (1 := Hall). intros e ->. done. }
  destruct K as [|c K']; [done|]. cbn [map concat]. rewrite Hck by (by left).
  rewrite add_new_app_l, (add_new_fresh [] (map fst cd)) by done. cbn [app]. apply add_new_seen.
  apply Forall_forall. intros k (l & (c' & -> & Hc')%list_elem_of_fmap & Hk)%elem_of_concat_list.
  by rewrite Hck in Hk by (by right).
Qed.

Lemma NoDup_dict_columns cols : NoDup cols → NoDup (dict_columns cols).
Proof.
  intros Hnd. unfold dict_columns. case_decide; [done|].
  apply NoDup_app. split_and!; [done| |apply NoDup_singleton]. set_solver.
Qed.

(** C12: When every file has the same columns [cols], as the two files the
    collector writes do, the combined table has the columns [cols] (with
    [source_files] added) and one row per link, in the order the links
    were first read, holding the merged dict's values. *)
Theorem merged_table_uniform evs cols :
  NoDup cols → Forall (λ e, ev_cols e = cols ∧ length (ev_cells e) = length cols) evs →
  spec_keys evs ≠ [] →
  merged_table evs =
    dict_columns cols :: map (λ k, dict_text_row (dict_columns cols) (spec_dict evs k)) (spec_keys evs).
Proof.
  intros Hnd Hall Hne.
  assert (Hent : Forall (λ e : entry, map fst e.2 = dict_columns cols) (merge_spec evs)).
  { apply Forall_forall. intros [k d] (Hk & Hd)%elem_of_merge_spec. simpl in *. subst d.
    by apply spec_dict_columns. }
  assert (Hcd : merge_spec evs ≠ []) by (intros Hn; apply Hne; by rewrite <- map_fst_merge_spec, Hn).
  assert (HK : NoDup (dict_columns cols)) by (by apply NoDup_dict_columns).
  assert (HKne : dict_columns cols ≠ []).
  { unfold dict_columns. case_decide as Hsf; [intros ->; set_solver|by destruct cols]. }
  assert (Hkeys : NoDup (map fst (merge_spec evs)))
    by (rewrite map_fst_merge_spec; apply NoDup_add_new, NoDup_nil_2).
  unfold merged_table, table_rows.
  rewrite (frame_columns_uniform _ (dict_columns cols)) by done.
  rewrite (frame_index_uniform _ (dict_columns cols)) by done.
  rewrite map_fst_merge_spec. f_equal. apply map_ext_in. intros k Hk%list_elem_of_In.
  unfold dict_text_row. rewrite assoc_get_merge_spec, decide_True by done. reflexivity.
Qed.

(** C11: Whatever the files' columns, the combined table has one row per
    merged link, holding that link's merged dict under the frame's
    columns; only their order is [from_dict]'s. *)
Theorem merged_table_rows evs :
  ∃ rows, merged_table evs = frame_columns (merge_spec evs) :: rows ∧
    rows ≡ₚ map (λ k, dict_text_row (frame_columns (merge_spec evs)) (spec_dict evs k)) (spec_keys evs).
Proof. eexists. split; [reflexivity|]. apply table_rows_merge_spec. Qed.

(** [from_dict]'s index is not the order of [combined_data] when the
    dicts have different columns: the link of a file without the column
    [x] comes after every link of the column [x]. *)
Example merged_table_mixed_schemas :
  merged_table [mk_event "a.csv" ["x"; "github_profile_link"] [CStr "1"; CStr "L1"];
                mk_event "b.csv" ["github_profile_link"] [CStr "L2"];
                mk_event "c.csv" ["x"; "github_profile_link"] [CStr "3"; CStr "L3"]] =
  [["x"; "github_profile_link"; "source_files"];
   ["1"; "L1"; "a.csv"]; ["3"; "L3"; "c.csv"]; [""; "L2"; "b.csv"]].
Proof. vm_compute. reflexivity. Qed.

(** ** Reading the combined file back *)

Lemma to_csv_text_roundtrip table :
  Forall (λ r, 2 ≤ length r ∧ Forall lf_safe r) table → read_csv_records (to_csv_text table) = inr table.
Proof.
  intros Hall. apply read_render_strings; [by right|].
  apply Forall_impl with (1 := Hall). intros r [Hlen Hsafe].
  destruct r as [|x [|y r]]; simpl in Hlen; [lia|lia|]. split_and!; [done|done|by apply Forall_map].
Qed.

Lemma merged_table_roundtrip evs :
  spec_keys evs ≠ [] → Forall (λ e, Forall lf_safe (event_texts e)) evs →
  read_csv_records (to_csv_text (merged_table evs)) = inr (merged_table evs).
Proof.
  intros Hne Hsafe. apply to_csv_text_roundtrip, Forall_and. split.
  - by apply merged_table_wide.
  - by apply merged_table_lf_safe.
Qed.

Section Combine.
Context (pattern out : string) (w : world) (frs : list frame).
Hypothesis Hreads : reads_ok w (matched pattern w) frs.

Lemma merge_files_run :
  Forall (λ e, is_Some (ev_link e)) (files_events (matched pattern w) frs) →
  merge_files (matched pattern w) [] w =
    (Ok (merge_spec (files_events (matched pattern w) frs)), w).
Proof. intros Hall. exact (merge_files_spec w _ frs [] Hreads Hall). Qed.

Lemma combine_csv_files_run :
  Forall (λ e, is_Some (ev_link e)) (files_events (matched pattern w) frs) →
  files_events (matched pattern w) frs ≠ [] →
  Forall (λ e, Forall lf_safe (event_texts e)) (files_events (matched pattern w) frs) →
  let table := merged_table (files_events (matched pattern w) frs) in
  combine_csv_files pattern out w = (Ok tt, combined_world w out (to_csv_text table)) ∧
  read_csv_records (to_csv_text table) = inr table.
Proof.
  intros Hall Hne Hsafe table. assert (spec_keys (files_events (matched pattern w) frs) ≠ []) as Hk
    by (by apply spec_keys_nonempty). split.
  - unfold combine_csv_files.
    rewrite (run_bind_ok _ _ w (matched pattern w) w) by reflexivity.
    rewrite (run_bind_ok _ _ _ _ _ (merge_files_run Hall)).
    rewrite run_bind. unfold lift. rewrite combined_table_spec by done. apply combine_tail.
  - by apply merged_table_roundtrip.
Qed.

(** C6: when every file reads and every row has a link, [combine_csv_files]
    writes the table of the merged contract (columns in first-seen order,
    one row per distinct link in [from_dict]'s index order) to
    [output_file] and reports it; and the file reads back as that table
    when no text of the input (file name, column, cell) holds a CR that
    the LF writer would leave unquoted. *)
Theorem combine_csv_files_spec :
  Forall (λ e, is_Some (ev_link e)) (files_events (matched pattern w) frs) →
  files_events (matched pattern w) frs ≠ [] →
  Forall (λ e, Forall lf_safe (event_texts e)) (files_events (matched pattern w) frs) →
  let table := merged_table (files_events (matched pattern w) frs) in
  combine_csv_files pattern out w = (Ok tt, combined_world w out (to_csv_text table)) ∧
  read_csv_records (to_csv_text table) = inr table.
Proof. apply combine_csv_files_run. Qed.

(** C30: a row without a [github_profile_link] column (a file of another
    schema matched by the pattern) stops the run with [KeyError] before
    anything is written. *)
Theorem combine_csv_files_missing_link :
  ¬ Forall (λ e, is_Some (ev_link e)) (files_events (matched pattern w) frs) →
  combine_csv_files pattern out w = (Exc (KeyError "github_profile_link"), w).
Proof.
  intros Hnot. unfold combine_csv_files.
  rewrite (run_bind_ok _ _ w (matched pattern w) w) by reflexivity.
  rewrite (run_bind_exc _ _ _ _ _ (merge_files_missing_link w _ frs [] Hreads Hnot)). done.
Qed.

(** C26: with no row to merge (no file matched, or only headers),
    [combined_df["source_files"]] raises [KeyError] and nothing is
    written. *)
Theorem combine_csv_files_no_rows :
  files_events (matched pattern w) frs = [] →
  combine_csv_files pattern out w = (Exc (KeyError "source_files"), w).
Proof.
  intros Hnil. unfold combine_csv_files.
  rewrite (run_bind_ok _ _ w (matched pattern w) w) by reflexivity.
  rewrite (run_bind_ok _ _ _ _ _ (merge_files_run (ltac:(rewrite Hnil; constructor)))).
  by rewrite Hnil.
Qed.
End Combine.

(** ** Examples *)

(** The specification's example: two files sharing one link, each with
    one link of its own, merge into three rows; the shared row keeps the
    first file's values and lists both files in encounter order, joined
    with a comma and a space; an empty cell stays empty. *)
Example merge_two_files_example :
  option_map read_csv_records
    (w_files (combine_csv_files "*.csv" "combined_data.csv" merge_demo_world).2 !! "combined_data.csv") =
  Some (inr [["person_name"; "github_profile_link"; "email"; "source_files"];
             ["Ann"; "https://github.com/ann"; "ann@example.org"; "a.csv, b.csv"];
             ["Bob"; "https://github.com/bob"; ""; "a.csv"];
             ["Cy"; "https://github.com/cy"; "cy@example.org"; "b.csv"]]).
Proof. vm_compute. reflexivity. Qed.

(** Run again in the same directory, the default pattern ["*.csv"]
    matches the previous [combined_data.csv] too: it is merged as an input,
    its recorded provenance is dropped, and every row now lists
    [combined_data.csv] as one of its sources. *)
Example merge_rerun_reads_own_output :
  let w1 := merge_entry merge_demo_world in
  "combined_data.csv" ∈ matched "*.csv" w1.2 ∧
  option_map read_csv_records (w_files (merge_entry w1.2).2 !! "combined_data.csv") =
  Some (inr [["person_name"; "github_profile_link"; "email"; "source_files"];
             ["Ann"; "https://github.com/ann"; "ann@example.org"; "combined_data.csv, a.csv, b.csv"];
             ["Bob"; "https://github.com/bob"; ""; "combined_data.csv, a.csv"];
             ["Cy"; "https://github.com/cy"; "cy@example.org"; "combined_data.csv, b.csv"]]).
Proof. split; vm_compute; [left|reflexivity]. Qed.

(** Pandas reads the default NA strings as NaN, and the merged file
    writes NaN as an empty cell: a company given as [N/A], a bio [None] or
    a user named [NA] come out empty, although [save_to_csv] had written
    them. *)
Example merge_na_strings_example :
  let text := "person_name,github_profile_link,company,interests" +s+ lf +s+
              "Nia,https://github.com/nia,N/A,None" +s+ lf +s+
              "NA,https://github.com/na,null,towns" +s+ lf in
  let w := mk_world [] [] {[ "stargazers.csv" := text ]} [] in
  option_map read_csv_records (w_files (merge_entry w).2 !! "combined_data.csv") =
  Some (inr [["person_name"; "github_profile_link"; "company"; "interests"; "source_files"];
             ["Nia"; "https://github.com/nia"; ""; ""; "stargazers.csv"];
             [""; "https://github.com/na"; ""; "towns"; "stargazers.csv"]]).
Proof. vm_compute. reflexivity. Qed.

(** A CSV written with a trailing delimiter on its rows (one field more
    than the header) is read with its first field as an implicit index:
    every other field moves one column to the left, so the merge keys the
    row by the wrong column and the names are lost. *)
Example merge_trailing_delimiter_example :
  let text := "person_name,github_profile_link" +s+ lf +s+
              "Ann,https://github.com/ann," +s+ lf +s+
              "Bob,https://github.com/bob," +s+ lf in
  let w := mk_world [] [] {[ "stargazers.csv" := text ]} [] in
  option_map read_csv_records (w_files (merge_entry w).2 !! "combined_data.csv") =
  Some (inr [["person_name"; "github_profile_link"; "source_files"];
             ["https://github.com/ann"; ""; "stargazers.csv, stargazers.csv"]]).
Proof. vm_compute. reflexivity. Qed.

(** A cell with a lone CR, which the collector's writer quotes, is read
    back by pandas with its CR; [to_csv] (terminator LF) writes it bare,
    and reading the combined file splits the row at the CR.  This is why
    the read-back of [combine_csv_files_spec] needs [lf_safe] texts. *)
Example merge_lone_cr_example :
  let cr := String.String CR EmptyString in
  let dq := String.String DQ EmptyString in
  let text := "person_name,github_profile_link,bio" +s+ lf +s+
              "Ann,https://github.com/ann," +s+ dq +s+ "x" +s+ cr +s+ "y" +s+ dq +s+ lf in
  let w := mk_world [] [] {[ "stargazers.csv" := text ]} [] in
  option_map read_csv_records (w_files (merge_entry w).2 !! "combined_data.csv") =
  Some (inr [["person_name"; "github_profile_link"; "bio"; "source_files"];
             ["Ann"; "https://github.com/ann"; "x"]; ["y"; "stargazers.csv"]]).
Proof. vm_compute. reflexivity. Qed.

(** ** Witnesses *)

Lemma combine_csv_files_spec_witness :
  let table := merged_table (files_events (matched "*.csv" merge_demo_world) merge_demo_frames) in
  combine_csv_files "*.csv" "combined_data.csv" merge_demo_world =
    (Ok tt, combined_world merge_demo_world "combined_data.csv" (to_csv_text table)) ∧
  read_csv_records (to_csv_text table) = inr table.
Proof.
  apply (combine_csv_files_spec "*.csv" "combined_data.csv" merge_demo_world merge_demo_frames
           merge_demo_reads merge_demo_linked).
  - vm_compute. congruence.
  - apply (bool_decide_unpack _). vm_compute. reflexivity.
Defined.

Lemma combine_csv_files_no_rows_witness :
  combine_csv_files "*.json" "combined_data.csv" merge_demo_world = (Exc (KeyError "source_files"), merge_demo_world).
Proof.
  apply (combine_csv_files_no_rows "*.json" "combined_data.csv" merge_demo_world []);
    vm_compute; [constructor|reflexivity].
Defined.

Lemma combine_csv_files_missing_link_witness :
  combine_csv_files "*.csv" "combined_data.csv" merge_demo_other =
    (Exc (KeyError "github_profile_link"), merge_demo_other).
Proof.
  apply (combine_csv_files_missing_link "*.csv" "combined_data.csv" merge_demo_other merge_demo_other_frames).
  - assert (matched "*.csv" merge_demo_other = ["people.csv"]) as -> by (vm_compute; reflexivity).
    reads_ok_tac.
  - vm_compute. intros H. inversion H as [|? ? [? Hn]]. discriminate Hn.
Defined.

Lemma merged_table_uniform_witness :
  let evs := [mk_event "a.csv" ["person_name"; "github_profile_link"] [CStr "Ann"; CStr "L1"];
              mk_event "b.csv" ["person_name"; "github_profile_link"] [CStr "Bo"; CStr "L2"];
              mk_event "b.csv" ["person_name"; "github_profile_link"] [CStr "An"; CStr "L1"]] in
  merged_table evs =
    dict_columns ["person_name"; "github_profile_link"] ::
    map (λ k, dict_text_row (dict_columns ["person_name"; "github_profile_link"]) (spec_dict evs k))
      (spec_keys evs).
Proof.
  apply merged_table_uniform.
  - apply (bool_decide_unpack _). vm_compute. reflexivity.
  - apply Forall_cons; split; [done|]. apply Forall_cons; split; [done|].
    apply Forall_cons; split; [done|apply List.Forall_nil].
  - vm_compute. congruence.
Defined.
