(* ===== verification/Pipeline.v ===== *)
(** * The two programs composed: the collector's files merged

    The repository's two programs are meant to run one after the other
    in the same directory: [github_data_collector.py] writes
    [ai-town_stargazers.csv] and [ai-town_forkers.csv], and
    [merge_csv.py]'s [__main__] block merges every [*.csv] of the
    directory into [combined_data.csv].  This file runs [main] and then
    [merge_entry] on the same world and proves, by chaining the theorems
    of the components (the run of [main], the round trip of
    [save_to_csv] through [pd.read_csv], what [glob] lists, the
    refinement of the merge and the output of [combine_csv_files]), that
    the merged file is the table of the profiles [main] collected: one
    row per distinct link, each link of a collected profile present; it
    reads back as that table when no profile text holds a CR that
    [to_csv] leaves unquoted. *)

From S2P Require Import Prelude Json World Paginator Enricher CsvWriter CsvReader Collector Frames Glob Merger MergerOutput.

(** The frame [pd.read_csv] makes of a file of profiles. *)
Definition profiles_frame (rows : list row) : frame :=
  mk_frame PROFILE_KEYS (map (λ r, map cell_of_field (map csv_cell (map snd r))) rows).

(** The link of a profile as the merger keys it: the written text of
    the [github_profile_link] value, read back by pandas. *)
Definition link_cell (r : row) : option cell :=
  option_map (λ v, cell_of_field (csv_cell v)) (assoc_get "github_profile_link" r).

(** ** Reading a profile back *)

Lemma assoc_get_zip_map {V W} (f : V → W) (k : string) (r : list (string * V)) :
  assoc_get k (zip (map fst r) (map (λ kv, f kv.2) r)) = option_map f (assoc_get k r).
Proof. induction r as [|[k' v] r IH]; [done|]. cbn. by case_decide. Qed.

Lemma ev_link_profile f (r : row) :
  map fst r = PROFILE_KEYS →
  ev_link (mk_event f PROFILE_KEYS (map cell_of_field (map csv_cell (map snd r)))) = link_cell r.
Proof.
  intros Hk. unfold ev_link, link_cell. cbn [ev_cols ev_cells]. rewrite <- Hk, !map_map.
  apply (assoc_get_zip_map (λ v, cell_of_field (csv_cell v))).
Qed.

Lemma elem_of_files_events files (g : string → frame) e :
  e ∈ files_events files (map g files) ↔ ∃ f, f ∈ files ∧ e ∈ frame_events f (g f).
Proof.
  unfold files_events. induction files as [|f files IH]; cbn; [set_solver|].
  rewrite elem_of_app, IH. set_solver.
Qed.

(** The profiles of both files have keys [PROFILE_KEYS]. *)
Lemma PROFILE_KEYS_ok : PROFILE_KEYS ≠ [] ∧ NoDup PROFILE_KEYS ∧ "" ∉ PROFILE_KEYS.
Proof.
  split_and!; [done|refine (bool_decide_unpack _ _); vm_compute; exact I|].
  refine (bool_decide_unpack _ _). vm_compute. exact I.
Qed.

Lemma read_profiles file (first : row) rest w :
  Forall (λ r, map fst r = PROFILE_KEYS) (first :: rest) →
  w_files w !! file = Some (String.string_of_list_ascii (dict_csv_text first (first :: rest))) →
  read_csv file w = (Ok (profiles_frame (first :: rest)), w).
Proof.
  intros Hall Hf. pose proof Hall as Hall'. apply Forall_cons in Hall as [H1 Hrest].
  destruct PROFILE_KEYS_ok as (Hne & Hnd & Hemp).
  rewrite (read_csv_dict_csv_text first rest file w); rewrite ?H1; try done.
  - assert (H7 : 2 ≤ length PROFILE_KEYS) by (simpl; lia).
    apply Forall_forall. intros vs Hvs. apply whitespace_record_long. rewrite length_map.
    unfold saved_records in Hvs. apply elem_of_cons in Hvs as [->|(r & -> & Hr)%list_elem_of_fmap].
    + by rewrite H1.
    + rewrite Forall_forall in Hall'. by rewrite !length_map, <- (length_map fst), Hall'.
Qed.

(** ** [main], then [merge_csv.py] *)

Section Pipeline.
Context `{GitHubServer} (fuel k1 k2 : nat) (t1 t2 : Z) (users1 users2 : list json)
  (first1 first2 : row) (rest1 rest2 : list row) (w : world).

(** Both pipelines of [main] list their identities and collect profiles
    (the hypotheses of [Collector.main_writes_both]). *)
Hypothesis Ht1 : pbar_total (respond repo_request) "stargazers_count" = inr (Some t1).
Hypothesis Hc1 : collects stargazers_endpoint 1 k1 users1.
Hypothesis Hk1 : (k1 < fuel)%nat.
Hypothesis Hne1 : users1 ≠ [].
Hypothesis Hs1 : enrich_spec stargazer_login users1 = inr (first1 :: rest1).
Hypothesis Ht2 : pbar_total (respond repo_request) "forks_count" = inr (Some t2).
Hypothesis Hc2 : collects forks_endpoint 1 k2 users2.
Hypothesis Hk2 : (k2 < fuel)%nat.
Hypothesis Hne2 : users2 ≠ [].
Hypothesis Hs2 : enrich_spec fork_owner_login users2 = inr (first2 :: rest2).
(** No text of a collected profile holds a CR that [to_csv] (terminator
    LF) would leave unquoted. *)
Hypothesis Hlf : Forall (λ r, Forall (λ v, lf_safe (csv_cell v)) (map snd r)) ((first1 :: rest1) ++ (first2 :: rest2)).
(** The directory holds no other [*.csv] file. *)
Hypothesis Hcsv : ∀ name, is_Some (w_files w !! name) → glob_match "*.csv" name = false.

(** The profiles in each file [main] writes, and the frame read from it. *)
Definition pipeline_rows (file : string) : list row :=
  if decide (file = STARGAZERS_CSV) then first1 :: rest1 else first2 :: rest2.

Definition pipeline_frame (file : string) : frame := profiles_frame (pipeline_rows file).

(** The world [main] leaves. *)
Definition after_main : world :=
  mk_world [] [] (<[FORKERS_CSV := String.string_of_list_ascii (dict_csv_text first2 (first2 :: rest2))]>
    (<[STARGAZERS_CSV := String.string_of_list_ascii (dict_csv_text first1 (first1 :: rest1))]> (w_files w))) [].

Lemma main_files :
  ∃ w', main fuel w = (Ok tt, w') ∧ w_files w' = w_files after_main.
Proof.
  destruct (main_run_both fuel k1 users1 first1 rest1 t1 k2 users2 first2 rest2 t2 w
              Ht1 Hc1 Hk1 Hne1 Hs1 Ht2 Hc2 Hk2 Hne2 Hs2) as (w' & Hrun & Hf & _).
  by exists w'.
Qed.

Lemma FORKERS_STARGAZERS : FORKERS_CSV ≠ STARGAZERS_CSV.
Proof. by vm_compute. Qed.

Lemma csv_STARGAZERS : glob_match "*.csv" STARGAZERS_CSV = true.
Proof. vm_compute. reflexivity. Qed.

Lemma csv_FORKERS : glob_match "*.csv" FORKERS_CSV = true.
Proof. vm_compute. reflexivity. Qed.

(** [glob.glob("*.csv")] after [main] lists the two files, in some order. *)
Lemma matched_after_main w' :
  w_files w' = w_files after_main → matched "*.csv" w' ≡ₚ [STARGAZERS_CSV; FORKERS_CSV].
Proof.
  intros Hf. pose proof FORKERS_STARGAZERS as Hd. apply NoDup_Permutation.
  - apply NoDup_matched.
  - apply NoDup_cons. split; [|apply NoDup_singleton]. rewrite list_elem_of_singleton. congruence.
  - intros name. rewrite elem_of_matched, Hf, !elem_of_cons, elem_of_nil. cbn [w_files after_main].
    destruct (decide (name = FORKERS_CSV)) as [->|HF].
    { rewrite lookup_insert_eq. split; [intros _; by right; left|intros _; split; [by eexists|apply csv_FORKERS]]. }
    rewrite lookup_insert_ne by done.
    destruct (decide (name = STARGAZERS_CSV)) as [->|HS].
    { rewrite lookup_insert_eq. split; [intros _; by left|intros _; split; [by eexists|apply csv_STARGAZERS]]. }
    rewrite lookup_insert_ne by done. split.
    + intros [Hs Hm]. by rewrite Hcsv in Hm.
    + intros [->|[->|[]]]; done.
Qed.
Lemma Forall2_map_diag {A B} (P : A → B → Prop) (g : A → B) l :
  Forall (λ x, P x (g x)) l → Forall2 P l (map g l).
Proof. induction 1; by constructor. Qed.

Lemma pipeline_rows_keys file : Forall (λ r, map fst r = PROFILE_KEYS) (pipeline_rows file).
Proof. unfold pipeline_rows. case_decide; eapply enrich_spec_keys; done. Qed.

(** [pd.read_csv] reads back, from each of the two files, its profiles. *)
Lemma reads_after_main w' :
  w_files w' = w_files after_main →
  reads_ok w' (matched "*.csv" w') (map pipeline_frame (matched "*.csv" w')).
Proof.
  intros Hf. apply Forall2_map_diag. rewrite (matched_after_main w' Hf).
  pose proof FORKERS_STARGAZERS as Hd.
  unfold pipeline_frame, pipeline_rows.
  apply Forall_cons; split; [|apply Forall_cons; split; [|apply List.Forall_nil]].
  - rewrite decide_True by done. apply read_profiles; [by eapply enrich_spec_keys|].
    rewrite Hf. cbn [w_files after_main]. rewrite lookup_insert_ne by done. apply lookup_insert_eq.
  - rewrite decide_False by done. apply read_profiles; [by eapply enrich_spec_keys|].
    rewrite Hf. cbn [w_files after_main]. apply lookup_insert_eq.
Qed.

Lemma elem_of_pipeline_events files e :
  e ∈ files_events files (map pipeline_frame files) ↔
    ∃ f r, f ∈ files ∧ r ∈ pipeline_rows f ∧
      e = mk_event f PROFILE_KEYS (map cell_of_field (map csv_cell (map snd r))).
Proof.
  rewrite elem_of_files_events. unfold frame_events, pipeline_frame, profiles_frame. cbn [columns frame_rows].
  split.
  - intros (f & Hf & He). apply list_elem_of_In, in_map_iff in He as (c & <- & Hc).
    apply in_map_iff in Hc as (r & <- & Hr). exists f, r. split_and!; [done|by apply list_elem_of_In|done].
  - intros (f & r & Hf & Hr & ->). exists f. split; [done|].
    apply list_elem_of_In, in_map_iff. eexists. split; [done|].
    apply in_map_iff. exists r. by rewrite <- list_elem_of_In.
Qed.

(** Every row read has a link: the merge raises no [KeyError]. *)
Lemma links_after_main files : Forall (λ e, is_Some (ev_link e)) (files_events files (map pipeline_frame files)).
Proof.
  apply Forall_forall. intros e (f & r & _ & Hr & ->)%elem_of_pipeline_events.
  pose proof (proj1 (Forall_forall _ _) (pipeline_rows_keys f) r Hr) as Hk.
  rewrite ev_link_profile by done. unfold link_cell.
  destruct (assoc_get "github_profile_link" r) eqn:E; [by eexists|].
  apply assoc_get_None in E. rewrite Hk in E. exfalso. apply E. unfold PROFILE_KEYS. rewrite !elem_of_cons. by right; left.
Qed.

Lemma pipeline_rows_all f r : r ∈ pipeline_rows f → r ∈ (first1 :: rest1) ++ (first2 :: rest2).
Proof. unfold pipeline_rows. case_decide; set_solver. Qed.

(** Every text the merge writes is [lf_safe]. *)
Lemma pipeline_lf_safe files :
  files ≡ₚ [STARGAZERS_CSV; FORKERS_CSV] →
  Forall (λ e, Forall lf_safe (event_texts e)) (files_events files (map pipeline_frame files)).
Proof.
  intros Hp. apply Forall_forall. intros e (f & r & Hf & Hr & ->)%elem_of_pipeline_events.
  unfold event_texts. cbn [ev_file ev_cols ev_cells]. apply Forall_cons. split.
  { rewrite Hp, !elem_of_cons, elem_of_nil in Hf. destruct Hf as [->|[->|[]]]; vm_compute; reflexivity. }
  apply Forall_app. split; [apply (bool_decide_unpack _); vm_compute; reflexivity|].
  apply pipeline_rows_all in Hr. pose proof (proj1 (Forall_forall _ _) Hlf r Hr) as Hr'.
  rewrite Forall_forall in Hr'. apply Forall_forall.
  intros t (x & -> & (s & -> & (v & -> & Hv)%list_elem_of_fmap)%list_elem_of_fmap)%list_elem_of_fmap.
  unfold cell_of_field. case_decide; [reflexivity|]. by apply Hr'.
Qed.

Lemma pipeline_rows_STARGAZERS : pipeline_rows STARGAZERS_CSV = first1 :: rest1.
Proof. unfold pipeline_rows. by rewrite decide_True. Qed.

Lemma pipeline_rows_FORKERS : pipeline_rows FORKERS_CSV = first2 :: rest2.
Proof. unfold pipeline_rows. rewrite decide_False; [done|apply FORKERS_STARGAZERS]. Qed.

Lemma pipeline_events_nonempty files :
  STARGAZERS_CSV ∈ files → files_events files (map pipeline_frame files) ≠ [].
Proof.
  intros Hs Hnil.
  assert (mk_event STARGAZERS_CSV PROFILE_KEYS (map cell_of_field (map csv_cell (map snd first1)))
            ∈ files_events files (map pipeline_frame files)) as Hin.
  { apply elem_of_pipeline_events. exists STARGAZERS_CSV, first1.
    rewrite pipeline_rows_STARGAZERS. split_and!; [done|by left|done]. }
  rewrite Hnil in Hin. set_solver.
Qed.

(** The links the merge keys are the links of the collected profiles. *)
Lemma pipeline_keys files :
  files ≡ₚ [STARGAZERS_CSV; FORKERS_CSV] →
  ∀ k, k ∈ spec_keys (files_events files (map pipeline_frame files)) ↔
    ∃ r, r ∈ (first1 :: rest1) ++ (first2 :: rest2) ∧ link_cell r = Some k.
Proof.
  intros Hp k. rewrite elem_of_spec_keys, list_elem_of_omap. split.
  - intros (e & (f & r & Hf & Hr & ->)%elem_of_pipeline_events & Hl).
    pose proof (proj1 (Forall_forall _ _) (pipeline_rows_keys f) r Hr) as Hk.
    rewrite ev_link_profile in Hl by done. exists r. split; [|done].
    rewrite Hp, !elem_of_cons, elem_of_nil in Hf. apply elem_of_app.
    destruct Hf as [->|[->|[]]]; [left; by rewrite <- pipeline_rows_STARGAZERS|right; by rewrite <- pipeline_rows_FORKERS].
  - intros (r & Hr & Hl). apply elem_of_app in Hr as [Hr|Hr].
    + exists (mk_event STARGAZERS_CSV PROFILE_KEYS (map cell_of_field (map csv_cell (map snd r)))).
      assert (r ∈ pipeline_rows STARGAZERS_CSV) as Hr' by by rewrite pipeline_rows_STARGAZERS.
      split.
      * apply elem_of_pipeline_events. exists STARGAZERS_CSV, r. split_and!; [rewrite Hp; by left|done|done].
      * rewrite ev_link_profile; [done|]. exact (proj1 (Forall_forall _ _) (pipeline_rows_keys _) r Hr').
    + exists (mk_event FORKERS_CSV PROFILE_KEYS (map cell_of_field (map csv_cell (map snd r)))).
      assert (r ∈ pipeline_rows FORKERS_CSV) as Hr' by by rewrite pipeline_rows_FORKERS.
      split.
      * apply elem_of_pipeline_events. exists FORKERS_CSV, r. split_and!; [rewrite Hp; by right; left|done|done].
      * rewrite ev_link_profile; [done|]. exact (proj1 (Forall_forall _ _) (pipeline_rows_keys _) r Hr').
Qed.

(** C10: the two programs composed: after [main] has written the two
    files of profiles into a directory without other [*.csv] files, the
    [__main__] block of [merge_csv.py] lists the two files, reads back the
    profiles, and writes to [combined_data.csv] (and reports) the table of
    the merged contract, which reads back as that table when no profile
    text holds a CR that [to_csv] leaves unquoted; its links are exactly
    the links of the profiles [main] collected. *)
Theorem collect_then_merge :
  ∃ w', main fuel w = (Ok tt, w') ∧
    let files := matched "*.csv" w' in
    let evs := files_events files (map pipeline_frame files) in
    files ≡ₚ [STARGAZERS_CSV; FORKERS_CSV] ∧
    merge_entry w' = (Ok tt, combined_world w' "combined_data.csv" (to_csv_text (merged_table evs))) ∧
    read_csv_records (to_csv_text (merged_table evs)) = inr (merged_table evs) ∧
    ∀ k, k ∈ spec_keys evs ↔ ∃ r, r ∈ (first1 :: rest1) ++ (first2 :: rest2) ∧ link_cell r = Some k.
Proof.
  destruct main_files as (w' & Hrun & Hf). exists w'. split; [done|]. cbv zeta.
  pose proof (matched_after_main w' Hf) as Hp.
  assert (files_events (matched "*.csv" w') (map pipeline_frame (matched "*.csv" w')) ≠ []) as Hne
    by (apply pipeline_events_nonempty; rewrite Hp; by left).
  destruct (combine_csv_files_run "*.csv" "combined_data.csv" w' (map pipeline_frame (matched "*.csv" w'))
              (reads_after_main w' Hf) (links_after_main _) Hne (pipeline_lf_safe _ Hp)) as [Hc Hr].
  split_and!; [done|exact Hc|exact Hr|by apply pipeline_keys].
Qed.
End Pipeline.

(** ** Both pipelines of [main] on the demo server, then the merger *)

(** Alice starred the repository and forked it: the merged file holds her
    once, with both files as sources. *)
Example collect_then_merge_example :
  let w1 := (@main both_demo_server 5 world0).2 in
  option_map read_csv_records (w_files (merge_entry w1).2 !! "combined_data.csv") =
  Some (inr [["person_name"; "github_profile_link"; "email"; "company"; "interests"; "source_files"];
             ["Alice"; "https://github.com/alice"; ""; ""; "towns";
              "ai-town_stargazers.csv, ai-town_forkers.csv"]]).
Proof. vm_compute. reflexivity. Qed.


Lemma collect_then_merge_witness :
  ∃ w', @main both_demo_server 5 world0 = (Ok tt, w') ∧
    let files := matched "*.csv" w' in
    let evs := files_events files (map (pipeline_frame alice_row alice_row [] []) files) in
    files ≡ₚ [STARGAZERS_CSV; FORKERS_CSV] ∧
    merge_entry w' = (Ok tt, combined_world w' "combined_data.csv" (to_csv_text (merged_table evs))) ∧
    read_csv_records (to_csv_text (merged_table evs)) = inr (merged_table evs) ∧
    ∀ k, k ∈ spec_keys evs ↔ ∃ r, r ∈ [alice_row] ++ [alice_row] ∧ link_cell r = Some k.
Proof.
  apply (@collect_then_merge both_demo_server 5 1 1 2 1 main_stargazers main_forks alice_row alice_row [] []
           world0).
  - vm_compute. reflexivity.
  - apply both_stargazers_collected.
  - lia.
  - vm_compute. congruence.
  - vm_compute. reflexivity.
  - vm_compute. reflexivity.
  - apply both_forks_collected.
  - lia.
  - vm_compute. congruence.
  - vm_compute. reflexivity.
  - apply (bool_decide_unpack _). vm_compute. reflexivity.
  - intros name [v Hv]. cbn in Hv. by rewrite lookup_empty in Hv.
Defined.
